(** * Intro to SIMD Operations: a shallow embedding of [main.cpp]

  The program is one [main] function that
  - adds two 8-float buffers lane-wise, four floats at a time
    (lines 57-98, the warm-up),
  - computes one dot product from an array-of-structures layout
    (lines 117-139),
  - computes 64 dot products against the vector at index 0 from a
    structure-of-arrays layout (lines 156-217, the batched kernel).

  Single-precision arithmetic is the IEEE 754 binary32 instance of the
  Standard Library's [SpecFloat] (precision 24, emax 128, round to nearest
  even, the default rounding of the SSE unit).  Memory is a sequence of allocated blocks of float cells; a
  pointer is a block and an element offset.  Every load and store is
  checked (bounds, 16-byte alignment, initialisation) and recorded, so
  the program runs in a small state-and-fault monad. *)

From Stdlib Require Import ZArith QArith Qabs Lia.
From Stdlib Require Import Floats.SpecFloat.
From stdpp Require Import base option list.

(** ** Single-precision floats *)

Module F32.

Definition prec : Z := 24.
Definition emax : Z := 128.

Definition float : Type := spec_float.

(** [a + b] and [a * b] on [float] operands. *)
Definition add (a b : float) : float := SFadd prec emax a b.
Definition mul (a b : float) : float := SFmul prec emax a b.

(** The conversion [(float)i] of an [int]. *)
Definition of_int (i : Z) : float := binary_normalize prec emax i 0 false.

(** Correctly rounded quotient, used to name the float nearest to a
    decimal fraction. *)
Definition div (a b : float) : float := SFdiv prec emax a b.

(** The literals of the program.  [0.1f] is the float nearest to one
    tenth, 13421773 * 2^-27. *)
Definition lit_0_1 : float := S754_finite false 13421773 (-27).
Definition lit_1_0 : float := S754_finite false 8388608 (-23).
Definition lit_2_0 : float := S754_finite false 8388608 (-22).

(** The rational value of a finite float. *)
Definition to_Q (f : float) : option Q :=
  match f with
  | S754_zero _ => Some 0%Q
  | S754_finite s m e =>
      Some (inject_Z (cond_Zopp s (Z.pos m)) * Qpower 2 e)%Q
  | S754_infinity _ | S754_nan => None
  end.

(** [within tol q f]: [f] is finite and its value is less than [tol]
    away from [q]. *)
Definition within (tol q : Q) (f : float) : Prop :=
  match to_Q f with
  | Some v => (Qabs (v - q) < tol)%Q
  | None => False
  end.

(** [exactly q f]: [f] is finite and its value is the rational [q]. *)
Definition exactly (q : Q) (f : float) : Prop :=
  match to_Q f with
  | Some v => (v == q)%Q
  | None => False
  end.

End F32.

Abbreviation float := F32.float.

(** ** The 128-bit register: four packed floats *)

Record __m128 : Type := M128 { e0 : float; e1 : float; e2 : float; e3 : float }.

(** [v.m128_f32[k]] for [k] in 0..3. *)
Definition lane (v : __m128) (k : nat) : float :=
  match k with
  | 0 => e0 v
  | 1 => e1 v
  | 2 => e2 v
  | _ => e3 v
  end.

Definition lanes (v : __m128) : list float := [e0 v; e1 v; e2 v; e3 v].

(** The same float in all four lanes. *)
Definition splat (a : float) : __m128 := M128 a a a a.

Definition _mm_add_ps (a b : __m128) : __m128 :=
  M128 (F32.add (e0 a) (e0 b)) (F32.add (e1 a) (e1 b))
       (F32.add (e2 a) (e2 b)) (F32.add (e3 a) (e3 b)).

Definition _mm_mul_ps (a b : __m128) : __m128 :=
  M128 (F32.mul (e0 a) (e0 b)) (F32.mul (e1 a) (e1 b))
       (F32.mul (e2 a) (e2 b)) (F32.mul (e3 a) (e3 b)).

(** ** Memory: allocated blocks of float cells *)

Abbreviation block := nat (only parsing).

(** A [float*]: a block and an offset counted in floats. *)
Record ptr : Type := Ptr { blk : block; ofs : nat }.

Definition ptr_add (p : ptr) (i : nat) : ptr := Ptr (blk p) (ofs p + i).
Infix "+>" := ptr_add (at level 50, left associativity).

(** A cell that was never written holds no value. *)
Abbreviation cell := (option float).

Inductive access : Type :=
| Load (p : ptr) (n : nat)
| Store (p : ptr) (n : nat).

Record state : Type := State { heap : list (list cell); log : list access }.

Inductive fault : Type :=
| BadPointer | OutOfBounds | Misaligned | Uninitialised | OutOfFuel.

Inductive result (A : Type) : Type :=
| Ok (a : A) (s : state)
| Fault (f : fault).
Arguments Ok {A} a s.
Arguments Fault {A} f.

Definition M (A : Type) : Type := state -> result A.

Definition ret {A} (a : A) : M A := fun s => Ok a s.
Definition throw {A} (f : fault) : M A := fun _ => Fault f.
Definition bind {A B} (m : M A) (k : A -> M B) : M B :=
  fun s => match m s with
           | Ok a s' => k a s'
           | Fault f => Fault f
           end.

Notation "x <- m ;; k" := (bind m (fun x => k))
  (at level 90, m at level 80, right associativity).
Notation "m ;;; k" := (bind m (fun _ => k))
  (at level 90, right associativity).

Definition record (a : access) : M unit :=
  fun s => Ok tt (State (heap s) (log s ++ [a])).

(** The float at [p], with every way the access can go wrong. *)
Definition read_at (h : list (list cell)) (p : ptr) : fault + float :=
  match h !! blk p with
  | None => inl BadPointer
  | Some b =>
      match b !! ofs p with
      | None => inl OutOfBounds
      | Some None => inl Uninitialised
      | Some (Some v) => inr v
      end
  end.

Definition peek (p : ptr) : M float :=
  fun s => match read_at (heap s) p with
           | inr v => Ok v s
           | inl f => Fault f
           end.

(** Overwrite the cells [ofs p .. ofs p + length vs - 1] of [p]'s block. *)
Definition poke (p : ptr) (vs : list float) : M unit :=
  fun s => match heap s !! blk p with
           | None => Fault BadPointer
           | Some b =>
               if decide (ofs p + length vs <= length b) then
                 Ok tt (State (<[blk p := list_inserts (ofs p) (Some <$> vs) b]> (heap s))
                              (log s))
               else Fault OutOfBounds
           end.

(** [_aligned_malloc(sizeof(float) * n, 16)]: a fresh block of [n]
    indeterminate cells whose first float is 16-byte aligned.  Allocation
    is taken to succeed, as the program does. *)
Definition _aligned_malloc (n : nat) : M ptr :=
  fun s => Ok (Ptr (length (heap s)) 0)
              (State (heap s ++ [replicate n None]) (log s)).

(** Floats are 4 bytes and blocks start on a 16-byte boundary. *)
Definition aligned16 (p : ptr) : Prop := ofs p mod 4 = 0.

Definition check_aligned (p : ptr) : M unit :=
  if decide (aligned16 p) then ret tt else throw Misaligned.

(** Scalar accesses [p[0]] and [p[0] = v]. *)
Definition load_f (p : ptr) : M float :=
  v <- peek p ;; record (Load p 1) ;;; ret v.

Definition store_f (p : ptr) (v : float) : M unit :=
  poke p [v] ;;; record (Store p 1).

(** ** The SSE intrinsics the program uses *)

Definition _mm_load_ps (p : ptr) : M __m128 :=
  check_aligned p ;;;
  a <- peek p ;;
  b <- peek (p +> 1) ;;
  c <- peek (p +> 2) ;;
  d <- peek (p +> 3) ;;
  record (Load p 4) ;;;
  ret (M128 a b c d).

Definition _mm_load1_ps (p : ptr) : M __m128 :=
  a <- peek p ;;
  record (Load p 1) ;;;
  ret (splat a).

Definition _mm_store_ps (p : ptr) (v : __m128) : M unit :=
  check_aligned p ;;;
  poke p (lanes v) ;;;
  record (Store p 4).

(** ** Counted loops

  [for (int i = start; i < bound; i += step) body].  The counter never
  exceeds [bound + step], at most 68 in this program, so the [int] does
  not wrap and is a [nat] here. *)

Fixpoint for_loop (fuel : nat) (i bound step : nat) (body : nat -> M unit) : M unit :=
  match fuel with
  | O => throw OutOfFuel
  | S fuel' =>
      if decide (i < bound) then
        body i ;;; for_loop fuel' (i + step) bound step body
      else ret tt
  end.

Definition for_ (start bound step : nat) (body : nat -> M unit) : M unit :=
  for_loop (S bound) start bound step body.

(** ** The program

  Console output ([printf], [printFloats], [_getch]) is left out of these
  definitions: it reads the buffers and changes nothing in memory.  The
  program with its printing is [main_io], further down. *)

(** Lines 60-63: [foo[i] = i; bar[i] = i * 0.1f] for [i] in 0..7. *)
Definition warmup_init (foo bar : ptr) : M unit :=
  for_ 0 8 1 (fun i =>
    store_f (foo +> i) (F32.of_int (Z.of_nat i)) ;;;
    store_f (bar +> i) (F32.mul (F32.of_int (Z.of_nat i)) F32.lit_0_1)).

(** Lines 69-98: the lane-wise sum of [foo] and [bar], four at a time. *)
Definition warmup_add (foo bar results : ptr) : M unit :=
  for_ 0 8 4 (fun i =>
    a <- _mm_load_ps (foo +> i) ;;
    b <- _mm_load_ps (bar +> i) ;;
    let c := _mm_add_ps a b in
    _mm_store_ps (results +> i) c).

(** Lines 117-136: one dot product from the array-of-structures layout;
    the result is the local [product]. *)
Definition aos_dot (results : ptr) : M float :=
  vectors <- _aligned_malloc 8 ;;
  store_f (vectors +> 0) F32.lit_1_0 ;;;
  store_f (vectors +> 1) F32.lit_1_0 ;;;
  store_f (vectors +> 2) F32.lit_1_0 ;;;
  store_f (vectors +> 3) F32.lit_1_0 ;;;
  store_f (vectors +> 4) F32.lit_2_0 ;;;
  store_f (vectors +> 5) F32.lit_2_0 ;;;
  store_f (vectors +> 6) F32.lit_2_0 ;;;
  store_f (vectors +> 7) F32.lit_2_0 ;;;
  a <- _mm_load_ps vectors ;;
  b <- _mm_load_ps (vectors +> 4) ;;
  let c := _mm_mul_ps a b in
  _mm_store_ps results c ;;;
  r0 <- load_f (results +> 0) ;;
  r1 <- load_f (results +> 1) ;;
  r2 <- load_f (results +> 2) ;;
  r3 <- load_f (results +> 3) ;;
  ret (F32.add (F32.add r0 r1) (F32.add r2 r3)).

(** Lines 166-176: every vector but the first is (0.1, 0.1, 0.1, 0.1), the
    first is (1, 1, 1, 1).  The source fixes the length at 64; it is the
    parameter [N] here. *)
Definition soa_fill (N : nat) (x y z w : ptr) : M unit :=
  for_ 1 N 1 (fun i =>
    store_f (x +> i) F32.lit_0_1 ;;;
    store_f (y +> i) F32.lit_0_1 ;;;
    store_f (z +> i) F32.lit_0_1 ;;;
    store_f (w +> i) F32.lit_0_1) ;;;
  store_f (x +> 0) F32.lit_1_0 ;;;
  store_f (y +> 0) F32.lit_1_0 ;;;
  store_f (w +> 0) F32.lit_1_0 ;;;
  store_f (z +> 0) F32.lit_1_0.

(** Lines 201-215: the body of the kernel's loop, for the block that
    starts at [i]. *)
Definition soa_block (x1 y1 z1 w1 : __m128) (x y z w dp : ptr) (i : nat) : M unit :=
  lx <- _mm_load_ps (x +> i) ;;
  let dx := _mm_mul_ps x1 lx in
  ly <- _mm_load_ps (y +> i) ;;
  let dy := _mm_mul_ps y1 ly in
  lz <- _mm_load_ps (z +> i) ;;
  let dz := _mm_mul_ps z1 lz in
  lw <- _mm_load_ps (w +> i) ;;
  let dw := _mm_mul_ps w1 lw in
  let dx := _mm_add_ps dx dy in
  let dz := _mm_add_ps dz dw in
  let dx := _mm_add_ps dx dz in
  _mm_store_ps (dp +> i) dx.

(** Lines 198-217: the loop over the blocks, given the four broadcast
    registers.  The source's bound 64 is the parameter [N]. *)
Definition soa_loop (N : nat) (x1 y1 z1 w1 : __m128) (x y z w dp : ptr) : M unit :=
  for_ 0 N 4 (soa_block x1 y1 z1 w1 x y z w dp).

(** Lines 180-217: the batched dot-product kernel: the four broadcast
    loads of the reference vector, then the loop. *)
Definition soa_kernel (N : nat) (x y z w dp : ptr) : M unit :=
  x1 <- _mm_load1_ps (x +> 0) ;;
  y1 <- _mm_load1_ps (y +> 0) ;;
  z1 <- _mm_load1_ps (z +> 0) ;;
  w1 <- _mm_load1_ps (w +> 0) ;;
  soa_loop N x1 y1 z1 w1 x y z w dp.

(** Lines 57-98: the warm-up, up to the first [printFloats]. *)
Record warm_bufs : Type := WarmBufs { wb_foo : ptr; wb_bar : ptr; wb_results : ptr }.

Definition warmup : M warm_bufs :=
  foo <- _aligned_malloc 8 ;;
  bar <- _aligned_malloc 8 ;;
  warmup_init foo bar ;;;
  results <- _aligned_malloc 8 ;;
  warmup_add foo bar results ;;;
  ret (WarmBufs foo bar results).

(** Lines 156-217: the structure-of-arrays buffers, their contents and the
    kernel. *)
Record soa_bufs : Type :=
  SoaBufs { sb_x : ptr; sb_y : ptr; sb_z : ptr; sb_w : ptr; sb_dp : ptr }.

Definition soa_alloc (N : nat) : M soa_bufs :=
  x <- _aligned_malloc N ;;
  y <- _aligned_malloc N ;;
  z <- _aligned_malloc N ;;
  w <- _aligned_malloc N ;;
  dp <- _aligned_malloc N ;;
  ret (SoaBufs x y z w dp).

(** Lines 156-176: the buffers allocated and filled. *)
Definition soa_setup (N : nat) : M soa_bufs :=
  b <- soa_alloc N ;;
  soa_fill N (sb_x b) (sb_y b) (sb_z b) (sb_w b) ;;;
  ret b.

Definition soa_demo (N : nat) : M soa_bufs :=
  b <- soa_setup N ;;
  soa_kernel N (sb_x b) (sb_y b) (sb_z b) (sb_w b) (sb_dp b) ;;;
  ret b.

(** What [main] leaves behind: its buffers and the local [product]. *)
Record locals : Type :=
  Locals { l_warm : warm_bufs; l_product : float; l_soa : soa_bufs }.

Definition main : M locals :=
  wb <- warmup ;;
  product <- aos_dot (wb_results wb) ;;
  sb <- soa_demo 64 ;;
  ret (Locals wb product sb).

(** The machine before [main]: nothing allocated, nothing accessed. *)
Definition boot : state := State [] [].

(** The state [main] is in when it reaches the kernel (lines 57-176 done):
    the structure-of-arrays buffers are blocks 4 to 8. *)
Definition before_kernel : state :=
  match (wb <- warmup ;; aos_dot (wb_results wb) ;;; soa_setup 64) boot with
  | Ok _ s => s
  | Fault _ => boot
  end.

(** ** What the kernel is meant to compute *)

(** One dot product, the four products summed as the kernel's pairwise
    tree does. *)
Definition dot_tree (x0 y0 z0 w0 xi yi zi wi : float) : float :=
  F32.add (F32.add (F32.mul x0 xi) (F32.mul y0 yi))
          (F32.add (F32.mul z0 zi) (F32.mul w0 wi)).

(** The same four products summed left to right. *)
Definition dot_fold (x0 y0 z0 w0 xi yi zi wi : float) : float :=
  F32.add (F32.add (F32.add (F32.mul x0 xi) (F32.mul y0 yi)) (F32.mul z0 zi))
          (F32.mul w0 wi).

(** The accesses of one block iteration and of a whole kernel run, in
    program order. *)
Definition block_accesses (x y z w dp : ptr) (i : nat) : list access :=
  [Load (x +> i) 4; Load (y +> i) 4; Load (z +> i) 4; Load (w +> i) 4;
   Store (dp +> i) 4].

Definition block_starts (N : nat) : list nat := (fun k => 4 * k) <$> seq 0 (N / 4).

Definition loop_accesses (N : nat) (x y z w dp : ptr) : list access :=
  flat_map (block_accesses x y z w dp) (block_starts N).

Definition kernel_accesses (N : nat) (x y z w dp : ptr) : list access :=
  [Load (x +> 0) 1; Load (y +> 0) 1; Load (z +> 0) 1; Load (w +> 0) 1]
  ++ loop_accesses N x y z w dp.

(** The register a block iteration stores: the four lane-wise products
    reduced by the pairwise tree of lines 210-212. *)
Definition block_sums (x1 y1 z1 w1 lx ly lz lw : __m128) : __m128 :=
  _mm_add_ps (_mm_add_ps (_mm_mul_ps x1 lx) (_mm_mul_ps y1 ly))
             (_mm_add_ps (_mm_mul_ps z1 lz) (_mm_mul_ps w1 lw)).

(** An access stays inside a buffer of [n] floats. *)
Definition in_bounds (n : nat) (a : access) : Prop :=
  match a with
  | Load p k | Store p k => ofs p + k <= n
  end.

Definition lit_4_0 : float := S754_finite false 8388608 (-21).
Definition lit_8_0 : float := S754_finite false 8388608 (-20).
(** The float nearest to 0.4, 13421773 * 2^-25. *)
Definition lit_0_4 : float := S754_finite false 13421773 (-25).

(** The sum the warm-up forms in [results[i]]: [foo[i] + bar[i]] with
    [foo[i] = i] and [bar[i] = i * 0.1f]. *)
Definition warm_value (i : Z) : float :=
  F32.add (F32.of_int i) (F32.mul (F32.of_int i) F32.lit_0_1).

(** What [soa_fill] writes into each coordinate buffer. *)
Definition filled (N : nat) : list float := F32.lit_1_0 :: replicate (N - 1) F32.lit_0_1.

(** Five buffers of their own holding the given floats, the result buffer
    indeterminate: the kernel's inputs in isolation. *)
Definition isolated (xs ys zs ws : list float) : state :=
  State [Some <$> xs; Some <$> ys; Some <$> zs; Some <$> ws;
         replicate (length xs) None] [].

(** Every block but [bd] is as it was. *)
Definition untouched_but (bd : nat) (s t : state) : Prop :=
  length (heap t) = length (heap s)
  /\ forall b, b <> bd -> heap t !! b = heap s !! b.

(** Every store among the accesses goes to block [bd]. *)
Definition stores_only_to (bd : nat) (l : list access) : Prop :=
  Forall (fun a => match a with
                   | Store p _ => blk p = bd
                   | Load _ _ => True
                   end) l.

(** Block [k] of a buffer: its floats [4k .. 4k+3]. *)
Definition chunk {A} (k : nat) (l : list A) : list A := take 4 (drop (4 * k) l).

(** The result buffer the loop leaves when run, with the given registers,
    on buffers of their own that hold just the given floats. *)
Definition loop_result (x1 y1 z1 w1 : __m128) (xs ys zs ws : list float)
  : option (list cell) :=
  match soa_loop (length xs) x1 y1 z1 w1
                 (Ptr 0 0) (Ptr 1 0) (Ptr 2 0) (Ptr 3 0) (Ptr 4 0)
                 (isolated xs ys zs ws) with
  | Ok _ t => heap t !! 4
  | Fault _ => None
  end.

(** The loop of lines 198-217 run on each 4-element block in isolation,
    every block with the same registers [x1 y1 z1 w1] handed in, the
    results concatenated in block order. *)
Definition loop_blockwise_result (x1 y1 z1 w1 : __m128) (xs ys zs ws : list float)
  : option (list cell) :=
  @concat cell <$> mapM (fun k => loop_result x1 y1 z1 w1 (chunk k xs) (chunk k ys)
                                        (chunk k zs) (chunk k ws))
                  (seq 0 (length xs / 4)).

(** The result buffer the whole kernel, broadcast loads included, leaves
    on buffers of their own that hold just the given floats. *)
Definition kernel_result (xs ys zs ws : list float) : option (list cell) :=
  match soa_kernel (length xs) (Ptr 0 0) (Ptr 1 0) (Ptr 2 0) (Ptr 3 0) (Ptr 4 0)
                   (isolated xs ys zs ws) with
  | Ok _ t => heap t !! 4
  | Fault _ => None
  end.

(** The whole kernel of lines 180-217 run on each 4-element block in
    isolation, the results concatenated in block order.  Each run makes its
    own broadcast loads, so each block is measured against its own first
    vector. *)
Definition kernel_blockwise_result (xs ys zs ws : list float) : option (list cell) :=
  @concat cell <$> mapM (fun k => kernel_result (chunk k xs) (chunk k ys)
                                                (chunk k zs) (chunk k ws))
                  (seq 0 (length xs / 4)).

(** ** The kernel's contract and the loop's invariant *)

Section Contract.

(** Buffer length, the blocks of the five buffers and what the four
    coordinate buffers hold. *)
Variable N : nat.
Variables bx by_ bz bw bd : block.
Variables xs ys zs ws : list float.

Let x := Ptr bx 0.
Let y := Ptr by_ 0.
Let z := Ptr bz 0.
Let w := Ptr bw 0.
Let dp := Ptr bd 0.

(** The caller's side of the contract: four initialised coordinate
    buffers of [N] floats, and a result buffer of [N] cells in a block
    of its own, whatever it holds. *)
Record soa_ready (s : state) : Prop := SoaReady {
  rdy_x : heap s !! bx = Some (Some <$> xs);
  rdy_y : heap s !! by_ = Some (Some <$> ys);
  rdy_z : heap s !! bz = Some (Some <$> zs);
  rdy_w : heap s !! bw = Some (Some <$> ws);
  rdy_dp : exists d, heap s !! bd = Some d /\ length d = N;
  rdy_len : length xs = N /\ length ys = N /\ length zs = N /\ length ws = N;
  rdy_sep : bd <> bx /\ bd <> by_ /\ bd <> bz /\ bd <> bw }.

(** The registers the loop multiplies by. *)
Variables x1 y1 z1 w1 : __m128.

(** Cell [i] of the result buffer [d] holds the pairwise-tree sum of the
    products of vector [i] with lane [i mod 4] of the registers. *)
Definition holds_lane (d : list cell) (i : nat) : Prop :=
  forall xi yi zi wi,
    xs !! i = Some xi -> ys !! i = Some yi ->
    zs !! i = Some zi -> ws !! i = Some wi ->
    d !! i = Some (Some (dot_tree (lane x1 (i mod 4)) (lane y1 (i mod 4))
                                  (lane z1 (i mod 4)) (lane w1 (i mod 4))
                                  xi yi zi wi)).

(** The state [t] reached from [s] by [k] block iterations: only the
    result block changed, its first [4 * k] cells hold their sums, the
    rest is as it was, and the log grew by the accesses of the [k]
    blocks. *)
Record after_blocks (s : state) (k : nat) (t : state) : Prop := AfterBlocks {
  ab_heap : exists d0 d,
      heap s !! bd = Some d0 /\ heap t = <[bd := d]> (heap s) /\ length d = N
      /\ (forall i, i < 4 * k -> holds_lane d i)
      /\ (forall i, 4 * k <= i -> d !! i = d0 !! i);
  ab_log : log t = log s
             ++ flat_map (block_accesses x y z w dp) ((fun j => 4 * j) <$> seq 0 k) }.

End Contract.

(** ** Cells, and the console

  The rest of [main.cpp]: [printFloats] (lines 242-249) and the [printf]
  calls of [main].  What is printed is kept as a sequence of items; the
  digits [%f] produces for a float are not modelled. *)

#[global] Instance ptr_eq_dec : EqDecision ptr.
Proof. solve_decision. Defined.

(** The cell a pointer designates: [None] outside every block, [Some None]
    for a cell never written. *)
Definition cell_at (s : state) (p : ptr) : option cell :=
  match heap s !! blk p with
  | Some d => d !! ofs p
  | None => None
  end.

(** A pointer into the four floats that start at [p]. *)
Definition in_quad (p q : ptr) : Prop :=
  blk q = blk p /\ ofs p <= ofs q < ofs p + 4.

Inductive out : Type :=
| PrintF (v : float)
| Space
| Newline.

(** Programs that also print: the console so far is threaded through. *)
Definition IO (A : Type) : Type := list out -> M (A * list out).

Definition io_ret {A} (a : A) : IO A := fun c => ret (a, c).
Definition io_bind {A B} (m : IO A) (k : A -> IO B) : IO B :=
  fun c => bind (m c) (fun ac => k (fst ac) (snd ac)).
Definition lift {A} (m : M A) : IO A := fun c => bind m (fun a => ret (a, c)).
Definition emit (items : list out) : IO unit := fun c => ret (tt, c ++ items).

Notation "x <~ m ;; k" := (io_bind m (fun x => k))
  (at level 90, m at level 80, right associativity).
Notation "m ~~> k" := (io_bind m (fun _ => k))
  (at level 90, right associativity).

Fixpoint io_for (fuel : nat) (i bound step : nat) (body : nat -> IO unit) : IO unit :=
  match fuel with
  | O => lift (throw OutOfFuel)
  | S fuel' =>
      if decide (i < bound) then
        body i ~~> io_for fuel' (i + step) bound step body
      else io_ret tt
  end.

Definition io_for_ (start bound step : nat) (body : nat -> IO unit) : IO unit :=
  io_for (S bound) start bound step body.

(** Lines 242-249.  [length] is an [int]: the loop does nothing when it is
    zero or negative. *)
Definition printFloats (output : ptr) (length : Z) : IO unit :=
  io_for_ 0 (Z.to_nat length) 1 (fun i =>
    v <~ lift (load_f (output +> i)) ;;
    emit [PrintF v] ~~>
    emit [Newline]) ~~>
  emit [Newline].

(** Lines 69-98 with the [printf] of line 86. *)
Definition warmup_add_io (foo bar results : ptr) : IO unit :=
  io_for_ 0 8 4 (fun i =>
    a <~ lift (_mm_load_ps (foo +> i)) ;;
    emit [PrintF (lane a 0); Space] ~~>
    b <~ lift (_mm_load_ps (bar +> i)) ;;
    let c := _mm_add_ps a b in
    lift (_mm_store_ps (results +> i) c)).

(** [_getch()]: waits for a key, which [main] discards. *)
Definition _getch : IO unit := io_ret tt.

(** Lines 50-239: [main] with everything it prints. *)
Definition main_io : IO locals :=
  foo <~ lift (_aligned_malloc 8) ;;
  bar <~ lift (_aligned_malloc 8) ;;
  lift (warmup_init foo bar) ~~>
  results <~ lift (_aligned_malloc 8) ;;
  warmup_add_io foo bar results ~~>
  emit [Newline; Newline] ~~>
  printFloats results 8 ~~>
  product <~ lift (aos_dot results) ;;
  emit [PrintF product; Space; Newline; Newline] ~~>
  sb <~ lift (soa_setup 64) ;;
  lift (soa_kernel 64 (sb_x sb) (sb_y sb) (sb_z sb) (sb_w sb) (sb_dp sb)) ~~>
  printFloats (sb_dp sb) 8 ~~>
  _getch ~~>
  io_ret (Locals (WarmBufs foo bar results) product sb).

(** What [printFloats] prints for the floats [vs]. *)
Definition printed (vs : list float) : list out :=
  flat_map (fun v => [PrintF v; Newline]) vs ++ [Newline].

(** * Properties *)

(** ** The literals *)

Example lit_0_1_nearest :
  F32.div (F32.of_int 1) (F32.of_int 10) = F32.lit_0_1.
Proof. vm_compute. reflexivity. Qed.

Example lit_1_0_is_one : F32.of_int 1 = F32.lit_1_0 /\ F32.of_int 2 = F32.lit_2_0.
Proof. vm_compute. auto. Qed.

Example tenth_q : F32.within (1 # 100000000) (1 # 10) F32.lit_0_1.
Proof. vm_compute. reflexivity. Qed.

(** ** The checks of the memory model are live *)

(** A bound that is not a multiple of four makes the last block read past
    the buffers; a pointer that is not on a 16-byte boundary, a cell never
    written and a block never allocated are refused as well. *)
Example ragged_length_overruns :
  soa_kernel 6 (Ptr 0 0) (Ptr 1 0) (Ptr 2 0) (Ptr 3 0) (Ptr 4 0)
             (isolated (filled 6) (filled 6) (filled 6) (filled 6))
  = Fault OutOfBounds.
Proof. vm_compute. reflexivity. Qed.

Example longer_loop_overruns :
  soa_kernel 68 (Ptr 4 0) (Ptr 5 0) (Ptr 6 0) (Ptr 7 0) (Ptr 8 0) before_kernel
  = Fault OutOfBounds.
Proof. vm_compute. reflexivity. Qed.

Example unaligned_load_faults : _mm_load_ps (Ptr 4 1) before_kernel = Fault Misaligned.
Proof. vm_compute. reflexivity. Qed.

Example unwritten_cell_faults : _mm_load_ps (Ptr 8 0) before_kernel = Fault Uninitialised.
Proof. vm_compute. reflexivity. Qed.

Example unallocated_block_faults : _mm_load_ps (Ptr 9 0) before_kernel = Fault BadPointer.
Proof. vm_compute. reflexivity. Qed.

(** [main] reaches the kernel in [before_kernel] and ends where the kernel
    ends. *)
Lemma main_through_before_kernel :
  exists l t,
    main boot = Ok l t
    /\ l_soa l = SoaBufs (Ptr 4 0) (Ptr 5 0) (Ptr 6 0) (Ptr 7 0) (Ptr 8 0)
    /\ soa_kernel 64 (Ptr 4 0) (Ptr 5 0) (Ptr 6 0) (Ptr 7 0) (Ptr 8 0) before_kernel
       = Ok tt t.
Proof.
  eexists. eexists. split; [vm_compute; reflexivity|].
  split; [reflexivity | vm_compute; reflexivity].
Qed.

(** ** Reasoning about runs *)

Lemma bind_ok {A B} (m : M A) (k : A -> M B) s a s' :
  m s = Ok a s' -> bind m k s = k a s'.
Proof. intros E. unfold bind. rewrite E. reflexivity. Qed.

Lemma peek_ok s b o (vs : list float) v :
  heap s !! b = Some (Some <$> vs) -> vs !! o = Some v ->
  peek (Ptr b o) s = Ok v s.
Proof.
  intros Hb Hv. unfold peek, read_at. cbn [blk ofs]. rewrite Hb.
  rewrite list_lookup_fmap, Hv. reflexivity.
Qed.

Lemma _mm_load_ps_ok s b o (vs : list float) a0 a1 a2 a3 :
  heap s !! b = Some (Some <$> vs) -> o mod 4 = 0 ->
  vs !! o = Some a0 -> vs !! (o + 1) = Some a1 ->
  vs !! (o + 2) = Some a2 -> vs !! (o + 3) = Some a3 ->
  _mm_load_ps (Ptr b o) s
  = Ok (M128 a0 a1 a2 a3) (State (heap s) (log s ++ [Load (Ptr b o) 4])).
Proof.
  intros Hb Hal H0 H1 H2 H3. unfold _mm_load_ps, check_aligned.
  rewrite decide_True by exact Hal.
  rewrite (bind_ok _ _ s tt s) by reflexivity.
  rewrite (bind_ok _ _ s a0 s) by (eapply peek_ok; eauto).
  rewrite (bind_ok _ _ s a1 s) by (eapply peek_ok; eauto).
  rewrite (bind_ok _ _ s a2 s) by (eapply peek_ok; eauto).
  rewrite (bind_ok _ _ s a3 s) by (eapply peek_ok; eauto).
  reflexivity.
Qed.

Lemma _mm_load1_ps_ok s b o (vs : list float) a :
  heap s !! b = Some (Some <$> vs) -> vs !! o = Some a ->
  _mm_load1_ps (Ptr b o) s
  = Ok (splat a) (State (heap s) (log s ++ [Load (Ptr b o) 1])).
Proof.
  intros Hb Ha. unfold _mm_load1_ps.
  rewrite (bind_ok _ _ s a s) by (eapply peek_ok; eauto).
  reflexivity.
Qed.

Lemma _mm_store_ps_ok s b o (d : list cell) v :
  heap s !! b = Some d -> o mod 4 = 0 -> o + 4 <= length d ->
  _mm_store_ps (Ptr b o) v s
  = Ok tt (State (<[b := list_inserts o (Some <$> lanes v) d]> (heap s))
                 (log s ++ [Store (Ptr b o) 4])).
Proof.
  intros Hb Hal Hlen. unfold _mm_store_ps, check_aligned.
  rewrite decide_True by exact Hal.
  rewrite (bind_ok _ _ s tt s) by reflexivity.
  unfold bind, poke. cbn [blk ofs lanes length]. rewrite Hb.
  rewrite decide_True by exact Hlen. reflexivity.
Qed.

(** A counted loop whose body keeps an invariant runs its [n] iterations
    and stops, given more than [n] units of fuel. *)
Lemma for_loop_rule (Inv : nat -> state -> Prop) body step bound n :
  forall fuel start s,
    n < fuel ->
    (forall k, k < n -> start + k * step < bound) ->
    bound <= start + n * step ->
    Inv 0 s ->
    (forall k t, k < n -> Inv k t ->
       exists t', body (start + k * step) t = Ok tt t' /\ Inv (S k) t') ->
    exists s', for_loop fuel start bound step body s = Ok tt s' /\ Inv n s'.
Proof.
  revert Inv. induction n as [|n IH]; intros Inv fuel start s Hf Hlt Hge H0 Hbody.
  - destruct fuel as [|fuel]; [lia|]. simpl.
    rewrite decide_False by lia. exists s. split; [reflexivity | exact H0].
  - destruct fuel as [|fuel]; [lia|]. simpl.
    rewrite decide_True by (specialize (Hlt 0); lia).
    destruct (Hbody 0 s ltac:(lia) H0) as (s1 & E1 & I1).
    replace (start + 0 * step) with start in E1 by lia.
    rewrite (bind_ok _ _ _ _ _ E1).
    apply (IH (fun k => Inv (S k))); try assumption; try lia.
    + intros k Hk. specialize (Hlt (S k)). lia.
    + intros k t Hk It.
      destruct (Hbody (S k) t ltac:(lia) It) as (t' & E & I').
      exists t'. split; [|exact I'].
      replace (start + step + k * step) with (start + S k * step) by lia.
      exact E.
Qed.

Lemma four_at (l : list float) i :
  i + 4 <= length l ->
  exists a0 a1 a2 a3,
    l !! i = Some a0 /\ l !! (i + 1) = Some a1 /\
    l !! (i + 2) = Some a2 /\ l !! (i + 3) = Some a3.
Proof.
  intros H.
  destruct (lookup_lt_is_Some_2 l i) as [a0 E0]; [lia|].
  destruct (lookup_lt_is_Some_2 l (i + 1)) as [a1 E1]; [lia|].
  destruct (lookup_lt_is_Some_2 l (i + 2)) as [a2 E2]; [lia|].
  destruct (lookup_lt_is_Some_2 l (i + 3)) as [a3 E3]; [lia|].
  exists a0, a1, a2, a3. auto.
Qed.

Lemma mod4_offset k c : c < 4 -> (4 * k + c) mod 4 = c.
Proof.
  intros Hc. rewrite Nat.add_comm, Nat.mul_comm, Nat.Div0.mod_add.
  apply Nat.mod_small. exact Hc.
Qed.

(** More fuel does not change a run that completed. *)
Lemma for_loop_mono body step bound :
  forall fuel fuel' i s t,
    for_loop fuel i bound step body s = Ok tt t -> fuel <= fuel' ->
    for_loop fuel' i bound step body s = Ok tt t.
Proof.
  induction fuel as [|fuel IH]; intros fuel' i s t E Hle; [discriminate E|].
  destruct fuel' as [|fuel']; [lia|].
  cbn [for_loop] in *. destruct (decide (i < bound)); [|exact E].
  unfold bind in *. destruct (body i s) as [[] s1|]; [|discriminate E].
  apply IH; [exact E | lia].
Qed.

(** A run of the first [k] iterations followed by a run from iteration [k]
    on is a run of the whole loop. *)
Lemma for_loop_resume body step bound :
  0 < step ->
  forall k fuel start s u fuel2 t,
    for_loop fuel start (start + k * step) step body s = Ok tt u ->
    start + k * step <= bound ->
    for_loop fuel2 (start + k * step) bound step body u = Ok tt t ->
    for_loop (fuel + fuel2) start bound step body s = Ok tt t.
Proof.
  intros Hstep. induction k as [|k IH]; intros fuel start s u fuel2 t E1 Hle E2.
  - destruct fuel as [|fuel]; [discriminate E1|].
    cbn [for_loop] in E1. rewrite decide_False in E1 by lia.
    injection E1 as <-.
    replace (start + 0 * step) with start in E2 by lia.
    eapply for_loop_mono; [exact E2 | lia].
  - destruct fuel as [|fuel]; [discriminate E1|].
    cbn [for_loop Nat.add] in *.
    rewrite decide_True in E1 by lia. rewrite decide_True by lia.
    unfold bind in *. destruct (body start s) as [[] s1|]; [|discriminate E1].
    apply (IH fuel (start + step) s1 u fuel2 t).
    + replace (start + step + k * step) with (start + S k * step) by lia. exact E1.
    + lia.
    + replace (start + step + k * step) with (start + S k * step) by lia. exact E2.
Qed.

(** ** The loop on arbitrary buffers and registers *)

Section Loop.

(** Buffer length, the blocks of the five buffers and what the four
    coordinate buffers hold. *)
Variable N : nat.
Variables bx by_ bz bw bd : block.
Variables xs ys zs ws : list float.

Let x := Ptr bx 0.
Let y := Ptr by_ 0.
Let z := Ptr bz 0.
Let w := Ptr bw 0.
Let dp := Ptr bd 0.

(** The registers the loop multiplies by. *)
Variables x1 y1 z1 w1 : __m128.

Local Abbreviation ready := (soa_ready N bx by_ bz bw bd xs ys zs ws).
Local Abbreviation after := (after_blocks N bx by_ bz bw bd xs ys zs ws x1 y1 z1 w1).

(** One block iteration on a ready state: what it stores and logs. *)
Lemma soa_block_exec t i d a0 a1 a2 a3 b0 b1 b2 b3 c0 c1 c2 c3 g0 g1 g2 g3 :
  heap t !! bx = Some (Some <$> xs) -> heap t !! by_ = Some (Some <$> ys) ->
  heap t !! bz = Some (Some <$> zs) -> heap t !! bw = Some (Some <$> ws) ->
  heap t !! bd = Some d -> i mod 4 = 0 -> i + 4 <= length d ->
  xs !! i = Some a0 -> xs !! (i + 1) = Some a1 ->
  xs !! (i + 2) = Some a2 -> xs !! (i + 3) = Some a3 ->
  ys !! i = Some b0 -> ys !! (i + 1) = Some b1 ->
  ys !! (i + 2) = Some b2 -> ys !! (i + 3) = Some b3 ->
  zs !! i = Some c0 -> zs !! (i + 1) = Some c1 ->
  zs !! (i + 2) = Some c2 -> zs !! (i + 3) = Some c3 ->
  ws !! i = Some g0 -> ws !! (i + 1) = Some g1 ->
  ws !! (i + 2) = Some g2 -> ws !! (i + 3) = Some g3 ->
  soa_block x1 y1 z1 w1 x y z w dp i t
  = Ok tt (State (<[bd := list_inserts i
                            (Some <$> lanes (block_sums x1 y1 z1 w1
                                               (M128 a0 a1 a2 a3) (M128 b0 b1 b2 b3)
                                               (M128 c0 c1 c2 c3) (M128 g0 g1 g2 g3)))
                            d]> (heap t))
                 (log t ++ block_accesses x y z w dp i)).
Proof.
  intros Rx Ry Rz Rw Rd Al Hlen A0 A1 A2 A3 B0 B1 B2 B3 C0 C1 C2 C3 G0 G1 G2 G3.
  unfold soa_block, x, y, z, w, dp, ptr_add. cbn [blk ofs Nat.add].
  erewrite bind_ok by (apply _mm_load_ps_ok with (vs := xs); eauto).
  erewrite bind_ok by (apply _mm_load_ps_ok with (vs := ys); eauto).
  erewrite bind_ok by (apply _mm_load_ps_ok with (vs := zs); eauto).
  erewrite bind_ok by (apply _mm_load_ps_ok with (vs := ws); eauto).
  erewrite _mm_store_ps_ok by eauto.
  cbn [heap log]. unfold block_accesses, block_sums, ptr_add. cbn [blk ofs Nat.add].
  rewrite <- !app_assoc. reflexivity.
Qed.

Lemma soa_block_step s k t :
  ready s -> 4 * k + 4 <= N -> after s k t ->
  exists t',
    soa_block x1 y1 z1 w1 x y z w dp (4 * k) t = Ok tt t'
    /\ after s (S k) t'.
Proof.
  intros [Rx Ry Rz Rw _ (Lx & Ly & Lz & Lw) (Sx & Sy & Sz & Sw)].
  intros Hk [(d0 & d & Rd & Hh & Hd & Hres & Hrest) Hlog].
  destruct (four_at xs (4 * k)) as (a0 & a1 & a2 & a3 & A0 & A1 & A2 & A3); [lia|].
  destruct (four_at ys (4 * k)) as (b0 & b1 & b2 & b3 & B0 & B1 & B2 & B3); [lia|].
  destruct (four_at zs (4 * k)) as (c0 & c1 & c2 & c3 & C0 & C1 & C2 & C3); [lia|].
  destruct (four_at ws (4 * k)) as (g0 & g1 & g2 & g3 & G0 & G1 & G2 & G3); [lia|].
  assert (Hbd : bd < length (heap s)) by (eapply lookup_lt_Some; eauto).
  assert (Al : (4 * k) mod 4 = 0) by (rewrite Nat.mul_comm; apply Nat.Div0.mod_mul).
  eexists. split.
  { apply soa_block_exec with (d := d); try eassumption; try lia.
    all: rewrite Hh.
    1-4: rewrite list_lookup_insert_ne by done; assumption.
    apply list_lookup_insert_eq. exact Hbd. }
  cbn [heap log]. split.
  - exists d0. eexists. split; [exact Rd|]. split; [|split; [|split]].
    + rewrite Hh. apply list_insert_insert_eq.
    + rewrite length_inserts. exact Hd.
    + intros i Hi. destruct (decide (i < 4 * k)) as [Hlt|Hge].
      * intros ? ? ? ? ? ? ? ?.
        rewrite list_lookup_inserts_lt by exact Hlt. apply Hres; assumption.
      * intros xi yi zi wi Xi Yi Zi Wi.
        rewrite list_lookup_inserts by (cbn; lia).
        assert (Hc : i = 4 * k \/ i = 4 * k + 1 \/ i = 4 * k + 2 \/ i = 4 * k + 3) by lia.
        unfold dot_tree, lanes, block_sums, _mm_add_ps, _mm_mul_ps; cbn [e0 e1 e2 e3].
        destruct Hc as [-> | [-> | [-> | ->]]].
        { rewrite Al. replace (4 * k - 4 * k) with 0 by lia.
          cbn. repeat f_equal; congruence. }
        { rewrite mod4_offset by lia. replace (4 * k + 1 - 4 * k) with 1 by lia.
          cbn. repeat f_equal; congruence. }
        { rewrite mod4_offset by lia. replace (4 * k + 2 - 4 * k) with 2 by lia.
          cbn. repeat f_equal; congruence. }
        { rewrite mod4_offset by lia. replace (4 * k + 3 - 4 * k) with 3 by lia.
          cbn. repeat f_equal; congruence. }
    + intros i Hi. rewrite list_lookup_inserts_ge by (cbn; lia).
      apply Hrest. lia.
  - rewrite Hlog, seq_S, fmap_app, flat_map_app. cbn [fmap list_fmap flat_map Nat.add].
    rewrite app_nil_r, <- !app_assoc. reflexivity.
Qed.

Lemma after_blocks_0 s : ready s -> after s 0 s.
Proof.
  intros [_ _ _ _ (d0 & Rd & Hd0) _ _]. split.
  - exists d0, d0. split; [exact Rd|]. split; [|split; [|split]].
    + symmetry. apply list_insert_id. exact Rd.
    + exact Hd0.
    + intros i Hi. lia.
    + reflexivity.
  - cbn. rewrite app_nil_r. reflexivity.
Qed.

(** The loop over the first [M] floats of the buffers runs to completion
    and leaves the state of [M / 4] block iterations. *)
Lemma soa_loop_runs s bound :
  ready s -> bound mod 4 = 0 -> bound <= N ->
  exists t, soa_loop bound x1 y1 z1 w1 x y z w dp s = Ok tt t
            /\ after s (bound / 4) t.
Proof.
  intros R Hmod HN.
  pose proof (Nat.div_mod_eq bound 4) as Hdiv.
  unfold soa_loop, for_.
  apply (for_loop_rule (after s)).
  - lia.
  - intros k Hk. lia.
  - lia.
  - apply after_blocks_0. exact R.
  - intros k t Hk Hab.
    replace (0 + k * 4) with (4 * k) by lia.
    apply soa_block_step; auto. lia.
Qed.

End Loop.

(** ** The kernel on arbitrary buffers *)

Lemma lane_splat a k : lane (splat a) k = a.
Proof. destruct k as [|[|[|k]]]; reflexivity. Qed.

Section Kernel.

Variable N : nat.
Variables bx by_ bz bw bd : block.
Variables xs ys zs ws : list float.

Let x := Ptr bx 0.
Let y := Ptr by_ 0.
Let z := Ptr bz 0.
Let w := Ptr bw 0.
Let dp := Ptr bd 0.

Let ready := soa_ready N bx by_ bz bw bd xs ys zs ws.

(** The kernel's contract for a buffer length that is a positive multiple
    of four: it runs to completion, changes the result block only, fills
    every cell of it with the dot product of vector 0 and that cell's
    vector, and performs exactly the accesses of [kernel_accesses]. *)
Lemma soa_kernel_contract s :
  ready s -> N mod 4 = 0 -> 4 <= N ->
  exists t d,
    soa_kernel N x y z w dp s = Ok tt t
    /\ heap t = <[bd := d]> (heap s)
    /\ length d = N
    /\ (forall i x0 y0 z0 w0 xi yi zi wi,
          xs !! 0 = Some x0 -> ys !! 0 = Some y0 ->
          zs !! 0 = Some z0 -> ws !! 0 = Some w0 ->
          xs !! i = Some xi -> ys !! i = Some yi ->
          zs !! i = Some zi -> ws !! i = Some wi ->
          d !! i = Some (Some (dot_tree x0 y0 z0 w0 xi yi zi wi)))
    /\ log t = log s ++ kernel_accesses N x y z w dp.
Proof.
  intros R Hmod HN.
  pose proof R as [Rx Ry Rz Rw Rd (Lx & Ly & Lz & Lw) Rsep].
  pose proof (Nat.div_mod_eq N 4) as Hdiv.
  destruct (lookup_lt_is_Some_2 xs 0) as [x0 X0]; [lia|].
  destruct (lookup_lt_is_Some_2 ys 0) as [y0 Y0]; [lia|].
  destruct (lookup_lt_is_Some_2 zs 0) as [z0 Z0]; [lia|].
  destruct (lookup_lt_is_Some_2 ws 0) as [w0 W0]; [lia|].
  unfold soa_kernel.
  erewrite bind_ok by (apply _mm_load1_ps_ok with (vs := xs); eauto).
  erewrite bind_ok by (apply _mm_load1_ps_ok with (vs := ys); eauto).
  erewrite bind_ok by (apply _mm_load1_ps_ok with (vs := zs); eauto).
  erewrite bind_ok by (apply _mm_load1_ps_ok with (vs := ws); eauto).
  cbn [heap log].
  match goal with |- context [soa_loop _ _ _ _ _ _ _ _ _ _ ?s4] => set (s' := s4) end.
  assert (R' : soa_ready N bx by_ bz bw bd xs ys zs ws s')
    by (destruct R as [? ? ? ? ? ? ?]; split; assumption).
  destruct (soa_loop_runs N bx by_ bz bw bd xs ys zs ws
              (splat x0) (splat y0) (splat z0) (splat w0) s' N R' Hmod (Nat.le_refl N))
    as (t & Erun & [(d0 & d & _ & Hh & Hd & Hres & _) Hlog]).
  exists t, d. split; [exact Erun|]. split; [exact Hh|]. split; [exact Hd|]. split.
  - intros i x0' y0' z0' w0' xi yi zi wi X0' Y0' Z0' W0' Xi Yi Zi Wi.
    assert (Hi : i < 4 * (N / 4)) by (apply lookup_lt_Some in Xi; lia).
    rewrite (Hres i Hi xi yi zi wi Xi Yi Zi Wi), !lane_splat.
    repeat f_equal; congruence.
  - rewrite Hlog. unfold s', kernel_accesses, loop_accesses, block_starts.
    cbn [log]. rewrite <- !app_assoc. reflexivity.
Qed.

End Kernel.

Lemma before_kernel_ready :
  soa_ready 64 4 5 6 7 8 (filled 64) (filled 64) (filled 64) (filled 64) before_kernel.
Proof.
  split.
  - vm_compute. reflexivity.
  - vm_compute. reflexivity.
  - vm_compute. reflexivity.
  - vm_compute. reflexivity.
  - eexists. split; [vm_compute; reflexivity | reflexivity].
  - repeat split.
  - repeat split; discriminate.
Defined.

Lemma isolated_ready xs ys zs ws :
  length ys = length xs -> length zs = length xs -> length ws = length xs ->
  soa_ready (length xs) 0 1 2 3 4 xs ys zs ws (isolated xs ys zs ws).
Proof.
  intros Hy Hz Hw. split; try reflexivity.
  - eexists. split; [reflexivity|]. apply length_replicate.
  - auto.
  - repeat split; discriminate.
Qed.

Lemma replicate_all_first {A} n (v : A) i a :
  replicate n v !! i = Some a -> replicate n v !! 0 = Some a.
Proof.
  intros H. apply lookup_replicate in H as [-> Hi].
  apply lookup_replicate_2. lia.
Qed.

Lemma kernel_stores_only_to N x y z w dp :
  stores_only_to (blk dp) (kernel_accesses N x y z w dp).
Proof.
  unfold stores_only_to, kernel_accesses, loop_accesses.
  apply Forall_app. split.
  - repeat constructor.
  - apply Forall_flat_map, Forall_forall. intros i _.
    unfold block_accesses. repeat constructor.
Qed.

Section Unfold.

Variable N : nat.
Variables bx by_ bz bw bd : block.
Variables xs ys zs ws : list float.

Let x := Ptr bx 0.
Let y := Ptr by_ 0.
Let z := Ptr bz 0.
Let w := Ptr bw 0.
Let dp := Ptr bd 0.

(** The kernel is its loop run on the broadcast reference vector. *)
Lemma soa_kernel_unfold bound s x0 y0 z0 w0 :
  soa_ready N bx by_ bz bw bd xs ys zs ws s ->
  xs !! 0 = Some x0 -> ys !! 0 = Some y0 ->
  zs !! 0 = Some z0 -> ws !! 0 = Some w0 ->
  soa_kernel bound x y z w dp s
  = soa_loop bound (splat x0) (splat y0) (splat z0) (splat w0) x y z w dp
      (State (heap s)
             (log s ++ [Load (x +> 0) 1; Load (y +> 0) 1; Load (z +> 0) 1;
                        Load (w +> 0) 1])).
Proof.
  intros [Rx Ry Rz Rw _ _ _] X0 Y0 Z0 W0. unfold soa_kernel.
  erewrite bind_ok by (apply _mm_load1_ps_ok with (vs := xs); eauto).
  erewrite bind_ok by (apply _mm_load1_ps_ok with (vs := ys); eauto).
  erewrite bind_ok by (apply _mm_load1_ps_ok with (vs := zs); eauto).
  erewrite bind_ok by (apply _mm_load1_ps_ok with (vs := ws); eauto).
  cbn [heap log]. rewrite <- !app_assoc. reflexivity.
Qed.

Lemma read_at_input (h : list (list cell)) b (vs : list float) v :
  h !! b = Some (Some <$> vs) -> vs !! 0 = Some v -> read_at h (Ptr b 0) = inr v.
Proof.
  intros Hb Hv. unfold read_at. cbn [blk ofs]. rewrite Hb.
  rewrite list_lookup_fmap, Hv. reflexivity.
Qed.

End Unfold.

(** ** Blocks in isolation *)

Lemma mapM_seq_Some {B} (f : nat -> option B) (g : nat -> B) n :
  (forall k, k < n -> f k = Some (g k)) ->
  mapM f (seq 0 n) = Some (g <$> seq 0 n).
Proof.
  intros H. apply mapM_Some_2, Forall2_fmap_r, Forall_Forall2_diag, Forall_seq.
  intros j Hj. cbn. apply H. lia.
Qed.

Lemma concat_chunks {A} n :
  forall d : list A, length d = 4 * n -> concat ((fun k => chunk k d) <$> seq 0 n) = d.
Proof.
  induction n as [|n IH]; intros d Hd.
  - destruct d; [reflexivity | discriminate Hd].
  - cbn [seq fmap list_fmap concat]. rewrite <- fmap_S_seq, <- list_fmap_compose.
    rewrite (list_fmap_ext _ (fun k => chunk k (drop 4 d))).
    + rewrite IH by (rewrite length_drop; lia).
      unfold chunk. cbn [Nat.mul drop]. apply take_drop.
    + intros i k _. unfold chunk, compose. rewrite drop_drop. f_equal. f_equal. lia.
Qed.

Lemma lookup_chunk {A} k c (l : list A) : c < 4 -> chunk k l !! c = l !! (4 * k + c).
Proof. intros Hc. unfold chunk. rewrite lookup_take_lt by exact Hc. apply lookup_drop. Qed.

Lemma length_chunk {A} k (l : list A) : 4 * k + 4 <= length l -> length (chunk k l) = 4.
Proof. intros H. unfold chunk. rewrite length_take, length_drop. lia. Qed.

Section Batching.

Variable N : nat.
Variables bx by_ bz bw bd : block.
Variables xs ys zs ws : list float.
Variables x1 y1 z1 w1 : __m128.

Let x := Ptr bx 0.
Let y := Ptr by_ 0.
Let z := Ptr bz 0.
Let w := Ptr bw 0.
Let dp := Ptr bd 0.

(** Block [k] run in isolation yields block [k] of any buffer [d] that
    holds the sums of the whole run. *)
Lemma loop_result_chunk (d : list cell) k :
  length xs = N -> length ys = N -> length zs = N -> length ws = N ->
  length d = N -> 4 * k + 4 <= N ->
  (forall i, i < N -> holds_lane xs ys zs ws x1 y1 z1 w1 d i) ->
  loop_result x1 y1 z1 w1 (chunk k xs) (chunk k ys) (chunk k zs) (chunk k ws)
  = Some (chunk k d).
Proof.
  intros Lx Ly Lz Lw Ld Hk Hres.
  pose proof (isolated_ready (chunk k xs) (chunk k ys) (chunk k zs) (chunk k ws)) as R.
  unfold loop_result. rewrite !length_chunk in * by lia.
  specialize (R eq_refl eq_refl eq_refl).
  destruct (soa_loop_runs 4 0 1 2 3 4 _ _ _ _ x1 y1 z1 w1 _ 4 R eq_refl (Nat.le_refl 4))
    as (t & -> & [(e0 & e & _ & Ht & He & Hlane & _) _]).
  rewrite Ht. cbn -[chunk]. f_equal.
  apply list_eq. intros c.
  destruct (decide (c < 4)) as [Hc|Hc].
  - destruct (lookup_lt_is_Some_2 xs (4 * k + c)) as [xi Xi]; [lia|].
    destruct (lookup_lt_is_Some_2 ys (4 * k + c)) as [yi Yi]; [lia|].
    destruct (lookup_lt_is_Some_2 zs (4 * k + c)) as [zi Zi]; [lia|].
    destruct (lookup_lt_is_Some_2 ws (4 * k + c)) as [wi Wi]; [lia|].
    rewrite (Hlane c ltac:(cbn; lia) xi yi zi wi)
      by (rewrite lookup_chunk by exact Hc; assumption).
    rewrite lookup_chunk by exact Hc.
    rewrite (Hres (4 * k + c) ltac:(lia) xi yi zi wi Xi Yi Zi Wi).
    rewrite mod4_offset by exact Hc. rewrite (Nat.mod_small c 4) by exact Hc.
    reflexivity.
  - rewrite !lookup_ge_None_2; [reflexivity | |]; rewrite ?length_chunk; lia.
Qed.

(** The loop on the whole buffers and the loop on each block in
    isolation leave the same floats. *)
Lemma soa_loop_blockwise s :
  soa_ready N bx by_ bz bw bd xs ys zs ws s -> N mod 4 = 0 ->
  exists t d,
    soa_loop N x1 y1 z1 w1 x y z w dp s = Ok tt t
    /\ heap t !! bd = Some d
    /\ loop_blockwise_result x1 y1 z1 w1 xs ys zs ws = Some d.
Proof.
  intros R Hmod.
  pose proof (Nat.div_mod_eq N 4) as Hdiv.
  destruct (soa_loop_runs N bx by_ bz bw bd xs ys zs ws x1 y1 z1 w1 s N R Hmod
              (Nat.le_refl N))
    as (t & Erun & [(d0 & d & Rd & Ht & Hd & Hres & _) _]).
  destruct R as [_ _ _ _ _ (Lx & Ly & Lz & Lw) _].
  exists t, d. split; [exact Erun|]. split.
  { rewrite Ht. apply list_lookup_insert_eq. eapply lookup_lt_Some. exact Rd. }
  unfold loop_blockwise_result. rewrite Lx.
  rewrite (mapM_seq_Some _ (fun k => chunk k d)).
  - cbn [fmap option_fmap option_map]. f_equal. apply concat_chunks. lia.
  - intros k Hk. apply loop_result_chunk; try assumption; try lia.
    intros i Hi. apply Hres. lia.
Qed.

End Batching.

(** ** The two reduction orders, and what a block is run with *)

(** The pairwise tree and the left-to-right fold are different functions
    of the same products: with reference (1, 0, 1, 1) and the vector
    (1, 0, 2^-24, 2^-24) the tree gives 1 + 2^-23 and the fold gives 1. *)
Remark tree_and_fold_differ :
  let tiny := S754_finite false 8388608 (-47) in
  dot_tree F32.lit_1_0 (S754_zero false) F32.lit_1_0 F32.lit_1_0
           F32.lit_1_0 (S754_zero false) tiny tiny
  = S754_finite false 8388609 (-23)
  /\ dot_fold F32.lit_1_0 (S754_zero false) F32.lit_1_0 F32.lit_1_0
              F32.lit_1_0 (S754_zero false) tiny tiny
     = F32.lit_1_0.
Proof. vm_compute. split; reflexivity. Qed.

(** The registers are part of what a block is run with: the kernel started
    afresh on the second block of [main]'s data would broadcast that
    block's own first vector, (0.1, 0.1, 0.1, 0.1), and leave
    4 * (0.1f * 0.1f), about 0.04, where the whole run leaves about 0.4. *)
Remark block_needs_the_shared_reference :
  let v := filled 8 in
  chunk 1 <$> kernel_result v v v v
  = Some (replicate 4 (Some (S754_finite false 13421773 (-25))))
  /\ kernel_result (chunk 1 v) (chunk 1 v) (chunk 1 v) (chunk 1 v)
     = Some (replicate 4 (Some (S754_finite false 10737419 (-28)))).
Proof. vm_compute. split; reflexivity. Qed.

(** The sums of the warm-up are the floats nearest to [i * 1.1], which the
    float product [i * 1.1f] is not always: at [i = 3] the sum is
    13841203 * 2^-22 and the product, with [1.1f] = 9227469 * 2^-23, is one
    unit in the last place above it. *)
Remark warm_value_is_not_the_float_product :
  warm_value 3 = S754_finite false 13841203 (-22)
  /\ F32.div (F32.of_int 11) (F32.of_int 10) = S754_finite false 9227469 (-23)
  /\ F32.mul (F32.of_int 3) (S754_finite false 9227469 (-23))
     = S754_finite false 13841204 (-22).
Proof. vm_compute. repeat split; reflexivity. Qed.

(** The scenario with 16 vectors: 4.0 first, then fifteen times the float
    nearest to 0.4. *)
Example soa_demo_16 :
  exists b t,
    soa_demo 16 boot = Ok b t
    /\ heap t !! blk (sb_dp b) = Some (Some lit_4_0 :: replicate 15 (Some lit_0_4)).
Proof. eexists. eexists. split; vm_compute; reflexivity. Qed.

(** * The properties of the specification *)

Section Contract64.

Variables bx by_ bz bw bd : block.
Variables xs ys zs ws : list float.

Let x := Ptr bx 0.
Let y := Ptr by_ 0.
Let z := Ptr bz 0.
Let w := Ptr bw 0.
Let dp := Ptr bd 0.

(** C1.  The kernel run on four coordinate buffers of 64 floats completes
    and leaves, in every cell [i] of the 64-cell result buffer, the dot
    product of vector 0 and vector [i]:
    [x[0]*x[i] + y[0]*y[i] + z[0]*z[i] + w[0]*w[i]], the four products
    summed as the kernel sums them, for every [i] below 64, [i = 0]
    included. *)
Theorem C1_kernel_contract_64 s :
  soa_ready 64 bx by_ bz bw bd xs ys zs ws s ->
  exists t d,
    soa_kernel 64 x y z w dp s = Ok tt t
    /\ heap t !! bd = Some d
    /\ length d = 64
    /\ forall i, i < 64 ->
         exists x0 y0 z0 w0 xi yi zi wi,
           xs !! 0 = Some x0 /\ ys !! 0 = Some y0 /\
           zs !! 0 = Some z0 /\ ws !! 0 = Some w0 /\
           xs !! i = Some xi /\ ys !! i = Some yi /\
           zs !! i = Some zi /\ ws !! i = Some wi /\
           d !! i = Some (Some (F32.add (F32.add (F32.mul x0 xi) (F32.mul y0 yi))
                                        (F32.add (F32.mul z0 zi) (F32.mul w0 wi)))).
Proof.
  intros R.
  destruct (soa_kernel_contract 64 bx by_ bz bw bd xs ys zs ws s R)
    as (t & d & Erun & Hh & Hd & Hres & _); [reflexivity | lia |].
  destruct R as [_ _ _ _ (d0 & Rd & _) (Lx & Ly & Lz & Lw) _].
  exists t, d. split; [exact Erun|]. split; [|split; [exact Hd|]].
  - rewrite Hh. apply list_lookup_insert_eq. eapply lookup_lt_Some. exact Rd.
  - intros i Hi.
    destruct (lookup_lt_is_Some_2 xs 0) as [x0 X0]; [lia|].
    destruct (lookup_lt_is_Some_2 ys 0) as [y0 Y0]; [lia|].
    destruct (lookup_lt_is_Some_2 zs 0) as [z0 Z0]; [lia|].
    destruct (lookup_lt_is_Some_2 ws 0) as [w0 W0]; [lia|].
    destruct (lookup_lt_is_Some_2 xs i) as [xi Xi]; [lia|].
    destruct (lookup_lt_is_Some_2 ys i) as [yi Yi]; [lia|].
    destruct (lookup_lt_is_Some_2 zs i) as [zi Zi]; [lia|].
    destruct (lookup_lt_is_Some_2 ws i) as [wi Wi]; [lia|].
    exists x0, y0, z0, w0, xi, yi, zi, wi.
    repeat (split; [assumption|]).
    apply (Hres i x0 y0 z0 w0 xi yi zi wi); assumption.
Qed.

End Contract64.

Lemma C1_witness :
  soa_ready 64 4 5 6 7 8 (filled 64) (filled 64) (filled 64) (filled 64) before_kernel
  /\ exists t d,
      soa_kernel 64 (Ptr 4 0) (Ptr 5 0) (Ptr 6 0) (Ptr 7 0) (Ptr 8 0) before_kernel = Ok tt t
      /\ heap t !! 8 = Some d
      /\ length d = 64
      /\ forall i, i < 64 ->
           exists x0 y0 z0 w0 xi yi zi wi,
             filled 64 !! 0 = Some x0 /\ filled 64 !! 0 = Some y0 /\
             filled 64 !! 0 = Some z0 /\ filled 64 !! 0 = Some w0 /\
             filled 64 !! i = Some xi /\ filled 64 !! i = Some yi /\
             filled 64 !! i = Some zi /\ filled 64 !! i = Some wi /\
             d !! i = Some (Some (F32.add (F32.add (F32.mul x0 xi) (F32.mul y0 yi))
                                          (F32.add (F32.mul z0 zi) (F32.mul w0 wi)))).
Proof.
  split; [exact before_kernel_ready|].
  exact (C1_kernel_contract_64 4 5 6 7 8 _ _ _ _ before_kernel before_kernel_ready).
Defined.

Section Reduction.

Variable N : nat.
Variables bx by_ bz bw bd : block.
Variables xs ys zs ws : list float.

Let x := Ptr bx 0.
Let y := Ptr by_ 0.
Let z := Ptr bz 0.
Let w := Ptr bw 0.
Let dp := Ptr bd 0.

(** C2.  Whichever block [k] the loop is at, with the reference vector
    [(x0, y0, z0, w0)] broadcast in the four registers, the iteration
    stores in lane [c] of the block the pairwise tree
    [(x0*xi + y0*yi) + (z0*zi + w0*wi)] of vector [4k + c]: the sums of the
    first two and of the last two products are formed on their own and then
    added. *)
Theorem C2_pairwise_tree t k x0 y0 z0 w0 :
  soa_ready N bx by_ bz bw bd xs ys zs ws t -> 4 * k + 4 <= N ->
  exists t' d',
    soa_block (splat x0) (splat y0) (splat z0) (splat w0) x y z w dp (4 * k) t = Ok tt t'
    /\ heap t' !! bd = Some d'
    /\ forall c, c < 4 ->
         exists xi yi zi wi,
           xs !! (4 * k + c) = Some xi /\ ys !! (4 * k + c) = Some yi /\
           zs !! (4 * k + c) = Some zi /\ ws !! (4 * k + c) = Some wi /\
           d' !! (4 * k + c)
           = Some (Some (F32.add (F32.add (F32.mul x0 xi) (F32.mul y0 yi))
                                 (F32.add (F32.mul z0 zi) (F32.mul w0 wi)))).
Proof.
  intros [Rx Ry Rz Rw (d & Rd & Hd) (Lx & Ly & Lz & Lw) _] Hk.
  destruct (four_at xs (4 * k)) as (a0 & a1 & a2 & a3 & A0 & A1 & A2 & A3); [lia|].
  destruct (four_at ys (4 * k)) as (b0 & b1 & b2 & b3 & B0 & B1 & B2 & B3); [lia|].
  destruct (four_at zs (4 * k)) as (c0 & c1 & c2 & c3 & C0 & C1 & C2 & C3); [lia|].
  destruct (four_at ws (4 * k)) as (g0 & g1 & g2 & g3 & G0 & G1 & G2 & G3); [lia|].
  assert (Al : (4 * k) mod 4 = 0) by (rewrite Nat.mul_comm; apply Nat.Div0.mod_mul).
  eexists. eexists. split; [|split].
  - apply (soa_block_exec bx by_ bz bw bd xs ys zs ws) with (d := d);
      try eassumption; lia.
  - cbn [heap]. apply list_lookup_insert_eq. eapply lookup_lt_Some. exact Rd.
  - intros c Hc.
    rewrite list_lookup_inserts by (cbn; lia).
    replace (4 * k + c - 4 * k) with c by lia.
    destruct c as [|[|[|[|c]]]]; [| | | |lia].
    + rewrite Nat.add_0_r. exists a0, b0, c0, g0. auto 10.
    + exists a1, b1, c1, g1. auto 10.
    + exists a2, b2, c2, g2. auto 10.
    + exists a3, b3, c3, g3. auto 10.
Qed.

End Reduction.

Lemma C2_witness :
  (soa_ready 64 4 5 6 7 8 (filled 64) (filled 64) (filled 64) (filled 64) before_kernel
   /\ 4 * 3 + 4 <= 64)
  /\ exists t' d',
      soa_block (splat F32.lit_1_0) (splat F32.lit_1_0) (splat F32.lit_1_0)
                (splat F32.lit_1_0) (Ptr 4 0) (Ptr 5 0) (Ptr 6 0) (Ptr 7 0) (Ptr 8 0)
                (4 * 3) before_kernel = Ok tt t'
      /\ heap t' !! 8 = Some d'
      /\ forall c, c < 4 ->
           exists xi yi zi wi,
             filled 64 !! (4 * 3 + c) = Some xi /\ filled 64 !! (4 * 3 + c) = Some yi /\
             filled 64 !! (4 * 3 + c) = Some zi /\ filled 64 !! (4 * 3 + c) = Some wi /\
             d' !! (4 * 3 + c)
             = Some (Some (F32.add (F32.add (F32.mul F32.lit_1_0 xi) (F32.mul F32.lit_1_0 yi))
                                   (F32.add (F32.mul F32.lit_1_0 zi) (F32.mul F32.lit_1_0 wi)))).
Proof.
  split; [split; [exact before_kernel_ready | lia]|].
  apply (C2_pairwise_tree 64 4 5 6 7 8 _ _ _ _ before_kernel 3).
  - exact before_kernel_ready.
  - lia.
Defined.

Section Independence.

Variable N : nat.
Variables bx by_ bz bw bd : block.
Variables xs ys zs ws : list float.

Let x := Ptr bx 0.
Let y := Ptr by_ 0.
Let z := Ptr bz 0.
Let w := Ptr bw 0.
Let dp := Ptr bd 0.

(** C3, amended.  The result buffer the kernel leaves on the whole
    [N]-float input is, cell for cell, the concatenation of the result
    buffers its loop (lines 198-217) leaves when it is run on each
    4-element block in isolation (buffers of their own that hold just that
    block), every block with the registers broadcast from element 0 of the
    whole input.  It is not that of the whole kernel run on each block,
    which would broadcast the block's own element 0. *)
Theorem C3_block_independence s :
  soa_ready N bx by_ bz bw bd xs ys zs ws s -> N mod 4 = 0 -> 4 <= N ->
  exists t d x0 y0 z0 w0,
    soa_kernel N x y z w dp s = Ok tt t
    /\ heap t !! bd = Some d
    /\ xs !! 0 = Some x0 /\ ys !! 0 = Some y0
    /\ zs !! 0 = Some z0 /\ ws !! 0 = Some w0
    /\ loop_blockwise_result (splat x0) (splat y0) (splat z0) (splat w0) xs ys zs ws
       = Some d.
Proof.
  intros R Hmod HN.
  pose proof R as [Rx Ry Rz Rw Rd (Lx & Ly & Lz & Lw) Rsep].
  destruct (lookup_lt_is_Some_2 xs 0) as [x0 X0]; [lia|].
  destruct (lookup_lt_is_Some_2 ys 0) as [y0 Y0]; [lia|].
  destruct (lookup_lt_is_Some_2 zs 0) as [z0 Z0]; [lia|].
  destruct (lookup_lt_is_Some_2 ws 0) as [w0 W0]; [lia|].
  unfold x, y, z, w, dp.
  rewrite (soa_kernel_unfold N bx by_ bz bw bd xs ys zs ws N s x0 y0 z0 w0 R X0 Y0 Z0 W0).
  match goal with |- context [soa_loop _ _ _ _ _ _ _ _ _ _ ?s4] => set (s' := s4) end.
  assert (R' : soa_ready N bx by_ bz bw bd xs ys zs ws s')
    by (destruct R as [? ? ? ? ? ? ?]; split; assumption).
  destruct (soa_loop_blockwise N bx by_ bz bw bd xs ys zs ws
              (splat x0) (splat y0) (splat z0) (splat w0) s' R' Hmod)
    as (t & d & Erun & Hd & Hblk).
  exists t, d, x0, y0, z0, w0. auto 10.
Qed.

End Independence.

Lemma C3_witness :
  (soa_ready 64 4 5 6 7 8 (filled 64) (filled 64) (filled 64) (filled 64) before_kernel
   /\ 64 mod 4 = 0 /\ 4 <= 64)
  /\ exists t d x0 y0 z0 w0,
      soa_kernel 64 (Ptr 4 0) (Ptr 5 0) (Ptr 6 0) (Ptr 7 0) (Ptr 8 0) before_kernel = Ok tt t
      /\ heap t !! 8 = Some d
      /\ filled 64 !! 0 = Some x0 /\ filled 64 !! 0 = Some y0
      /\ filled 64 !! 0 = Some z0 /\ filled 64 !! 0 = Some w0
      /\ loop_blockwise_result (splat x0) (splat y0) (splat z0) (splat w0)
           (filled 64) (filled 64) (filled 64) (filled 64) = Some d.
Proof.
  split; [split; [exact before_kernel_ready | split; [reflexivity | lia]]|].
  apply (C3_block_independence 64 4 5 6 7 8 _ _ _ _ before_kernel).
  - exact before_kernel_ready.
  - reflexivity.
  - lia.
Defined.

(** C3, as stated, fails on the data of [main]: the kernel run on each
    4-element block in isolation takes its reference vector from that
    block, so the blocks after the first, which hold (0.1, 0.1, 0.1, 0.1)
    only, give 4 * (0.1f * 0.1f), about 0.04, in 60 of the 64 cells where
    the whole run gives about 0.4. *)
Lemma C3_counterexample :
  kernel_result (filled 64) (filled 64) (filled 64) (filled 64)
  = Some (Some lit_4_0 :: replicate 63 (Some lit_0_4))
  /\ kernel_blockwise_result (filled 64) (filled 64) (filled 64) (filled 64)
     = Some ((Some lit_4_0 :: replicate 3 (Some lit_0_4))
             ++ replicate 60 (Some (S754_finite false 10737419 (-28))))
  /\ kernel_result (filled 64) (filled 64) (filled 64) (filled 64)
     <> kernel_blockwise_result (filled 64) (filled 64) (filled 64) (filled 64).
Proof.
  assert (E1 : kernel_result (filled 64) (filled 64) (filled 64) (filled 64)
               = Some (Some lit_4_0 :: replicate 63 (Some lit_0_4)))
    by (vm_compute; reflexivity).
  assert (E2 : kernel_blockwise_result (filled 64) (filled 64) (filled 64) (filled 64)
               = Some ((Some lit_4_0 :: replicate 3 (Some lit_0_4))
                       ++ replicate 60 (Some (S754_finite false 10737419 (-28)))))
    by (vm_compute; reflexivity).
  split; [exact E1|]. split; [exact E2|].
  rewrite E1, E2. intros H. apply (f_equal (fun o => o ≫= (.!! 4))) in H.
  vm_compute in H. discriminate H.
Qed.

Section AnyLength.

Variable N : nat.
Variables bx by_ bz bw bd : block.
Variables xs ys zs ws : list float.

Let x := Ptr bx 0.
Let y := Ptr by_ 0.
Let z := Ptr bz 0.
Let w := Ptr bw 0.
Let dp := Ptr bd 0.

(** C4.  For every buffer length [N] that is a multiple of 4 and at least
    4, and whatever floats the buffers hold, the kernel completes and cell
    0 of the result is the squared magnitude of the reference vector: the
    sum of the squares of [x[0]], [y[0]], [z[0]] and [w[0]]. *)
Theorem C4_first_result_squared_magnitude s :
  soa_ready N bx by_ bz bw bd xs ys zs ws s -> N mod 4 = 0 -> 4 <= N ->
  exists t d x0 y0 z0 w0,
    soa_kernel N x y z w dp s = Ok tt t
    /\ heap t !! bd = Some d
    /\ xs !! 0 = Some x0 /\ ys !! 0 = Some y0
    /\ zs !! 0 = Some z0 /\ ws !! 0 = Some w0
    /\ d !! 0 = Some (Some (F32.add (F32.add (F32.mul x0 x0) (F32.mul y0 y0))
                                    (F32.add (F32.mul z0 z0) (F32.mul w0 w0)))).
Proof.
  intros R Hmod HN.
  destruct (soa_kernel_contract N bx by_ bz bw bd xs ys zs ws s R Hmod HN)
    as (t & d & Erun & Hh & Hd & Hres & _).
  destruct R as [_ _ _ _ (d0 & Rd & _) (Lx & Ly & Lz & Lw) _].
  destruct (lookup_lt_is_Some_2 xs 0) as [x0 X0]; [lia|].
  destruct (lookup_lt_is_Some_2 ys 0) as [y0 Y0]; [lia|].
  destruct (lookup_lt_is_Some_2 zs 0) as [z0 Z0]; [lia|].
  destruct (lookup_lt_is_Some_2 ws 0) as [w0 W0]; [lia|].
  exists t, d, x0, y0, z0, w0.
  split; [exact Erun|]. split.
  { rewrite Hh. apply list_lookup_insert_eq. eapply lookup_lt_Some. exact Rd. }
  repeat (split; [assumption|]).
  apply (Hres 0 x0 y0 z0 w0 x0 y0 z0 w0); assumption.
Qed.

(** C7.  If in each coordinate buffer every element equals the element at
    index 0, so that all vectors are the reference vector, then every cell
    of the result is the reference vector's squared magnitude. *)
Theorem C7_identical_vectors s :
  soa_ready N bx by_ bz bw bd xs ys zs ws s -> N mod 4 = 0 -> 4 <= N ->
  (forall i a, xs !! i = Some a -> xs !! 0 = Some a) ->
  (forall i a, ys !! i = Some a -> ys !! 0 = Some a) ->
  (forall i a, zs !! i = Some a -> zs !! 0 = Some a) ->
  (forall i a, ws !! i = Some a -> ws !! 0 = Some a) ->
  exists t d x0 y0 z0 w0,
    soa_kernel N x y z w dp s = Ok tt t
    /\ heap t !! bd = Some d
    /\ length d = N
    /\ xs !! 0 = Some x0 /\ ys !! 0 = Some y0
    /\ zs !! 0 = Some z0 /\ ws !! 0 = Some w0
    /\ forall i, i < N ->
         d !! i = Some (Some (F32.add (F32.add (F32.mul x0 x0) (F32.mul y0 y0))
                                      (F32.add (F32.mul z0 z0) (F32.mul w0 w0)))).
Proof.
  intros R Hmod HN Ex Ey Ez Ew.
  destruct (soa_kernel_contract N bx by_ bz bw bd xs ys zs ws s R Hmod HN)
    as (t & d & Erun & Hh & Hd & Hres & _).
  destruct R as [_ _ _ _ (d0 & Rd & _) (Lx & Ly & Lz & Lw) _].
  destruct (lookup_lt_is_Some_2 xs 0) as [x0 X0]; [lia|].
  destruct (lookup_lt_is_Some_2 ys 0) as [y0 Y0]; [lia|].
  destruct (lookup_lt_is_Some_2 zs 0) as [z0 Z0]; [lia|].
  destruct (lookup_lt_is_Some_2 ws 0) as [w0 W0]; [lia|].
  exists t, d, x0, y0, z0, w0.
  split; [exact Erun|]. split.
  { rewrite Hh. apply list_lookup_insert_eq. eapply lookup_lt_Some. exact Rd. }
  split; [exact Hd|].
  repeat (split; [assumption|]).
  intros i Hi.
  destruct (lookup_lt_is_Some_2 xs i) as [xi Xi]; [lia|].
  destruct (lookup_lt_is_Some_2 ys i) as [yi Yi]; [lia|].
  destruct (lookup_lt_is_Some_2 zs i) as [zi Zi]; [lia|].
  destruct (lookup_lt_is_Some_2 ws i) as [wi Wi]; [lia|].
  assert (xi = x0) as -> by (apply Ex in Xi; congruence).
  assert (yi = y0) as -> by (apply Ey in Yi; congruence).
  assert (zi = z0) as -> by (apply Ez in Zi; congruence).
  assert (wi = w0) as -> by (apply Ew in Wi; congruence).
  apply (Hres i x0 y0 z0 w0 x0 y0 z0 w0); assumption.
Qed.

End AnyLength.

Lemma C4_witness :
  (soa_ready 64 4 5 6 7 8 (filled 64) (filled 64) (filled 64) (filled 64) before_kernel
   /\ 64 mod 4 = 0 /\ 4 <= 64)
  /\ exists t d x0 y0 z0 w0,
      soa_kernel 64 (Ptr 4 0) (Ptr 5 0) (Ptr 6 0) (Ptr 7 0) (Ptr 8 0) before_kernel = Ok tt t
      /\ heap t !! 8 = Some d
      /\ filled 64 !! 0 = Some x0 /\ filled 64 !! 0 = Some y0
      /\ filled 64 !! 0 = Some z0 /\ filled 64 !! 0 = Some w0
      /\ d !! 0 = Some (Some (F32.add (F32.add (F32.mul x0 x0) (F32.mul y0 y0))
                                      (F32.add (F32.mul z0 z0) (F32.mul w0 w0)))).
Proof.
  split; [split; [exact before_kernel_ready | split; [reflexivity | lia]]|].
  apply (C4_first_result_squared_magnitude 64 4 5 6 7 8 _ _ _ _ before_kernel).
  - exact before_kernel_ready.
  - reflexivity.
  - lia.
Defined.

Lemma C7_witness :
  (soa_ready 8 0 1 2 3 4
     (replicate 8 F32.lit_2_0) (replicate 8 F32.lit_1_0)
     (replicate 8 F32.lit_0_1) (replicate 8 F32.lit_2_0)
     (isolated (replicate 8 F32.lit_2_0) (replicate 8 F32.lit_1_0)
               (replicate 8 F32.lit_0_1) (replicate 8 F32.lit_2_0))
   /\ 8 mod 4 = 0 /\ 4 <= 8
   /\ (forall i a, replicate 8 F32.lit_2_0 !! i = Some a
                   -> replicate 8 F32.lit_2_0 !! 0 = Some a)
   /\ (forall i a, replicate 8 F32.lit_1_0 !! i = Some a
                   -> replicate 8 F32.lit_1_0 !! 0 = Some a)
   /\ (forall i a, replicate 8 F32.lit_0_1 !! i = Some a
                   -> replicate 8 F32.lit_0_1 !! 0 = Some a)
   /\ (forall i a, replicate 8 F32.lit_2_0 !! i = Some a
                   -> replicate 8 F32.lit_2_0 !! 0 = Some a))
  /\ exists t d x0 y0 z0 w0,
      soa_kernel 8 (Ptr 0 0) (Ptr 1 0) (Ptr 2 0) (Ptr 3 0) (Ptr 4 0)
        (isolated (replicate 8 F32.lit_2_0) (replicate 8 F32.lit_1_0)
                  (replicate 8 F32.lit_0_1) (replicate 8 F32.lit_2_0))
      = Ok tt t
      /\ heap t !! 4 = Some d
      /\ length d = 8
      /\ replicate 8 F32.lit_2_0 !! 0 = Some x0 /\ replicate 8 F32.lit_1_0 !! 0 = Some y0
      /\ replicate 8 F32.lit_0_1 !! 0 = Some z0 /\ replicate 8 F32.lit_2_0 !! 0 = Some w0
      /\ forall i, i < 8 ->
           d !! i = Some (Some (F32.add (F32.add (F32.mul x0 x0) (F32.mul y0 y0))
                                        (F32.add (F32.mul z0 z0) (F32.mul w0 w0)))).
Proof.
  assert (R : soa_ready 8 0 1 2 3 4
                (replicate 8 F32.lit_2_0) (replicate 8 F32.lit_1_0)
                (replicate 8 F32.lit_0_1) (replicate 8 F32.lit_2_0)
                (isolated (replicate 8 F32.lit_2_0) (replicate 8 F32.lit_1_0)
                          (replicate 8 F32.lit_0_1) (replicate 8 F32.lit_2_0))).
  { split; try reflexivity.
    - eexists. split; reflexivity.
    - repeat split.
    - repeat split; discriminate. }
  split.
  - split; [exact R|]. split; [reflexivity|]. split; [lia|].
    repeat split; apply replicate_all_first.
  - apply (C7_identical_vectors 8 0 1 2 3 4 _ _ _ _ _ R).
    + reflexivity.
    + lia.
    + apply replicate_all_first.
    + apply replicate_all_first.
    + apply replicate_all_first.
    + apply replicate_all_first.
Defined.

Section Frame.

Variable N : nat.
Variables bx by_ bz bw bd : block.
Variables xs ys zs ws : list float.

Let x := Ptr bx 0.
Let y := Ptr by_ 0.
Let z := Ptr bz 0.
Let w := Ptr bw 0.
Let dp := Ptr bd 0.

(** C5.  The kernel changes the result block only: every other block,
    the four coordinate buffers among them, is as it was, and every store
    it performs goes to [dp].  The same holds after any number [k] of block
    iterations: the reference vector read from memory at that point is
    still [(x0, y0, z0, w0)], the value the registers of the remaining
    iterations hold. *)
Theorem C5_inputs_read_only s :
  soa_ready N bx by_ bz bw bd xs ys zs ws s -> N mod 4 = 0 -> 4 <= N ->
  exists t x0 y0 z0 w0,
    soa_kernel N x y z w dp s = Ok tt t
    /\ untouched_but bd s t
    /\ (exists l, log t = log s ++ l /\ stores_only_to bd l)
    /\ xs !! 0 = Some x0 /\ ys !! 0 = Some y0
    /\ zs !! 0 = Some z0 /\ ws !! 0 = Some w0
    /\ forall k, k <= N / 4 ->
         exists u,
           soa_kernel (4 * k) x y z w dp s = Ok tt u
           /\ for_loop (S N) (4 * k) N 4
                (soa_block (splat x0) (splat y0) (splat z0) (splat w0) x y z w dp) u
              = Ok tt t
           /\ untouched_but bd s u
           /\ read_at (heap u) x = inr x0 /\ read_at (heap u) y = inr y0
           /\ read_at (heap u) z = inr z0 /\ read_at (heap u) w = inr w0.
Proof.
  intros R Hmod HN.
  destruct (soa_kernel_contract N bx by_ bz bw bd xs ys zs ws s R Hmod HN)
    as (t & d & Erun & Hh & Hd & _ & Hlog).
  unfold x, y, z, w, dp.
  pose proof R as [Rx Ry Rz Rw (d0 & Rd & Hd0) (Lx & Ly & Lz & Lw) (Sx & Sy & Sz & Sw)].
  pose proof (Nat.div_mod_eq N 4) as Hdiv.
  destruct (lookup_lt_is_Some_2 xs 0) as [x0 X0]; [lia|].
  destruct (lookup_lt_is_Some_2 ys 0) as [y0 Y0]; [lia|].
  destruct (lookup_lt_is_Some_2 zs 0) as [z0 Z0]; [lia|].
  destruct (lookup_lt_is_Some_2 ws 0) as [w0 W0]; [lia|].
  exists t, x0, y0, z0, w0.
  split; [exact Erun|]. split.
  { unfold untouched_but. rewrite Hh. split; [apply length_insert|].
    intros b Hb. apply list_lookup_insert_ne. congruence. }
  split.
  { eexists. split; [exact Hlog|].
    apply (kernel_stores_only_to N (Ptr bx 0) (Ptr by_ 0) (Ptr bz 0) (Ptr bw 0) (Ptr bd 0)). }
  repeat (split; [assumption|]).
  intros k Hk.
  rewrite (soa_kernel_unfold N bx by_ bz bw bd xs ys zs ws N s x0 y0 z0 w0 R X0 Y0 Z0 W0)
    in Erun.
  rewrite (soa_kernel_unfold N bx by_ bz bw bd xs ys zs ws (4 * k) s x0 y0 z0 w0
             R X0 Y0 Z0 W0).
  match goal with |- context [soa_loop _ _ _ _ _ _ _ _ _ _ ?s4] => set (s' := s4) in * end.
  assert (R' : soa_ready N bx by_ bz bw bd xs ys zs ws s')
    by (destruct R as [? ? ? ? ? ? ?]; split; assumption).
  destruct (soa_loop_runs N bx by_ bz bw bd xs ys zs ws
              (splat x0) (splat y0) (splat z0) (splat w0) s' (4 * k) R')
    as (u & Eu & Hab).
  { rewrite Nat.mul_comm. apply Nat.Div0.mod_mul. }
  { lia. }
  replace (4 * k / 4) with k in Hab by (rewrite Nat.mul_comm, Nat.div_mul; lia).
  exists u. split; [exact Eu|].
  destruct (for_loop_rule
              (fun j => after_blocks N bx by_ bz bw bd xs ys zs ws
                          (splat x0) (splat y0) (splat z0) (splat w0) s' (k + j))
              (soa_block (splat x0) (splat y0) (splat z0) (splat w0)
                         (Ptr bx 0) (Ptr by_ 0) (Ptr bz 0) (Ptr bw 0) (Ptr bd 0))
              4 N (N / 4 - k) (S N) (4 * k) u) as (t' & Et' & _).
  { lia. }
  { intros j Hj. lia. }
  { lia. }
  { rewrite Nat.add_0_r. exact Hab. }
  { intros j v Hj Hv.
    replace (4 * k + j * 4) with (4 * (k + j)) by lia.
    replace (k + S j) with (S (k + j)) by lia.
    apply soa_block_step; [exact R' | lia | exact Hv]. }
  assert (t' = t) as ->.
  { unfold soa_loop, for_ in Erun, Eu.
    pose proof (for_loop_mono _ _ _ _ (S (4 * k) + S N) _ _ _ Erun ltac:(lia)) as E1.
    pose proof (for_loop_resume
                  (soa_block (splat x0) (splat y0) (splat z0) (splat w0)
                             (Ptr bx 0) (Ptr by_ 0) (Ptr bz 0) (Ptr bw 0) (Ptr bd 0))
                  4 N ltac:(lia) k (S (4 * k)) 0 s' u (S N) t') as E2.
    replace (0 + k * 4) with (4 * k) in E2 by lia.
    specialize (E2 Eu ltac:(lia) Et'). congruence. }
  split; [exact Et'|].
  destruct Hab as [(d0' & d' & _ & Hu & _ & _ & _) _]. cbn [heap] in Hu.
  assert (Hne : forall b, b <> bd -> heap u !! b = heap s !! b).
  { intros b Hb. rewrite Hu. apply list_lookup_insert_ne. congruence. }
  split.
  { split; [rewrite Hu; apply length_insert | exact Hne]. }
  split; [|split; [|split]].
  - apply read_at_input with (vs := xs); [rewrite Hne by congruence|]; assumption.
  - apply read_at_input with (vs := ys); [rewrite Hne by congruence|]; assumption.
  - apply read_at_input with (vs := zs); [rewrite Hne by congruence|]; assumption.
  - apply read_at_input with (vs := ws); [rewrite Hne by congruence|]; assumption.
Qed.

End Frame.

Lemma C5_witness :
  (soa_ready 64 4 5 6 7 8 (filled 64) (filled 64) (filled 64) (filled 64) before_kernel
   /\ 64 mod 4 = 0 /\ 4 <= 64)
  /\ exists t x0 y0 z0 w0,
      soa_kernel 64 (Ptr 4 0) (Ptr 5 0) (Ptr 6 0) (Ptr 7 0) (Ptr 8 0) before_kernel = Ok tt t
      /\ untouched_but 8 before_kernel t
      /\ (exists l, log t = log before_kernel ++ l /\ stores_only_to 8 l)
      /\ filled 64 !! 0 = Some x0 /\ filled 64 !! 0 = Some y0
      /\ filled 64 !! 0 = Some z0 /\ filled 64 !! 0 = Some w0
      /\ forall k, k <= 64 / 4 ->
           exists u,
             soa_kernel (4 * k) (Ptr 4 0) (Ptr 5 0) (Ptr 6 0) (Ptr 7 0) (Ptr 8 0) before_kernel
             = Ok tt u
             /\ for_loop 65 (4 * k) 64 4
                  (soa_block (splat x0) (splat y0) (splat z0) (splat w0)
                             (Ptr 4 0) (Ptr 5 0) (Ptr 6 0) (Ptr 7 0) (Ptr 8 0)) u
                = Ok tt t
             /\ untouched_but 8 before_kernel u
             /\ read_at (heap u) (Ptr 4 0) = inr x0 /\ read_at (heap u) (Ptr 5 0) = inr y0
             /\ read_at (heap u) (Ptr 6 0) = inr z0 /\ read_at (heap u) (Ptr 7 0) = inr w0.
Proof.
  split; [split; [exact before_kernel_ready | split; [reflexivity | lia]]|].
  apply (C5_inputs_read_only 64 4 5 6 7 8 _ _ _ _ before_kernel).
  - exact before_kernel_ready.
  - reflexivity.
  - lia.
Defined.

(** C6.  [main] fills the buffers with the reference vector (1, 1, 1, 1)
    and 63 vectors (0.1, 0.1, 0.1, 0.1) and runs the kernel; it completes
    with [dp[0]] exactly 4.0 and every other [dp[i]] the float nearest to
    0.4, which is within 1e-6 of 0.4. *)
Theorem C6_demo_results :
  exists l t d,
    main boot = Ok l t
    /\ heap t !! blk (sb_dp (l_soa l)) = Some d
    /\ length d = 64
    /\ d !! 0 = Some (Some lit_4_0)
    /\ F32.exactly 4 lit_4_0
    /\ F32.within (1 # 1000000) 4 lit_4_0
    /\ drop 1 d = replicate 63 (Some lit_0_4)
    /\ F32.within (1 # 1000000) (4 # 10) lit_0_4.
Proof.
  eexists. eexists. eexists.
  split; [vm_compute; reflexivity|].
  split; [vm_compute; reflexivity|].
  vm_compute. repeat split; reflexivity.
Qed.

(** C8.  The warm-up completes with [foo[i] = i], [bar[i] = i * 0.1f] and
    [results[i] = foo[i] + bar[i]] for [i] in 0..7.  Each [results[i]] is
    the float nearest to [i * 1.1] and within 1e-6 of it; the sum is
    exactly [i * 1.1] where that is representable: 0 at [i = 0], 5.5 at
    [i = 5], and 11 for the same sum formed at 10. *)
Theorem C8_warmup_sums :
  exists wb t,
    warmup boot = Ok wb t
    /\ heap t !! blk (wb_foo wb) = Some ((fun i => Some (F32.of_int i)) <$> seqZ 0 8)
    /\ heap t !! blk (wb_bar wb)
       = Some ((fun i => Some (F32.mul (F32.of_int i) F32.lit_0_1)) <$> seqZ 0 8)
    /\ heap t !! blk (wb_results wb) = Some ((fun i => Some (warm_value i)) <$> seqZ 0 8)
    /\ Forall (fun i => warm_value i = F32.div (F32.of_int (11 * i)) (F32.of_int 10)
                        /\ F32.within (1 # 1000000) (inject_Z (11 * i) / 10) (warm_value i))
              (seqZ 0 8)
    /\ F32.exactly 0 (warm_value 0)
    /\ F32.exactly (55 # 10) (warm_value 5)
    /\ F32.exactly 11 (warm_value 10).
Proof.
  eexists. eexists.
  split; [vm_compute; reflexivity|].
  split; [vm_compute; reflexivity|].
  split; [vm_compute; reflexivity|].
  split; [vm_compute; reflexivity|].
  split.
  { repeat constructor; vm_compute; reflexivity. }
  vm_compute. repeat split; reflexivity.
Qed.

Section Safety.

Variables bx by_ bz bw bd : block.
Variables xs ys zs ws : list float.

Let x := Ptr bx 0.
Let y := Ptr by_ 0.
Let z := Ptr bz 0.
Let w := Ptr bw 0.
Let dp := Ptr bd 0.

(** C9.  On 64-float buffers the kernel runs without a fault, so no load
    or store leaves its buffer.  Its accesses are the four broadcast loads
    and then, for each block start [i] in 0, 4, ..., 60, the loads of
    [x[i..i+3]], [y[i..i+3]], [z[i..i+3]], [w[i..i+3]] and the store to
    [dp[i..i+3]]; each of them lies within 64 floats. *)
Theorem C9_accesses_in_bounds s :
  soa_ready 64 bx by_ bz bw bd xs ys zs ws s ->
  exists t,
    soa_kernel 64 x y z w dp s = Ok tt t
    /\ log t = log s ++ kernel_accesses 64 x y z w dp
    /\ block_starts 64 = [0; 4; 8; 12; 16; 20; 24; 28; 32; 36; 40; 44; 48; 52; 56; 60]
    /\ Forall (in_bounds 64) (kernel_accesses 64 x y z w dp).
Proof.
  intros R.
  destruct (soa_kernel_contract 64 bx by_ bz bw bd xs ys zs ws s R)
    as (t & d & Erun & _ & _ & _ & Hlog); [reflexivity | lia |].
  exists t. split; [exact Erun|]. split; [exact Hlog|]. split; [reflexivity|].
  unfold kernel_accesses, loop_accesses, block_accesses.
  cbn. repeat (constructor; [cbn; lia|]). constructor.
Qed.

End Safety.

Lemma C9_witness :
  soa_ready 64 4 5 6 7 8 (filled 64) (filled 64) (filled 64) (filled 64) before_kernel
  /\ exists t,
      soa_kernel 64 (Ptr 4 0) (Ptr 5 0) (Ptr 6 0) (Ptr 7 0) (Ptr 8 0) before_kernel = Ok tt t
      /\ log t = log before_kernel
                 ++ kernel_accesses 64 (Ptr 4 0) (Ptr 5 0) (Ptr 6 0) (Ptr 7 0) (Ptr 8 0)
      /\ block_starts 64 = [0; 4; 8; 12; 16; 20; 24; 28; 32; 36; 40; 44; 48; 52; 56; 60]
      /\ Forall (in_bounds 64)
                (kernel_accesses 64 (Ptr 4 0) (Ptr 5 0) (Ptr 6 0) (Ptr 7 0) (Ptr 8 0)).
Proof.
  split; [exact before_kernel_ready|].
  exact (C9_accesses_in_bounds 4 5 6 7 8 _ _ _ _ before_kernel before_kernel_ready).
Defined.

(** C10.  The array-of-structures demonstration multiplies (1, 1, 1, 1)
    and (2, 2, 2, 2) lane-wise, stores the four products 2.0 in
    [results[0..3]] and sums them as [(2 + 2) + (2 + 2)]: [product] is
    exactly 8.0, through the exact partial sums 4.0. *)
Theorem C10_aos_product_is_eight :
  exists wb s t r,
    warmup boot = Ok wb s
    /\ aos_dot (wb_results wb) s = Ok lit_8_0 t
    /\ F32.exactly 8 lit_8_0
    /\ heap t !! blk (wb_results wb) = Some r
    /\ take 4 r = replicate 4 (Some F32.lit_2_0)
    /\ F32.exactly 2 F32.lit_2_0
    /\ F32.add F32.lit_2_0 F32.lit_2_0 = lit_4_0
    /\ F32.exactly 4 lit_4_0
    /\ F32.add lit_4_0 lit_4_0 = lit_8_0.
Proof.
  eexists. eexists. eexists. eexists.
  split; [vm_compute; reflexivity|].
  split; [vm_compute; reflexivity|].
  split; [vm_compute; reflexivity|].
  split; [vm_compute; reflexivity|].
  vm_compute. repeat split; reflexivity.
Qed.


(** * Further properties of the program *)

(** ** Accesses, cell by cell *)

Lemma cell_at_block s b o d : heap s !! b = Some d -> cell_at s (Ptr b o) = d !! o.
Proof. intros H. unfold cell_at. cbn [blk ofs]. rewrite H. reflexivity. Qed.

Lemma cell_at_is_Some s p :
  is_Some (cell_at s p) ->
  exists d, heap s !! blk p = Some d /\ ofs p < length d.
Proof.
  unfold cell_at. destruct (heap s !! blk p) as [d|]; [|intros [? [=]]].
  intros H. exists d. split; [reflexivity|]. apply lookup_lt_is_Some. exact H.
Qed.

Lemma peek_cell s p v : cell_at s p = Some (Some v) -> peek p s = Ok v s.
Proof.
  unfold cell_at, peek, read_at. destruct (heap s !! blk p) as [d|]; [|discriminate].
  intros ->. reflexivity.
Qed.

Lemma peek_outside s p d :
  heap s !! blk p = Some d -> length d <= ofs p -> peek p s = Fault OutOfBounds.
Proof.
  intros Hd Hlen. unfold peek, read_at. rewrite Hd.
  rewrite lookup_ge_None_2 by exact Hlen. reflexivity.
Qed.

Lemma load_f_cell s p v :
  cell_at s p = Some (Some v) ->
  load_f p s = Ok v (State (heap s) (log s ++ [Load p 1])).
Proof.
  intros H. unfold load_f. rewrite (bind_ok _ _ s v s) by (apply peek_cell; exact H).
  reflexivity.
Qed.

Lemma _mm_load_ps_cell s p a0 a1 a2 a3 :
  aligned16 p ->
  cell_at s p = Some (Some a0) -> cell_at s (p +> 1) = Some (Some a1) ->
  cell_at s (p +> 2) = Some (Some a2) -> cell_at s (p +> 3) = Some (Some a3) ->
  _mm_load_ps p s = Ok (M128 a0 a1 a2 a3) (State (heap s) (log s ++ [Load p 4])).
Proof.
  intros Hal H0 H1 H2 H3. unfold _mm_load_ps, check_aligned.
  rewrite decide_True by exact Hal.
  rewrite (bind_ok _ _ s tt s) by reflexivity.
  rewrite (bind_ok _ _ s a0 s) by (apply peek_cell; assumption).
  rewrite (bind_ok _ _ s a1 s) by (apply peek_cell; assumption).
  rewrite (bind_ok _ _ s a2 s) by (apply peek_cell; assumption).
  rewrite (bind_ok _ _ s a3 s) by (apply peek_cell; assumption).
  reflexivity.
Qed.

(** A scalar store changes the cell it names and nothing else. *)
Lemma store_f_cell s p v :
  is_Some (cell_at s p) ->
  exists t,
    store_f p v s = Ok tt t
    /\ cell_at t p = Some (Some v)
    /\ (forall q, q <> p -> cell_at t q = cell_at s q)
    /\ (forall b, b <> blk p -> heap t !! b = heap s !! b)
    /\ length (heap t) = length (heap s)
    /\ log t = log s ++ [Store p 1].
Proof.
  intros H. destruct (cell_at_is_Some s p H) as (d & Hd & Ho).
  unfold store_f, poke, bind. rewrite Hd. cbn [length].
  rewrite decide_True by lia. cbn [record heap log list_inserts fmap list_fmap].
  assert (Hb : blk p < length (heap s)) by (eapply lookup_lt_Some; exact Hd).
  eexists. split; [reflexivity|]. cbn [heap log].
  split; [|split; [|split; [|split]]].
  - unfold cell_at. cbn [heap]. rewrite list_lookup_insert_eq by exact Hb.
    apply list_lookup_insert_eq. exact Ho.
  - intros q Hq. unfold cell_at. cbn [heap].
    destruct (decide (blk q = blk p)) as [E|E].
    + rewrite E, list_lookup_insert_eq, Hd by exact Hb.
      apply list_lookup_insert_ne. intros E'. apply Hq.
      destruct q, p; cbn in *; congruence.
    + rewrite list_lookup_insert_ne by congruence. reflexivity.
  - intros b Hne. apply list_lookup_insert_ne. congruence.
  - apply length_insert.
  - reflexivity.
Qed.

(** A four-wide store changes the four cells from [p] on and nothing
    else. *)
Lemma _mm_store_ps_cell s p v :
  aligned16 p -> is_Some (cell_at s (p +> 3)) ->
  exists t,
    _mm_store_ps p v s = Ok tt t
    /\ (forall q, in_quad p q -> cell_at t q = Some (Some (lane v (ofs q - ofs p))))
    /\ (forall q, ~ in_quad p q -> cell_at t q = cell_at s q)
    /\ (forall b, b <> blk p -> heap t !! b = heap s !! b)
    /\ length (heap t) = length (heap s)
    /\ log t = log s ++ [Store p 4].
Proof.
  intros Hal H. destruct (cell_at_is_Some s _ H) as (d & Hd & Ho).
  cbn [ptr_add blk ofs] in Hd, Ho.
  destruct p as [b o]. cbn [blk ofs] in *.
  rewrite (_mm_store_ps_ok s b o d v Hd Hal) by lia.
  assert (Hb : b < length (heap s)) by (eapply lookup_lt_Some; exact Hd).
  eexists. split; [reflexivity|]. cbn [heap log].
  split; [|split; [|split; [|split]]].
  - intros [b' o'] [Eb Eo]. cbn [blk ofs] in *. subst b'.
    unfold cell_at. cbn [heap blk ofs]. rewrite list_lookup_insert_eq by exact Hb.
    rewrite list_lookup_inserts by (cbn; lia).
    assert (Hc : o' - o = 0 \/ o' - o = 1 \/ o' - o = 2 \/ o' - o = 3) by lia.
    destruct Hc as [-> | [-> | [-> | ->]]]; reflexivity.
  - intros [b' o'] Hq. unfold in_quad in Hq. cbn [blk ofs] in Hq.
    unfold cell_at. cbn [heap blk ofs].
    destruct (decide (b' = b)) as [->|E].
    + rewrite list_lookup_insert_eq, Hd by exact Hb.
      destruct (decide (o' < o)).
      * apply list_lookup_inserts_lt. assumption.
      * apply list_lookup_inserts_ge. cbn. lia.
    + rewrite list_lookup_insert_ne by congruence. reflexivity.
  - intros b' Hne. apply list_lookup_insert_ne. cbn in Hne. congruence.
  - apply length_insert.
  - reflexivity.
Qed.

(** Allocation adds one block of indeterminate cells after the blocks
    there are. *)
Lemma _aligned_malloc_cell n s :
  exists t,
    _aligned_malloc n s = Ok (Ptr (length (heap s)) 0) t
    /\ heap t = heap s ++ [replicate n None]
    /\ (forall o, o < n -> cell_at t (Ptr (length (heap s)) o) = Some None)
    /\ (forall q, blk q <> length (heap s) -> cell_at t q = cell_at s q)
    /\ (forall b, b < length (heap s) -> heap t !! b = heap s !! b)
    /\ log t = log s.
Proof.
  eexists. split; [reflexivity|]. cbn [heap log].
  split; [reflexivity|]. split; [|split; [|split]].
  - intros o Ho. unfold cell_at. cbn [heap blk ofs].
    rewrite lookup_app_r, Nat.sub_diag by lia. cbn. apply lookup_replicate_2. exact Ho.
  - intros q Hq. unfold cell_at. cbn [heap].
    destruct (decide (blk q < length (heap s))) as [Hlt|Hge].
    + rewrite lookup_app_l by exact Hlt. reflexivity.
    + rewrite (lookup_ge_None_2 (heap s)) by lia.
      rewrite lookup_ge_None_2; [reflexivity|]. rewrite length_app. cbn. lia.
  - intros b Hb. apply lookup_app_l. exact Hb.
  - reflexivity.
Qed.

(** A scalar store, on a state whose cells are known as a function. *)
Lemma store_f_upd s p v (F : ptr -> option cell) :
  (forall q, cell_at s q = F q) -> is_Some (F p) ->
  exists t,
    store_f p v s = Ok tt t
    /\ (forall q, cell_at t q = if decide (q = p) then Some (Some v) else F q)
    /\ (forall b, b <> blk p -> heap t !! b = heap s !! b)
    /\ length (heap t) = length (heap s).
Proof.
  intros HF Hp. rewrite <- HF in Hp.
  destruct (store_f_cell s p v Hp) as (t & E & Hnew & Hold & Hblk & Hlen & _).
  exists t. split; [exact E|]. split; [|split; assumption].
  intros q. destruct (decide (q = p)) as [->|Hq]; [exact Hnew|].
  rewrite Hold by exact Hq. apply HF.
Qed.

Lemma filled_lookup N o :
  1 <= N ->
  filled N !! o = if decide (o = 0) then Some F32.lit_1_0
                  else if decide (o < N) then Some F32.lit_0_1 else None.
Proof.
  intros HN. unfold filled. destruct o as [|o]; [reflexivity|].
  cbn [lookup list_lookup]. rewrite decide_False by lia.
  destruct (decide (S o < N)).
  - apply lookup_replicate_2. lia.
  - apply lookup_replicate_None. lia.
Qed.

Lemma filled_length N : 1 <= N -> length (filled N) = N.
Proof. intros HN. unfold filled. cbn. rewrite length_replicate. lia. Qed.

(** ** Filling the buffers *)

Ltac four_solve :=
  rewrite ?elem_of_cons, ?not_elem_of_cons, ?elem_of_nil in *; intuition congruence.

Section Fill.

Variable N : nat.
Variables bx by_ bz bw : block.
Variable s : state.

Let four := [bx; by_; bz; bw].

Hypothesis HN : 1 <= N.
Hypothesis Hdistinct : NoDup four.
Hypothesis Hblocks : forall b, b ∈ four -> exists d, heap s !! b = Some d /\ length d = N.

(** After [k] iterations of the loop of lines 166-171: the cells 1 to [k]
    of the four buffers hold [0.1f], every other cell is as it was. *)
Let fill_inv (k : nat) (t : state) : Prop :=
  (forall q, cell_at t q = if decide (blk q ∈ four /\ 1 <= ofs q <= k)
                           then Some (Some F32.lit_0_1) else cell_at s q)
  /\ (forall b, b ∉ four -> heap t !! b = heap s !! b)
  /\ length (heap t) = length (heap s).

Lemma cell_in_four b o : b ∈ four -> o < N -> is_Some (cell_at s (Ptr b o)).
Proof.
  intros Hb Ho. destruct (Hblocks b Hb) as (d & Hd & Hlen).
  rewrite (cell_at_block s b o d Hd). apply lookup_lt_is_Some. lia.
Qed.

Lemma cell_past_four b o : b ∈ four -> N <= o -> cell_at s (Ptr b o) = None.
Proof.
  intros Hb Ho. destruct (Hblocks b Hb) as (d & Hd & Hlen).
  rewrite (cell_at_block s b o d Hd). apply lookup_ge_None_2. lia.
Qed.

Lemma four_distinct :
  bx <> by_ /\ bx <> bz /\ bx <> bw /\ by_ <> bz /\ by_ <> bw /\ bz <> bw.
Proof.
  unfold four in Hdistinct.
  apply NoDup_cons in Hdistinct as [H1 Hd1].
  apply NoDup_cons in Hd1 as [H2 Hd2].
  apply NoDup_cons in Hd2 as [H3 _].
  four_solve.
Qed.

Lemma soa_fill_step k t :
  1 + k < N -> fill_inv k t ->
  exists t',
    (store_f (Ptr bx 0 +> (1 + k)) F32.lit_0_1 ;;;
     store_f (Ptr by_ 0 +> (1 + k)) F32.lit_0_1 ;;;
     store_f (Ptr bz 0 +> (1 + k)) F32.lit_0_1 ;;;
     store_f (Ptr bw 0 +> (1 + k)) F32.lit_0_1) t = Ok tt t'
    /\ fill_inv (S k) t'.
Proof.
  intros Hk (Hc & Hb & Hl).
  destruct four_distinct as (Nxy & Nxz & Nxw & Nyz & Nyw & Nzw).
  unfold ptr_add. cbn [blk ofs Nat.add].
  assert (Hfresh : forall b, b ∈ four ->
            is_Some (if decide (blk (Ptr b (S k)) ∈ four /\ 1 <= ofs (Ptr b (S k)) <= k)
                     then Some (Some F32.lit_0_1) else cell_at s (Ptr b (S k)))).
  { intros b Hin. cbn [blk ofs]. rewrite decide_False by lia.
    apply cell_in_four; [exact Hin | lia]. }
  destruct (store_f_upd t (Ptr bx (S k)) F32.lit_0_1 _ Hc) as (t1 & E1 & C1 & B1 & L1).
  { apply Hfresh. unfold four. four_solve. }
  destruct (store_f_upd t1 (Ptr by_ (S k)) F32.lit_0_1 _ C1) as (t2 & E2 & C2 & B2 & L2).
  { rewrite decide_False by congruence. apply Hfresh. unfold four. four_solve. }
  destruct (store_f_upd t2 (Ptr bz (S k)) F32.lit_0_1 _ C2) as (t3 & E3 & C3 & B3 & L3).
  { rewrite !decide_False by congruence. apply Hfresh. unfold four. four_solve. }
  destruct (store_f_upd t3 (Ptr bw (S k)) F32.lit_0_1 _ C3) as (t4 & E4 & C4 & B4 & L4).
  { rewrite !decide_False by congruence. apply Hfresh. unfold four. four_solve. }
  exists t4. split.
  { rewrite (bind_ok _ _ _ _ _ E1), (bind_ok _ _ _ _ _ E2), (bind_ok _ _ _ _ _ E3).
    exact E4. }
  split; [|split].
  - intros [b o]. rewrite C4. cbn [blk ofs].
    destruct (decide (b ∈ four /\ 1 <= o <= S k)) as [[Hin Ho]|Hn].
    + repeat case_decide; try reflexivity. exfalso.
      assert (o = S k) as -> by (destruct (decide (o <= k)); [tauto | lia]).
      unfold four in Hin. rewrite !elem_of_cons, elem_of_nil in Hin.
      destruct Hin as [-> | [-> | [-> | [-> | []]]]]; congruence.
    + assert (Hout : forall b', b' ∈ four -> Ptr b o <> Ptr b' (S k)).
      { intros b' Hb' [= -> ->]. apply Hn. split; [exact Hb' | lia]. }
      rewrite !decide_False; [reflexivity | | | | |].
      * intros [Hin Ho]. apply Hn. split; [exact Hin | lia].
      * apply Hout. unfold four. rewrite !elem_of_cons. tauto.
      * apply Hout. unfold four. rewrite !elem_of_cons. tauto.
      * apply Hout. unfold four. rewrite !elem_of_cons. tauto.
      * apply Hout. unfold four. rewrite !elem_of_cons. tauto.
  - intros b Hin. cbn [blk] in *.
    rewrite B4, B3, B2, B1 by (unfold four in Hin; four_solve). apply Hb. exact Hin.
  - lia.
Qed.

Lemma soa_fill_fills :
  exists t,
    soa_fill N (Ptr bx 0) (Ptr by_ 0) (Ptr bz 0) (Ptr bw 0) s = Ok tt t
    /\ (forall b, b ∈ four -> heap t !! b = Some (Some <$> filled N))
    /\ (forall b, b ∉ four -> heap t !! b = heap s !! b)
    /\ length (heap t) = length (heap s).
Proof.
  destruct four_distinct as (Nxy & Nxz & Nxw & Nyz & Nyw & Nzw).
  destruct (for_loop_rule fill_inv
              (fun i => store_f (Ptr bx 0 +> i) F32.lit_0_1 ;;;
                        store_f (Ptr by_ 0 +> i) F32.lit_0_1 ;;;
                        store_f (Ptr bz 0 +> i) F32.lit_0_1 ;;;
                        store_f (Ptr bw 0 +> i) F32.lit_0_1)
              1 N (N - 1) (S N) 1 s) as (t0 & E0 & (Hc & Hb & Hl)).
  { lia. }
  { intros k Hk. lia. }
  { lia. }
  { split; [|split; [|reflexivity]].
    - intros q. rewrite decide_False by lia. reflexivity.
    - reflexivity. }
  { intros k t Hk Hinv. replace (1 + k * 1) with (1 + k) by lia.
    apply soa_fill_step; [lia | exact Hinv]. }
  assert (Hzero : forall b, b ∈ four -> is_Some (cell_at s (Ptr b 0))).
  { intros b Hin. apply cell_in_four; [exact Hin | lia]. }
  unfold ptr_add in *. cbn [blk ofs Nat.add] in *.
  destruct (store_f_upd t0 (Ptr bx 0) F32.lit_1_0 _ Hc) as (t1 & E1 & C1 & B1 & L1).
  { cbn [blk ofs]. rewrite decide_False by lia. apply Hzero. unfold four. four_solve. }
  destruct (store_f_upd t1 (Ptr by_ 0) F32.lit_1_0 _ C1) as (t2 & E2 & C2 & B2 & L2).
  { cbn [blk ofs]. rewrite !decide_False by (congruence || lia).
    apply Hzero. unfold four. four_solve. }
  destruct (store_f_upd t2 (Ptr bw 0) F32.lit_1_0 _ C2) as (t3 & E3 & C3 & B3 & L3).
  { cbn [blk ofs]. rewrite !decide_False by (congruence || lia).
    apply Hzero. unfold four. four_solve. }
  destruct (store_f_upd t3 (Ptr bz 0) F32.lit_1_0 _ C3) as (t4 & E4 & C4 & B4 & L4).
  { cbn [blk ofs]. rewrite !decide_False by (congruence || lia).
    apply Hzero. unfold four. four_solve. }
  exists t4. split.
  { unfold soa_fill, for_.
    rewrite (bind_ok _ _ _ _ _ E0), (bind_ok _ _ _ _ _ E1), (bind_ok _ _ _ _ _ E2),
      (bind_ok _ _ _ _ _ E3).
    exact E4. }
  split; [|split].
  - intros b Hin.
    assert (H0 : cell_at t4 (Ptr b 0) = Some (Some F32.lit_1_0)).
    { rewrite C4. pose proof Hin as Hin'. unfold four in Hin'.
      rewrite !elem_of_cons, elem_of_nil in Hin'.
      destruct Hin' as [-> | [-> | [-> | [-> | []]]]];
        repeat case_decide; try reflexivity; congruence. }
    destruct (cell_at_is_Some t4 (Ptr b 0)) as (d & Hd & _); [rewrite H0; eauto|].
    cbn [blk] in Hd. rewrite Hd. f_equal. apply list_eq. intros o.
    rewrite <- (cell_at_block t4 b o d Hd), list_lookup_fmap, (filled_lookup N o HN).
    destruct (decide (o = 0)) as [->|Ho]; [exact H0|].
    rewrite C4, !decide_False by congruence. cbn [blk ofs].
    destruct (decide (o < N)).
    + rewrite decide_True by (split; [exact Hin | lia]). reflexivity.
    + rewrite decide_False by lia. apply cell_past_four; [exact Hin | lia].
  - intros b Hin. cbn [blk] in *.
    rewrite B4, B3, B2, B1 by (unfold four in Hin; four_solve). apply Hb. exact Hin.
  - lia.
Qed.

End Fill.

(** X1.  Lines 166-176 on any four distinct [N]-cell buffers, [N] at least
    1, whatever they held: every cell is written, element 0 with [1.0f]
    and the others with [0.1f], and no other block changes. *)
Theorem soa_fill_initialises N bx by_ bz bw s :
  1 <= N ->
  NoDup [bx; by_; bz; bw] ->
  (forall b, b ∈ [bx; by_; bz; bw] -> exists d, heap s !! b = Some d /\ length d = N) ->
  exists t,
    soa_fill N (Ptr bx 0) (Ptr by_ 0) (Ptr bz 0) (Ptr bw 0) s = Ok tt t
    /\ (forall b, b ∈ [bx; by_; bz; bw] -> heap t !! b = Some (Some <$> filled N))
    /\ (forall b, b ∉ [bx; by_; bz; bw] -> heap t !! b = heap s !! b)
    /\ length (heap t) = length (heap s).
Proof. intros HN Hd Hb. exact (soa_fill_fills N bx by_ bz bw s HN Hd Hb). Qed.

(** ** Allocating, filling and running, from any state *)

Lemma soa_alloc_blocks N s :
  soa_alloc N s
  = Ok (SoaBufs (Ptr (length (heap s)) 0) (Ptr (length (heap s) + 1) 0)
                (Ptr (length (heap s) + 2) 0) (Ptr (length (heap s) + 3) 0)
                (Ptr (length (heap s) + 4) 0))
       (State (heap s ++ replicate 5 (replicate N None)) (log s)).
Proof.
  unfold soa_alloc, bind, _aligned_malloc, ret. cbn [heap log].
  rewrite !length_app. cbn [length replicate]. rewrite <- !app_assoc. cbn [app].
  replace (length (heap s) + 1 + 1) with (length (heap s) + 2) by lia.
  replace (length (heap s) + 2 + 1) with (length (heap s) + 3) by lia.
  replace (length (heap s) + 3 + 1) with (length (heap s) + 4) by lia.
  reflexivity.
Qed.

Lemma dot_tree_of_ones :
  dot_tree F32.lit_1_0 F32.lit_1_0 F32.lit_1_0 F32.lit_1_0
           F32.lit_1_0 F32.lit_1_0 F32.lit_1_0 F32.lit_1_0 = lit_4_0
  /\ dot_tree F32.lit_1_0 F32.lit_1_0 F32.lit_1_0 F32.lit_1_0
              F32.lit_0_1 F32.lit_0_1 F32.lit_0_1 F32.lit_0_1 = lit_0_4.
Proof. vm_compute. split; reflexivity. Qed.

Lemma soa_setup_ready N s :
  1 <= N ->
  exists t,
    soa_setup N s
    = Ok (SoaBufs (Ptr (length (heap s)) 0) (Ptr (length (heap s) + 1) 0)
                  (Ptr (length (heap s) + 2) 0) (Ptr (length (heap s) + 3) 0)
                  (Ptr (length (heap s) + 4) 0)) t
    /\ soa_ready N (length (heap s)) (length (heap s) + 1) (length (heap s) + 2)
         (length (heap s) + 3) (length (heap s) + 4)
         (filled N) (filled N) (filled N) (filled N) t
    /\ (forall b, b < length (heap s) -> heap t !! b = heap s !! b)
    /\ length (heap t) = length (heap s) + 5.
Proof.
  intros HN. set (n := length (heap s)).
  set (s1 := State (heap s ++ replicate 5 (replicate N None)) (log s)).
  assert (Hnew : forall j, j < 5 -> heap s1 !! (n + j) = Some (replicate N None)).
  { intros j Hj. unfold s1. cbn [heap]. rewrite lookup_app_r by (unfold n; lia).
    replace (n + j - length (heap s)) with j by (unfold n; lia).
    apply lookup_replicate_2. exact Hj. }
  destruct (soa_fill_fills N n (n + 1) (n + 2) (n + 3) s1 HN)
    as (t & Efill & Hfour & Hrest & Hlen).
  { repeat (apply NoDup_cons; split; [rewrite ?not_elem_of_cons, ?elem_of_nil; lia|]).
    apply NoDup_nil_2. }
  { intros b Hb. rewrite !elem_of_cons, elem_of_nil in Hb.
    exists (replicate N None). split; [|apply length_replicate].
    destruct Hb as [-> | [-> | [-> | [-> | []]]]].
    - rewrite <- (Nat.add_0_r n). apply Hnew. lia.
    - apply Hnew. lia.
    - apply Hnew. lia.
    - apply Hnew. lia. }
  exists t. split.
  { unfold soa_setup. rewrite (bind_ok _ _ _ _ _ (soa_alloc_blocks N s)).
    cbn [sb_x sb_y sb_z sb_w]. fold n s1.
    rewrite (bind_ok _ _ _ _ _ Efill). reflexivity. }
  split; [|split].
  - split.
    + apply Hfour. rewrite !elem_of_cons. tauto.
    + apply Hfour. rewrite !elem_of_cons. tauto.
    + apply Hfour. rewrite !elem_of_cons. tauto.
    + apply Hfour. rewrite !elem_of_cons. tauto.
    + exists (replicate N None). split; [|apply length_replicate].
      rewrite Hrest by (rewrite !not_elem_of_cons, elem_of_nil; lia).
      apply Hnew. lia.
    + rewrite !filled_length by exact HN. tauto.
    + lia.
  - intros b Hb. rewrite Hrest by (rewrite !not_elem_of_cons, elem_of_nil; fold n in Hb; lia).
    unfold s1. cbn [heap]. apply lookup_app_l. exact Hb.
  - rewrite Hlen. unfold s1. cbn [heap]. rewrite length_app, length_replicate. reflexivity.
Qed.

(** X2.  Lines 156-176 from any state, for any length [N] of at least 1:
    the five buffers are the five blocks after those there were, the four
    coordinate buffers hold (1, 0.1, ..., 0.1), which is the state the
    kernel asks for, and every earlier block is as it was. *)
Theorem soa_setup_makes_ready N s :
  1 <= N ->
  exists t,
    soa_setup N s
    = Ok (SoaBufs (Ptr (length (heap s)) 0) (Ptr (length (heap s) + 1) 0)
                  (Ptr (length (heap s) + 2) 0) (Ptr (length (heap s) + 3) 0)
                  (Ptr (length (heap s) + 4) 0)) t
    /\ soa_ready N (length (heap s)) (length (heap s) + 1) (length (heap s) + 2)
         (length (heap s) + 3) (length (heap s) + 4)
         (filled N) (filled N) (filled N) (filled N) t
    /\ (forall b, b < length (heap s) -> heap t !! b = heap s !! b)
    /\ length (heap t) = length (heap s) + 5.
Proof. exact (soa_setup_ready N s). Qed.

(** X3.  Lines 156-217 from any state, for any length [N] that is a multiple of
    4 and at least 4: the run completes with [dp[0]] 4.0 and the other
    [N - 1] results the float nearest to 0.4, and every earlier block is
    as it was. *)
Theorem soa_demo_any_length N s :
  N mod 4 = 0 -> 4 <= N ->
  exists b t,
    soa_demo N s = Ok b t
    /\ blk (sb_dp b) = length (heap s) + 4
    /\ heap t !! blk (sb_dp b) = Some (Some lit_4_0 :: replicate (N - 1) (Some lit_0_4))
    /\ (forall b', b' < length (heap s) -> heap t !! b' = heap s !! b').
Proof.
  intros Hmod HN. set (n := length (heap s)).
  destruct (soa_setup_ready N s) as (t1 & Eset & R & Hold & Hlen); [lia|].
  fold n in Eset, R, Hold, Hlen.
  destruct (soa_kernel_contract N n (n + 1) (n + 2) (n + 3) (n + 4) _ _ _ _ t1 R Hmod HN)
    as (t & d & Erun & Hh & Hd & Hres & _).
  eexists. exists t. split.
  { unfold soa_demo. rewrite (bind_ok _ _ _ _ _ Eset). cbn [sb_x sb_y sb_z sb_w sb_dp].
    rewrite (bind_ok _ _ _ _ _ Erun). reflexivity. }
  cbn [sb_dp blk]. split; [reflexivity|]. split.
  - rewrite Hh, list_lookup_insert_eq by lia. f_equal.
    apply list_eq. intros i.
    destruct (decide (i < N)) as [Hi|Hi].
    + assert (H0 : filled N !! 0 = Some F32.lit_1_0) by reflexivity.
      assert (Hfi : filled N !! i
                    = Some (if decide (i = 0) then F32.lit_1_0 else F32.lit_0_1)).
      { rewrite filled_lookup by lia. destruct (decide (i = 0)); [reflexivity|].
        rewrite decide_True by exact Hi. reflexivity. }
      rewrite (Hres i _ _ _ _ _ _ _ _ H0 H0 H0 H0 Hfi Hfi Hfi Hfi).
      destruct dot_tree_of_ones as [E4 E04].
      destruct i as [|i]; cbn [decide_rel lookup list_lookup].
      * rewrite decide_True by reflexivity. rewrite E4. reflexivity.
      * rewrite decide_False by lia. rewrite E04.
        symmetry. apply lookup_replicate_2. lia.
    + rewrite !lookup_ge_None_2; [reflexivity | |].
      * cbn. rewrite length_replicate. lia.
      * lia.
  - intros b' Hb'. rewrite Hh, list_lookup_insert_ne by lia. apply Hold. exact Hb'.
Qed.

(** ** Lengths the kernel is not written for *)

(** A loop whose body faults in its [k]-th iteration, the earlier ones
    keeping an invariant, ends with that fault. *)
Lemma for_loop_fault_at (Inv : nat -> state -> Prop) body step bound f k :
  forall fuel start s,
    k < fuel ->
    (forall j, j <= k -> start + j * step < bound) ->
    Inv 0 s ->
    (forall j t, j < k -> Inv j t ->
       exists t', body (start + j * step) t = Ok tt t' /\ Inv (S j) t') ->
    (forall t, Inv k t -> body (start + k * step) t = Fault f) ->
    for_loop fuel start bound step body s = Fault f.
Proof.
  revert Inv. induction k as [|k IH]; intros Inv fuel start s Hf Hlt H0 Hbody Hfault.
  - destruct fuel as [|fuel]; [lia|]. cbn [for_loop].
    rewrite decide_True by (specialize (Hlt 0); lia).
    specialize (Hfault s H0). replace (start + 0 * step) with start in Hfault by lia.
    unfold bind. rewrite Hfault. reflexivity.
  - destruct fuel as [|fuel]; [lia|]. cbn [for_loop].
    rewrite decide_True by (specialize (Hlt 0); lia).
    destruct (Hbody 0 s ltac:(lia) H0) as (s1 & E1 & I1).
    replace (start + 0 * step) with start in E1 by lia.
    rewrite (bind_ok _ _ _ _ _ E1).
    apply (IH (fun j => Inv (S j))); try assumption; try lia.
    + intros j Hj. specialize (Hlt (S j)). lia.
    + intros j t Hj It.
      destruct (Hbody (S j) t ltac:(lia) It) as (t' & E & I').
      exists t'. split; [|exact I'].
      replace (start + step + j * step) with (start + S j * step) by lia.
      exact E.
    + intros t It. replace (start + step + k * step) with (start + S k * step) by lia.
      apply Hfault. exact It.
Qed.

(** A four-wide load that starts within a buffer and ends past it. *)
Lemma _mm_load_ps_overrun s b o (vs : list float) :
  heap s !! b = Some (Some <$> vs) -> o mod 4 = 0 -> length vs < o + 4 ->
  _mm_load_ps (Ptr b o) s = Fault OutOfBounds.
Proof.
  intros Hb Hal Hlen. unfold _mm_load_ps, check_aligned.
  rewrite decide_True by exact Hal.
  rewrite (bind_ok _ _ s tt s) by reflexivity.
  assert (Hout : forall i, vs !! i = None -> peek (Ptr b i) s = Fault OutOfBounds).
  { intros i Hi. apply peek_outside with (d := Some <$> vs); [exact Hb|].
    rewrite length_fmap. apply lookup_ge_None_1. exact Hi. }
  unfold ptr_add. cbn [blk ofs].
  destruct (vs !! o) as [a0|] eqn:E0;
    [rewrite (bind_ok _ _ s a0 s) by (eapply peek_ok; eauto)
    |unfold bind; rewrite (Hout _ E0); reflexivity].
  destruct (vs !! (o + 1)) as [a1|] eqn:E1;
    [rewrite (bind_ok _ _ s a1 s) by (eapply peek_ok; eauto)
    |unfold bind; rewrite (Hout _ E1); reflexivity].
  destruct (vs !! (o + 2)) as [a2|] eqn:E2;
    [rewrite (bind_ok _ _ s a2 s) by (eapply peek_ok; eauto)
    |unfold bind; rewrite (Hout _ E2); reflexivity].
  destruct (vs !! (o + 3)) as [a3|] eqn:E3;
    [|unfold bind; rewrite (Hout _ E3); reflexivity].
  apply lookup_lt_Some in E3. lia.
Qed.

(** A loop whose bound falls within its last step: the iterations up to
    the last whole step, then the body once more. *)
Lemma for_loop_last body step bound :
  0 < step ->
  forall k fuel1 fuel2 start s,
    k < fuel1 -> S k < fuel2 ->
    start + k * step < bound -> bound <= start + S k * step ->
    for_loop fuel2 start bound step body s
    = (for_loop fuel1 start (start + k * step) step body ;;; body (start + k * step)) s.
Proof.
  intros Hstep. induction k as [|k IH]; intros fuel1 fuel2 start s H1 H2 Hlt Hle.
  - destruct fuel1 as [|fuel1]; [lia|]. destruct fuel2 as [|[|fuel2]]; try lia.
    cbn [for_loop]. rewrite decide_True by lia.
    rewrite (decide_False (P := start < start + 0 * step)) by lia.
    rewrite (decide_False (P := start + step < bound)) by lia.
    replace (start + 0 * step) with start by lia.
    unfold bind, ret. destruct (body start s) as [[] s1|]; reflexivity.
  - destruct fuel1 as [|fuel1]; [lia|]. destruct fuel2 as [|fuel2]; [lia|].
    cbn [for_loop]. rewrite decide_True by lia.
    rewrite (decide_True (P := start < start + S k * step)) by lia.
    unfold bind. destruct (body start s) as [[] s1|]; [|reflexivity].
    rewrite (IH fuel1 fuel2 (start + step) s1) by lia.
    replace (start + step + k * step) with (start + S k * step) by lia.
    reflexivity.
Qed.

Section Lengths.

Variable N : nat.
Variables bx by_ bz bw bd : block.
Variables xs ys zs ws : list float.

Lemma soa_kernel_prefix s bound :
  soa_ready N bx by_ bz bw bd xs ys zs ws s ->
  bound mod 4 = 0 -> bound <= N -> 1 <= N ->
  exists t d0 d,
    soa_kernel bound (Ptr bx 0) (Ptr by_ 0) (Ptr bz 0) (Ptr bw 0) (Ptr bd 0) s = Ok tt t
    /\ heap s !! bd = Some d0
    /\ heap t = <[bd := d]> (heap s)
    /\ length d = N
    /\ (forall i x0 y0 z0 w0 xi yi zi wi,
          i < bound ->
          xs !! 0 = Some x0 -> ys !! 0 = Some y0 ->
          zs !! 0 = Some z0 -> ws !! 0 = Some w0 ->
          xs !! i = Some xi -> ys !! i = Some yi ->
          zs !! i = Some zi -> ws !! i = Some wi ->
          d !! i = Some (Some (dot_tree x0 y0 z0 w0 xi yi zi wi)))
    /\ (forall i, bound <= i -> d !! i = d0 !! i)
    /\ log t = log s ++ kernel_accesses bound (Ptr bx 0) (Ptr by_ 0) (Ptr bz 0)
                                        (Ptr bw 0) (Ptr bd 0).
Proof.
  intros R Hmod Hle HN.
  pose proof R as [Rx Ry Rz Rw Rd (Lx & Ly & Lz & Lw) Rsep].
  pose proof (Nat.div_mod_eq bound 4) as Hdiv.
  destruct (lookup_lt_is_Some_2 xs 0) as [x0 X0]; [lia|].
  destruct (lookup_lt_is_Some_2 ys 0) as [y0 Y0]; [lia|].
  destruct (lookup_lt_is_Some_2 zs 0) as [z0 Z0]; [lia|].
  destruct (lookup_lt_is_Some_2 ws 0) as [w0 W0]; [lia|].
  rewrite (soa_kernel_unfold N bx by_ bz bw bd xs ys zs ws bound s x0 y0 z0 w0
             R X0 Y0 Z0 W0).
  match goal with |- context [soa_loop _ _ _ _ _ _ _ _ _ _ ?s4] => set (s' := s4) end.
  assert (R' : soa_ready N bx by_ bz bw bd xs ys zs ws s')
    by (destruct R as [? ? ? ? ? ? ?]; split; assumption).
  destruct (soa_loop_runs N bx by_ bz bw bd xs ys zs ws
              (splat x0) (splat y0) (splat z0) (splat w0) s' bound R' Hmod Hle)
    as (t & Erun & [(d0 & d & Hd0 & Hh & Hd & Hres & Hrest) Hlog]).
  exists t, d0, d. split; [exact Erun|]. split; [exact Hd0|]. split; [exact Hh|].
  split; [exact Hd|]. split; [|split].
  - intros i x0' y0' z0' w0' xi yi zi wi Hi X0' Y0' Z0' W0' Xi Yi Zi Wi.
    rewrite (Hres i ltac:(lia) xi yi zi wi Xi Yi Zi Wi), !lane_splat.
    repeat f_equal; congruence.
  - intros i Hi. apply Hrest. lia.
  - rewrite Hlog. unfold s', kernel_accesses, loop_accesses, block_starts.
    cbn [log]. rewrite <- !app_assoc. reflexivity.
Qed.

(** X4.  Lines 180-217 on buffers whose length is not a multiple of 4.
    The run is that of the whole blocks followed by one more block
    iteration, at [4 * (N / 4)].  The whole blocks are processed: that part
    completes, with the results of the first [4 * (N / 4)] vectors in [dp]
    and exactly the accesses of a kernel of that length.  Then the first
    four-wide load of the last, partial block runs past the end of [x], and
    the kernel ends with that fault. *)
Theorem soa_kernel_ragged_length_overruns s :
  soa_ready N bx by_ bz bw bd xs ys zs ws s -> N mod 4 <> 0 ->
  exists t d x0 y0 z0 w0,
    xs !! 0 = Some x0 /\ ys !! 0 = Some y0 /\ zs !! 0 = Some z0 /\ ws !! 0 = Some w0
    /\ soa_kernel N (Ptr bx 0) (Ptr by_ 0) (Ptr bz 0) (Ptr bw 0) (Ptr bd 0) s
       = (soa_kernel (4 * (N / 4)) (Ptr bx 0) (Ptr by_ 0) (Ptr bz 0) (Ptr bw 0) (Ptr bd 0) ;;;
          soa_block (splat x0) (splat y0) (splat z0) (splat w0)
                    (Ptr bx 0) (Ptr by_ 0) (Ptr bz 0) (Ptr bw 0) (Ptr bd 0)
                    (4 * (N / 4))) s
    /\ soa_kernel (4 * (N / 4)) (Ptr bx 0) (Ptr by_ 0) (Ptr bz 0) (Ptr bw 0) (Ptr bd 0) s
       = Ok tt t
    /\ heap t !! bd = Some d
    /\ (forall i xi yi zi wi,
          i < 4 * (N / 4) ->
          xs !! i = Some xi -> ys !! i = Some yi ->
          zs !! i = Some zi -> ws !! i = Some wi ->
          d !! i = Some (Some (dot_tree x0 y0 z0 w0 xi yi zi wi)))
    /\ log t = log s ++ kernel_accesses (4 * (N / 4)) (Ptr bx 0) (Ptr by_ 0) (Ptr bz 0)
                                        (Ptr bw 0) (Ptr bd 0)
    /\ _mm_load_ps (Ptr bx 0 +> 4 * (N / 4)) t = Fault OutOfBounds
    /\ soa_kernel N (Ptr bx 0) (Ptr by_ 0) (Ptr bz 0) (Ptr bw 0) (Ptr bd 0) s
       = Fault OutOfBounds.
Proof.
  intros R Hmod.
  pose proof R as [Rx Ry Rz Rw Rd (Lx & Ly & Lz & Lw) (Sx & Sy & Sz & Sw)].
  pose proof (Nat.div_mod_eq N 4) as Hdiv.
  pose proof (Nat.mod_upper_bound N 4 ltac:(lia)) as Hr.
  destruct (lookup_lt_is_Some_2 xs 0) as [x0 X0]; [lia|].
  destruct (lookup_lt_is_Some_2 ys 0) as [y0 Y0]; [lia|].
  destruct (lookup_lt_is_Some_2 zs 0) as [z0 Z0]; [lia|].
  destruct (lookup_lt_is_Some_2 ws 0) as [w0 W0]; [lia|].
  destruct (soa_kernel_prefix s (4 * (N / 4)) R) as (t & d0 & d & Erun & Hd0 & Ht & Hd & Hres & _ & Hlog).
  { rewrite Nat.mul_comm. apply Nat.Div0.mod_mul. }
  { lia. }
  { lia. }
  assert (Eload : _mm_load_ps (Ptr bx 0 +> 4 * (N / 4)) t = Fault OutOfBounds).
  { unfold ptr_add. cbn [blk ofs Nat.add].
    apply _mm_load_ps_overrun with (vs := xs).
    - rewrite Ht, list_lookup_insert_ne by exact Sx. exact Rx.
    - rewrite Nat.mul_comm. apply Nat.Div0.mod_mul.
    - lia. }
  assert (Esplit :
    soa_kernel N (Ptr bx 0) (Ptr by_ 0) (Ptr bz 0) (Ptr bw 0) (Ptr bd 0) s
    = (soa_kernel (4 * (N / 4)) (Ptr bx 0) (Ptr by_ 0) (Ptr bz 0) (Ptr bw 0) (Ptr bd 0) ;;;
       soa_block (splat x0) (splat y0) (splat z0) (splat w0)
                 (Ptr bx 0) (Ptr by_ 0) (Ptr bz 0) (Ptr bw 0) (Ptr bd 0)
                 (4 * (N / 4))) s).
  { unfold bind at 1.
    rewrite !(soa_kernel_unfold N bx by_ bz bw bd xs ys zs ws _ s x0 y0 z0 w0 R X0 Y0 Z0 W0).
    unfold soa_loop, for_.
    rewrite (for_loop_last _ 4 N ltac:(lia) (N / 4) (S (4 * (N / 4))) (S N) 0) by lia.
    replace (0 + N / 4 * 4) with (4 * (N / 4)) by lia. reflexivity. }
  exists t, d, x0, y0, z0, w0.
  split; [exact X0|]. split; [exact Y0|]. split; [exact Z0|]. split; [exact W0|].
  split; [exact Esplit|]. split; [exact Erun|]. split.
  { rewrite Ht. apply list_lookup_insert_eq. eapply lookup_lt_Some. exact Hd0. }
  split.
  { intros i xi yi zi wi Hi Xi Yi Zi Wi.
    exact (Hres i x0 y0 z0 w0 xi yi zi wi Hi X0 Y0 Z0 W0 Xi Yi Zi Wi). }
  split; [exact Hlog|]. split; [exact Eload|].
  rewrite Esplit. unfold bind at 1. rewrite Erun.
  unfold soa_block, bind. rewrite Eload. reflexivity.
Qed.

(** X5.  Lines 180-217 with a bound that is a multiple of 4 and does not
    exceed the buffers, which hold at least one float: the first [bound]
    results are computed and the rest of [dp] is left as it was; with
    bound 0 only the four broadcast loads are made. *)
Theorem soa_kernel_shorter_bound s bound :
  soa_ready N bx by_ bz bw bd xs ys zs ws s ->
  bound mod 4 = 0 -> bound <= N -> 1 <= N ->
  exists t d0 d,
    soa_kernel bound (Ptr bx 0) (Ptr by_ 0) (Ptr bz 0) (Ptr bw 0) (Ptr bd 0) s = Ok tt t
    /\ heap s !! bd = Some d0
    /\ heap t = <[bd := d]> (heap s)
    /\ length d = N
    /\ (forall i x0 y0 z0 w0 xi yi zi wi,
          i < bound ->
          xs !! 0 = Some x0 -> ys !! 0 = Some y0 ->
          zs !! 0 = Some z0 -> ws !! 0 = Some w0 ->
          xs !! i = Some xi -> ys !! i = Some yi ->
          zs !! i = Some zi -> ws !! i = Some wi ->
          d !! i = Some (Some (dot_tree x0 y0 z0 w0 xi yi zi wi)))
    /\ (forall i, bound <= i -> d !! i = d0 !! i)
    /\ log t = log s ++ kernel_accesses bound (Ptr bx 0) (Ptr by_ 0) (Ptr bz 0)
                                        (Ptr bw 0) (Ptr bd 0).
Proof. exact (soa_kernel_prefix s bound). Qed.

End Lengths.

(** X6.  Lines 166-217 on empty buffers: element 0 is written by the fill and
    read by the kernel whatever the length, so both run off the empty
    [x]. *)
Theorem empty_buffers_fault bx s :
  heap s !! bx = Some [] ->
  (forall n y z w dp, soa_kernel n (Ptr bx 0) y z w dp s = Fault OutOfBounds)
  /\ (forall y z w, soa_fill 0 (Ptr bx 0) y z w s = Fault OutOfBounds).
Proof.
  intros Hx. split.
  - intros n y z w dp. unfold soa_kernel, _mm_load1_ps, bind.
    rewrite (peek_outside s (Ptr bx 0 +> 0) []); [reflexivity | exact Hx | cbn; lia].
  - intros y z w. unfold soa_fill, for_, store_f, bind, poke. cbn [for_loop].
    rewrite decide_False by lia. cbn [ret ptr_add blk ofs]. rewrite Hx.
    rewrite decide_False by (cbn; lia). reflexivity.
Qed.

(** ** The warm-up sum on any contents *)

Lemma cell_at_heap s s' p : heap s' = heap s -> cell_at s' p = cell_at s p.
Proof. intros H. unfold cell_at. rewrite H. reflexivity. Qed.

Lemma list_of_length_8 {A} (l : list A) :
  length l = 8 -> exists a0 a1 a2 a3 a4 a5 a6 a7, l = [a0; a1; a2; a3; a4; a5; a6; a7].
Proof.
  intros H. do 8 (destruct l as [|? l]; [discriminate H|]).
  destruct l; [|discriminate H]. eauto 10.
Qed.

(** X7.  Lines 69-98 on any two buffers of 8 floats and any 8-cell result
    buffer: the result buffer receives the eight lane-wise sums and no
    other block changes.  Nothing is asked of how the three buffers are
    placed: the result buffer may be one of the inputs, each block of four
    being loaded before it is stored. *)
Theorem warmup_add_sums bf bb br (fs gs : list float) (d : list cell) s :
  heap s !! bf = Some (Some <$> fs) -> heap s !! bb = Some (Some <$> gs) ->
  heap s !! br = Some d ->
  length fs = 8 -> length gs = 8 -> length d = 8 ->
  exists t,
    warmup_add (Ptr bf 0) (Ptr bb 0) (Ptr br 0) s = Ok tt t
    /\ heap t !! br = Some (Some <$> zip_with F32.add fs gs)
    /\ (forall b, b <> br -> heap t !! b = heap s !! b)
    /\ length (heap t) = length (heap s).
Proof.
  intros Hf Hg Hr Lf Lg Ld.
  destruct (list_of_length_8 fs Lf) as (f0 & f1 & f2 & f3 & f4 & f5 & f6 & f7 & ->).
  destruct (list_of_length_8 gs Lg) as (g0 & g1 & g2 & g3 & g4 & g5 & g6 & g7 & ->).
  assert (Cf : forall o, cell_at s (Ptr bf o)
                         = (Some <$> [f0; f1; f2; f3; f4; f5; f6; f7]) !! o)
    by (intros o; apply cell_at_block; exact Hf).
  assert (Cg : forall o, cell_at s (Ptr bb o)
                         = (Some <$> [g0; g1; g2; g3; g4; g5; g6; g7]) !! o)
    by (intros o; apply cell_at_block; exact Hg).
  assert (Cr : forall o, o < 8 -> is_Some (cell_at s (Ptr br o))).
  { intros o Ho. rewrite (cell_at_block s br o d Hr). apply lookup_lt_is_Some. lia. }
  set (c0 := _mm_add_ps (M128 f0 f1 f2 f3) (M128 g0 g1 g2 g3)).
  set (c1 := _mm_add_ps (M128 f4 f5 f6 f7) (M128 g4 g5 g6 g7)).
  (* first block *)
  set (s1 := State (heap s) ((log s ++ [Load (Ptr bf 0) 4]) ++ [Load (Ptr bb 0) 4])).
  destruct (_mm_store_ps_cell s1 (Ptr br 0) c0 eq_refl)
    as (t1 & E1 & N1 & O1 & B1 & L1 & _).
  { apply (Cr 3). lia. }
  assert (Old1 : forall b o, 4 <= o -> cell_at t1 (Ptr b o) = cell_at s (Ptr b o)).
  { intros b o Ho. rewrite O1; [reflexivity|]. unfold in_quad. cbn [blk ofs]. lia. }
  (* second block *)
  set (s2 := State (heap t1) ((log t1 ++ [Load (Ptr bf 4) 4]) ++ [Load (Ptr bb 4) 4])).
  assert (C2 : forall q, cell_at s2 q = cell_at t1 q)
    by (intros q; apply cell_at_heap; reflexivity).
  destruct (_mm_store_ps_cell s2 (Ptr br 4) c1 eq_refl)
    as (t2 & E2 & N2 & O2 & B2 & L2 & _).
  { unfold ptr_add; cbn [blk ofs Nat.add]. rewrite C2, Old1 by lia. apply Cr. lia. }
  exists t2. split.
  { unfold warmup_add, for_. cbn [for_loop]. unfold ptr_add. cbn [blk ofs Nat.add].
    rewrite (decide_True (P := 0 < 8)) by lia.
    rewrite (decide_True (P := 4 < 8)) by lia.
    rewrite (decide_False (P := 8 < 8)) by lia.
    erewrite bind_ok; cycle 1.
    { rewrite (bind_ok _ _ _ _ _
                 (_mm_load_ps_cell s (Ptr bf 0) f0 f1 f2 f3 eq_refl
                    (Cf 0) (Cf 1) (Cf 2) (Cf 3))).
      erewrite bind_ok; cycle 1.
      { apply (_mm_load_ps_cell _ (Ptr bb 0) g0 g1 g2 g3 eq_refl);
          [exact (Cg 0) | exact (Cg 1) | exact (Cg 2) | exact (Cg 3)]. }
      exact E1. }
    erewrite bind_ok; cycle 1.
    { erewrite bind_ok; cycle 1.
      { apply (_mm_load_ps_cell t1 (Ptr bf 4) f4 f5 f6 f7 eq_refl);
          unfold ptr_add; cbn [blk ofs Nat.add]; rewrite Old1 by lia; apply Cf. }
      erewrite bind_ok; cycle 1.
      { apply (_mm_load_ps_cell _ (Ptr bb 4) g4 g5 g6 g7 eq_refl);
          unfold ptr_add; cbn [blk ofs Nat.add];
          (rewrite (cell_at_heap t1) by reflexivity); rewrite Old1 by lia; apply Cg. }
      exact E2. }
    reflexivity. }
  cbn [heap blk] in *.
  split; [|split].
  - destruct (cell_at_is_Some t2 (Ptr br 0)) as (d2 & Hd2 & _).
    { rewrite O2 by (unfold in_quad; cbn [blk ofs]; lia).
      rewrite C2, N1 by (unfold in_quad; cbn [blk ofs]; lia). eauto. }
    cbn [blk] in Hd2. rewrite Hd2. f_equal. apply list_eq. intros o.
    rewrite <- (cell_at_block t2 br o d2 Hd2).
    destruct (decide (o < 4)) as [H4|H4]; [|destruct (decide (o < 8)) as [H8|H8]].
    + rewrite O2 by (unfold in_quad; cbn [blk ofs]; lia).
      rewrite C2, N1 by (unfold in_quad; cbn [blk ofs]; lia). cbn [ofs].
      destruct o as [|[|[|[|o]]]]; [reflexivity.. | lia].
    + rewrite N2 by (unfold in_quad; cbn [blk ofs]; lia). cbn [ofs].
      do 4 (destruct o as [|o]; [lia|]).
      destruct o as [|[|[|[|o]]]]; [reflexivity.. | lia].
    + rewrite O2 by (unfold in_quad; cbn [blk ofs]; lia).
      rewrite C2, Old1 by lia. rewrite (cell_at_block s br o d Hr).
      rewrite lookup_ge_None_2 by lia.
      symmetry. apply lookup_ge_None_2. cbn. lia.
  - intros b Hb. rewrite B2 by exact Hb. cbn [heap]. rewrite B1 by exact Hb. reflexivity.
  - rewrite L2. unfold s2. cbn [heap]. rewrite L1. reflexivity.
Qed.

(** ** The array-of-structures dot product, from any state *)

Lemma aos_product_lanes j :
  lane (_mm_mul_ps (M128 F32.lit_1_0 F32.lit_1_0 F32.lit_1_0 F32.lit_1_0)
                   (M128 F32.lit_2_0 F32.lit_2_0 F32.lit_2_0 F32.lit_2_0)) j
  = F32.lit_2_0.
Proof. destruct j as [|[|[|[|j]]]]; vm_compute; reflexivity. Qed.

(** X8.  Lines 117-136 from any state, given an aligned pointer to four cells
    that exist: [product] is 8.0, those four cells are overwritten with
    the products 2.0, the vectors (1,1,1,1) and (2,2,2,2) sit in one new
    block, and every other cell is as it was. *)
Theorem aos_dot_anywhere r s :
  aligned16 r -> is_Some (cell_at s (r +> 3)) ->
  exists t,
    aos_dot r s = Ok lit_8_0 t
    /\ (forall q, in_quad r q -> cell_at t q = Some (Some F32.lit_2_0))
    /\ (forall q, ~ in_quad r q -> blk q <> length (heap s) -> cell_at t q = cell_at s q)
    /\ heap t !! length (heap s)
       = Some (Some <$> [F32.lit_1_0; F32.lit_1_0; F32.lit_1_0; F32.lit_1_0;
                         F32.lit_2_0; F32.lit_2_0; F32.lit_2_0; F32.lit_2_0])
    /\ length (heap t) = S (length (heap s)).
Proof.
  intros Hal Hr. set (n := length (heap s)).
  destruct (cell_at_is_Some s _ Hr) as (dr & Hdr & Hor).
  assert (Hbr : blk r < n) by (eapply lookup_lt_Some; exact Hdr).
  destruct (_aligned_malloc_cell 8 s) as (t0 & E0 & H0 & Cnew & Cold & _ & _).
  fold n in E0, Cnew, Cold.
  assert (Hsome : forall o, o < 8 -> is_Some (cell_at t0 (Ptr n o)))
    by (intros o Ho; rewrite Cnew by exact Ho; eauto).
  destruct (store_f_upd t0 (Ptr n 0) F32.lit_1_0 (cell_at t0) (fun q => eq_refl))
    as (t1 & E1 & C1 & B1 & L1); [apply Hsome; lia|].
  destruct (store_f_upd t1 (Ptr n 1) F32.lit_1_0 _ C1) as (t2 & E2 & C2 & B2 & L2);
    [repeat case_decide; eauto; apply Hsome; lia|].
  destruct (store_f_upd t2 (Ptr n 2) F32.lit_1_0 _ C2) as (t3 & E3 & C3 & B3 & L3);
    [repeat case_decide; eauto; apply Hsome; lia|].
  destruct (store_f_upd t3 (Ptr n 3) F32.lit_1_0 _ C3) as (t4 & E4 & C4 & B4 & L4);
    [repeat case_decide; eauto; apply Hsome; lia|].
  destruct (store_f_upd t4 (Ptr n 4) F32.lit_2_0 _ C4) as (t5 & E5 & C5 & B5 & L5);
    [repeat case_decide; eauto; apply Hsome; lia|].
  destruct (store_f_upd t5 (Ptr n 5) F32.lit_2_0 _ C5) as (t6 & E6 & C6 & B6 & L6);
    [repeat case_decide; eauto; apply Hsome; lia|].
  destruct (store_f_upd t6 (Ptr n 6) F32.lit_2_0 _ C6) as (t7 & E7 & C7 & B7 & L7);
    [repeat case_decide; eauto; apply Hsome; lia|].
  destruct (store_f_upd t7 (Ptr n 7) F32.lit_2_0 _ C7) as (t8 & E8 & C8 & B8 & L8);
    [repeat case_decide; eauto; apply Hsome; lia|].
  clear C1 C2 C3 C4 C5 C6 C7.
  assert (Cvec : forall o v,
            [F32.lit_1_0; F32.lit_1_0; F32.lit_1_0; F32.lit_1_0;
             F32.lit_2_0; F32.lit_2_0; F32.lit_2_0; F32.lit_2_0] !! o = Some v ->
            cell_at t8 (Ptr n o) = Some (Some v)).
  { intros o v Ho. rewrite C8.
    do 8 (destruct o as [|o];
          [injection Ho as <-; repeat case_decide; try reflexivity; congruence|]).
    discriminate Ho. }
  assert (Cout : forall q, blk q <> n -> cell_at t8 q = cell_at s q).
  { intros [b o] Hb. cbn [blk] in Hb. rewrite C8, !decide_False by congruence.
    apply Cold. exact Hb. }
  set (a := M128 F32.lit_1_0 F32.lit_1_0 F32.lit_1_0 F32.lit_1_0).
  set (b := M128 F32.lit_2_0 F32.lit_2_0 F32.lit_2_0 F32.lit_2_0).
  set (s9 := State (heap t8) ((log t8 ++ [Load (Ptr n 0) 4]) ++ [Load (Ptr n 0 +> 4) 4])).
  assert (C9 : forall q, cell_at s9 q = cell_at t8 q)
    by (intros q; apply cell_at_heap; reflexivity).
  destruct (_mm_store_ps_cell s9 r (_mm_mul_ps a b) Hal)
    as (t10 & E10 & N10 & O10 & B10 & L10 & _).
  { rewrite C9, Cout by (cbn [ptr_add blk]; lia). exact Hr. }
  assert (Cres : forall q, in_quad r q -> cell_at t10 q = Some (Some F32.lit_2_0)).
  { intros q Hq. rewrite (N10 q Hq). unfold a, b. rewrite aos_product_lanes. reflexivity. }
  assert (Hquad : forall k, k < 4 -> in_quad r (r +> k))
    by (intros k Hk; unfold in_quad, ptr_add; cbn [blk ofs]; lia).
  eexists. split.
  { unfold aos_dot.
    rewrite (bind_ok _ _ _ _ _ E0).
    unfold ptr_add at 1 2 3 4 5 6 7 8. cbn [blk ofs Nat.add].
    rewrite (bind_ok _ _ _ _ _ E1), (bind_ok _ _ _ _ _ E2), (bind_ok _ _ _ _ _ E3),
      (bind_ok _ _ _ _ _ E4), (bind_ok _ _ _ _ _ E5), (bind_ok _ _ _ _ _ E6),
      (bind_ok _ _ _ _ _ E7), (bind_ok _ _ _ _ _ E8).
    erewrite bind_ok; cycle 1.
    { apply (_mm_load_ps_cell t8 (Ptr n 0) F32.lit_1_0 F32.lit_1_0 F32.lit_1_0
               F32.lit_1_0 eq_refl); apply Cvec; reflexivity. }
    erewrite bind_ok; cycle 1.
    { apply (_mm_load_ps_cell _ (Ptr n 0 +> 4) F32.lit_2_0 F32.lit_2_0 F32.lit_2_0
               F32.lit_2_0 eq_refl);
        (rewrite (cell_at_heap t8) by reflexivity); apply Cvec; reflexivity. }
    fold a b s9. rewrite (bind_ok _ _ _ _ _ E10).
    erewrite bind_ok by (apply load_f_cell; apply Cres, Hquad; lia).
    erewrite bind_ok
      by (apply load_f_cell; (rewrite (cell_at_heap t10) by reflexivity);
          apply Cres, Hquad; lia).
    erewrite bind_ok
      by (apply load_f_cell; (rewrite (cell_at_heap t10) by reflexivity);
          apply Cres, Hquad; lia).
    erewrite bind_ok
      by (apply load_f_cell; (rewrite (cell_at_heap t10) by reflexivity);
          apply Cres, Hquad; lia).
    reflexivity. }
  cbn [heap].
  split; [|split; [|split]].
  - intros q Hq. rewrite (cell_at_heap t10) by reflexivity. apply Cres. exact Hq.
  - intros q Hq Hb. rewrite (cell_at_heap t10) by reflexivity.
    rewrite O10 by exact Hq. rewrite C9. apply Cout. exact Hb.
  - rewrite B10 by lia. unfold s9. cbn [heap].
    destruct (cell_at_is_Some t8 (Ptr n 0)) as (d8 & Hd8 & _);
      [rewrite (Cvec 0 F32.lit_1_0 eq_refl); eauto|].
    cbn [blk] in Hd8. rewrite Hd8. f_equal. apply list_eq. intros o.
    rewrite <- (cell_at_block t8 n o d8 Hd8), list_lookup_fmap.
    destruct ([F32.lit_1_0; F32.lit_1_0; F32.lit_1_0; F32.lit_1_0;
               F32.lit_2_0; F32.lit_2_0; F32.lit_2_0; F32.lit_2_0] !! o) as [v|] eqn:Ev.
    + apply Cvec. exact Ev.
    + apply lookup_ge_None_1 in Ev. cbn [length] in Ev.
      rewrite C8, !decide_False by (intros [= ?]; lia).
      rewrite (cell_at_block t0 n o (replicate 8 None)).
      * apply lookup_ge_None_2. rewrite length_replicate. exact Ev.
      * rewrite H0. unfold n. rewrite lookup_app_r, Nat.sub_diag by lia. reflexivity.
  - rewrite L10. unfold s9. cbn [heap].
    rewrite L8, L7, L6, L5, L4, L3, L2, L1, H0, length_app. cbn. lia.
Qed.

(** ** Printing *)

Lemma io_bind_ok {A B} (m : IO A) (k : A -> IO B) c s a c' s' :
  m c s = Ok (a, c') s' -> io_bind m k c s = k a c' s'.
Proof. intros E. unfold io_bind, bind. rewrite E. reflexivity. Qed.

Lemma lift_ok {A} (m : M A) c s a s' : m s = Ok a s' -> lift m c s = Ok (a, c) s'.
Proof. intros E. unfold lift, bind. rewrite E. reflexivity. Qed.

Lemma lift_fault {A} (m : M A) c s f : m s = Fault f -> lift m c s = Fault f.
Proof. intros E. unfold lift, bind. rewrite E. reflexivity. Qed.

Lemma io_for_rule (Inv : nat -> list out -> state -> Prop) body step bound n :
  forall fuel start c s,
    n < fuel ->
    (forall k, k < n -> start + k * step < bound) ->
    bound <= start + n * step ->
    Inv 0 c s ->
    (forall k c1 t, k < n -> Inv k c1 t ->
       exists c2 t', body (start + k * step) c1 t = Ok (tt, c2) t' /\ Inv (S k) c2 t') ->
    exists c' s', io_for fuel start bound step body c s = Ok (tt, c') s' /\ Inv n c' s'.
Proof.
  revert Inv. induction n as [|n IH]; intros Inv fuel start c s Hf Hlt Hge H0 Hbody.
  - destruct fuel as [|fuel]; [lia|]. cbn [io_for].
    rewrite decide_False by lia. exists c, s. split; [reflexivity | exact H0].
  - destruct fuel as [|fuel]; [lia|]. cbn [io_for].
    rewrite decide_True by (specialize (Hlt 0); lia).
    destruct (Hbody 0 c s ltac:(lia) H0) as (c1 & s1 & E1 & I1).
    replace (start + 0 * step) with start in E1 by lia.
    rewrite (io_bind_ok _ _ _ _ _ _ _ E1).
    apply (IH (fun k => Inv (S k))); try assumption; try lia.
    + intros k Hk. specialize (Hlt (S k)). lia.
    + intros k c2 t Hk It.
      destruct (Hbody (S k) c2 t ltac:(lia) It) as (c3 & t' & E & I').
      exists c3, t'. split; [|exact I'].
      replace (start + step + k * step) with (start + S k * step) by lia.
      exact E.
Qed.

Lemma io_for_fault_at (Inv : nat -> list out -> state -> Prop) body step bound f k :
  forall fuel start c s,
    k < fuel ->
    (forall j, j <= k -> start + j * step < bound) ->
    Inv 0 c s ->
    (forall j c1 t, j < k -> Inv j c1 t ->
       exists c2 t', body (start + j * step) c1 t = Ok (tt, c2) t' /\ Inv (S j) c2 t') ->
    (forall c1 t, Inv k c1 t -> body (start + k * step) c1 t = Fault f) ->
    io_for fuel start bound step body c s = Fault f.
Proof.
  revert Inv. induction k as [|k IH]; intros Inv fuel start c s Hf Hlt H0 Hbody Hfault.
  - destruct fuel as [|fuel]; [lia|]. cbn [io_for].
    rewrite decide_True by (specialize (Hlt 0); lia).
    specialize (Hfault c s H0). replace (start + 0 * step) with start in Hfault by lia.
    unfold io_bind, bind. rewrite Hfault. reflexivity.
  - destruct fuel as [|fuel]; [lia|]. cbn [io_for].
    rewrite decide_True by (specialize (Hlt 0); lia).
    destruct (Hbody 0 c s ltac:(lia) H0) as (c1 & s1 & E1 & I1).
    replace (start + 0 * step) with start in E1 by lia.
    rewrite (io_bind_ok _ _ _ _ _ _ _ E1).
    apply (IH (fun j => Inv (S j))); try assumption; try lia.
    + intros j Hj. specialize (Hlt (S j)). lia.
    + intros j c2 t Hj It.
      destruct (Hbody (S j) c2 t ltac:(lia) It) as (c3 & t' & E & I').
      exists c3, t'. split; [|exact I'].
      replace (start + step + j * step) with (start + S j * step) by lia.
      exact E.
    + intros c2 t It. replace (start + step + k * step) with (start + S k * step) by lia.
      apply Hfault. exact It.
Qed.

(** X9.  Lines 242-249.  Given that the first [length] cells from [output]
    hold the floats [vs], [printFloats] prints each of them followed by a
    newline and then one more newline, reads exactly those cells in order
    and changes no cell.  When [length] is zero or negative, [vs] is empty:
    only the newline is printed and [output] is not accessed, whatever it
    points to. *)
Theorem printFloats_prints output len (vs : list float) c s :
  length vs = Z.to_nat len ->
  (forall i v, vs !! i = Some v -> cell_at s (output +> i) = Some (Some v)) ->
  printFloats output len c s
  = Ok (tt, c ++ printed vs)
       (State (heap s) (log s ++ ((fun i => Load (output +> i) 1) <$> seq 0 (length vs)))).
Proof.
  intros Hlen Hcells. unfold printFloats, io_for_. rewrite <- Hlen.
  destruct (io_for_rule
              (fun k c' t =>
                 c' = c ++ flat_map (fun v => [PrintF v; Newline]) (take k vs)
                 /\ heap t = heap s
                 /\ log t = log s ++ ((fun i => Load (output +> i) 1) <$> seq 0 k))
              (fun i => v <~ lift (load_f (output +> i)) ;;
                        emit [PrintF v] ~~> emit [Newline])
              1 (length vs) (length vs) (S (length vs)) 0 c s)
    as (c' & t & E & -> & Hh & Hl).
  { lia. }
  { intros k Hk. lia. }
  { lia. }
  { split; [|split; [reflexivity|]].
    - cbn. rewrite app_nil_r. reflexivity.
    - cbn. rewrite app_nil_r. reflexivity. }
  { intros k c1 t Hk (-> & Hh & Hl). replace (0 + k * 1) with k by lia.
    destruct (lookup_lt_is_Some_2 vs k Hk) as [v Hv].
    exists (((c ++ flat_map (fun v => [PrintF v; Newline]) (take k vs))
               ++ [PrintF v]) ++ [Newline]).
    exists (State (heap t) (log t ++ [Load (output +> k) 1])). split.
    - erewrite io_bind_ok; cycle 1.
      { apply lift_ok, load_f_cell. rewrite (cell_at_heap s) by exact Hh.
        apply Hcells. exact Hv. }
      reflexivity.
    - cbn [heap log]. split; [|split; [exact Hh|]].
      + rewrite (take_S_r vs k v Hv), flat_map_app. cbn [flat_map app].
        rewrite <- !app_assoc. reflexivity.
      + rewrite Hl, seq_S, fmap_app. cbn [fmap list_fmap Nat.add].
        rewrite <- !app_assoc. reflexivity. }
  rewrite (io_bind_ok _ _ _ _ _ _ _ E). unfold emit, ret, printed.
  rewrite firstn_all, <- app_assoc. destruct t as [h l]. cbn [heap log] in *.
  subst h l. reflexivity.
Qed.

(** X10.  Lines 242-249.  [printFloats] trusts its [length]: with [output]
    inside a buffer whose cells from there on are all written, a [length]
    that reaches past the end of the buffer makes it read past the end. *)
Theorem printFloats_overruns output len (d : list cell) c s :
  heap s !! blk output = Some d -> ofs output <= length d ->
  (forall o, ofs output <= o < length d -> exists v, d !! o = Some (Some v)) ->
  length d < ofs output + Z.to_nat len ->
  printFloats output len c s = Fault OutOfBounds.
Proof.
  intros Hd Hin Hinit Hlong. unfold printFloats, io_for_.
  generalize dependent (Z.to_nat len). intros n Hlong.
  unfold io_bind at 1. unfold bind.
  rewrite (io_for_fault_at
             (fun k c' t => heap t = heap s)
             (fun i => v <~ lift (load_f (output +> i)) ;;
                       emit [PrintF v] ~~> emit [Newline])
             1 n OutOfBounds (length d - ofs output)).
  - reflexivity.
  - lia.
  - intros j Hj. lia.
  - reflexivity.
  - intros j c1 t Hj Hh. replace (0 + j * 1) with j by lia.
    destruct (Hinit (ofs output + j)) as [v Hv]; [lia|].
    eexists. eexists. split.
    + erewrite io_bind_ok; cycle 1.
      { apply lift_ok, load_f_cell. rewrite (cell_at_heap s) by exact Hh.
        unfold cell_at, ptr_add. cbn [blk ofs]. rewrite Hd. exact Hv. }
      reflexivity.
    + exact Hh.
  - intros c1 t Hh. unfold io_bind, bind.
    rewrite (lift_fault (load_f (output +> (0 + (length d - ofs output) * 1))) c1 t
               OutOfBounds).
    + reflexivity.
    + unfold load_f, bind.
      rewrite (peek_outside t _ d); [reflexivity | |].
      * cbn [ptr_add blk]. rewrite Hh. exact Hd.
      * cbn [ptr_add ofs]. lia.
Qed.

(** X12.  Lines 50-239.  [main] completes and prints: element 0 of each block
    of [foo], 0 and 4; the eight warm-up sums; the product 8; and the
    first eight of the 64 dot products, 4 and seven times the float nearest
    to 0.4.  Its memory ends as that of [main] without the printing. *)
Theorem main_io_console :
  exists l t t',
    main_io [] boot
    = Ok (l, [PrintF (F32.of_int 0); Space; PrintF (F32.of_int 4); Space; Newline; Newline]
             ++ printed (warm_value <$> seqZ 0 8)
             ++ [PrintF lit_8_0; Space; Newline; Newline]
             ++ printed (lit_4_0 :: replicate 7 lit_0_4)) t
    /\ main boot = Ok l t'
    /\ heap t = heap t'.
Proof.
  eexists. eexists. eexists.
  split; [vm_compute; reflexivity|].
  split; [vm_compute; reflexivity|].
  vm_compute. reflexivity.
Qed.

(** ** The kernel when the result buffer is one of the inputs *)

(** One block iteration, cell by cell, whatever the placement of the five
    buffers. *)
Lemma soa_block_cells x1 y1 z1 w1 bx by_ bz bw bd i t
      a0 a1 a2 a3 b0 b1 b2 b3 c0 c1 c2 c3 g0 g1 g2 g3 :
  i mod 4 = 0 ->
  (forall k v, [a0; a1; a2; a3] !! k = Some v -> cell_at t (Ptr bx (i + k)) = Some (Some v)) ->
  (forall k v, [b0; b1; b2; b3] !! k = Some v -> cell_at t (Ptr by_ (i + k)) = Some (Some v)) ->
  (forall k v, [c0; c1; c2; c3] !! k = Some v -> cell_at t (Ptr bz (i + k)) = Some (Some v)) ->
  (forall k v, [g0; g1; g2; g3] !! k = Some v -> cell_at t (Ptr bw (i + k)) = Some (Some v)) ->
  is_Some (cell_at t (Ptr bd (i + 3))) ->
  exists t',
    soa_block x1 y1 z1 w1 (Ptr bx 0) (Ptr by_ 0) (Ptr bz 0) (Ptr bw 0) (Ptr bd 0) i t
    = Ok tt t'
    /\ (forall q, in_quad (Ptr bd i) q ->
          cell_at t' q
          = Some (Some (lane (block_sums x1 y1 z1 w1 (M128 a0 a1 a2 a3) (M128 b0 b1 b2 b3)
                                         (M128 c0 c1 c2 c3) (M128 g0 g1 g2 g3))
                             (ofs q - i))))
    /\ (forall q, ~ in_quad (Ptr bd i) q -> cell_at t' q = cell_at t q)
    /\ (forall b, b <> bd -> heap t' !! b = heap t !! b)
    /\ length (heap t') = length (heap t).
Proof.
  intros Hal Hx Hy Hz Hw Hd.
  assert (Load4 : forall (u : state) b e0 e1 e2 e3,
            heap u = heap t ->
            (forall k v, [e0; e1; e2; e3] !! k = Some v ->
                         cell_at t (Ptr b (i + k)) = Some (Some v)) ->
            _mm_load_ps (Ptr b i) u
            = Ok (M128 e0 e1 e2 e3) (State (heap u) (log u ++ [Load (Ptr b i) 4]))).
  { intros u b e0 e1 e2 e3 Hu Hb. apply _mm_load_ps_cell; [exact Hal| | | |];
      (rewrite (cell_at_heap t) by exact Hu); unfold ptr_add; cbn [blk ofs].
    - rewrite <- (Nat.add_0_r i). apply Hb. reflexivity.
    - apply Hb. reflexivity.
    - apply Hb. reflexivity.
    - apply Hb. reflexivity. }
  set (s4 := State (heap t)
                   ((((log t ++ [Load (Ptr bx i) 4]) ++ [Load (Ptr by_ i) 4])
                     ++ [Load (Ptr bz i) 4]) ++ [Load (Ptr bw i) 4])).
  destruct (_mm_store_ps_cell s4 (Ptr bd i)
              (block_sums x1 y1 z1 w1 (M128 a0 a1 a2 a3) (M128 b0 b1 b2 b3)
                          (M128 c0 c1 c2 c3) (M128 g0 g1 g2 g3)) Hal)
    as (t' & E & Hnew & Hold & Hblk & Hlen & _).
  { rewrite (cell_at_heap t) by reflexivity. exact Hd. }
  exists t'. split.
  { unfold soa_block, ptr_add. cbn [blk ofs Nat.add].
    rewrite (bind_ok _ _ _ _ _ (Load4 t bx a0 a1 a2 a3 eq_refl Hx)).
    erewrite bind_ok by (apply Load4; [reflexivity | exact Hy]).
    erewrite bind_ok by (apply Load4; [reflexivity | exact Hz]).
    erewrite bind_ok by (apply Load4; [reflexivity | exact Hw]).
    exact E. }
  split; [exact Hnew|]. split; [|split].
  - intros q Hq. rewrite (Hold q Hq). apply cell_at_heap. reflexivity.
  - exact Hblk.
  - exact Hlen.
Qed.

Lemma quad_cells (vs : list float) t b i a0 a1 a2 a3 :
  vs !! i = Some a0 -> vs !! (i + 1) = Some a1 ->
  vs !! (i + 2) = Some a2 -> vs !! (i + 3) = Some a3 ->
  (forall o, i <= o -> cell_at t (Ptr b o) = (Some <$> vs) !! o) ->
  forall k v, [a0; a1; a2; a3] !! k = Some v -> cell_at t (Ptr b (i + k)) = Some (Some v).
Proof.
  intros H0 H1 H2 H3 Hc k v Hk. rewrite Hc by lia. rewrite list_lookup_fmap.
  destruct k as [|[|[|[|k]]]]; [| | | |discriminate Hk]; injection Hk as <-.
  - rewrite Nat.add_0_r, H0. reflexivity.
  - rewrite H1. reflexivity.
  - rewrite H2. reflexivity.
  - rewrite H3. reflexivity.
Qed.

Section Aliasing.

Variable N : nat.
Variables bx by_ bz bw bd : block.
Variables xs ys zs ws : list float.
Variable d0 : list cell.
Variable s : state.

Hypothesis Hx : heap s !! bx = Some (Some <$> xs).
Hypothesis Hy : heap s !! by_ = Some (Some <$> ys).
Hypothesis Hz : heap s !! bz = Some (Some <$> zs).
Hypothesis Hw : heap s !! bw = Some (Some <$> ws).
Hypothesis Hd : heap s !! bd = Some d0.
Hypothesis Hlen : length xs = N /\ length ys = N /\ length zs = N /\ length ws = N
                  /\ length d0 = N.

(** X13.  Lines 180-217 with nothing asked of how the five buffers are placed:
    the kernel's contract holds also when [dp] is one of the coordinate
    buffers, the reference vector being read before the loop and each
    block of four being loaded before it is stored. *)
Theorem soa_kernel_allows_aliasing :
  N mod 4 = 0 -> 4 <= N ->
  exists t d,
    soa_kernel N (Ptr bx 0) (Ptr by_ 0) (Ptr bz 0) (Ptr bw 0) (Ptr bd 0) s = Ok tt t
    /\ heap t !! bd = Some d
    /\ length d = N
    /\ (forall i x0 y0 z0 w0 xi yi zi wi,
          xs !! 0 = Some x0 -> ys !! 0 = Some y0 ->
          zs !! 0 = Some z0 -> ws !! 0 = Some w0 ->
          xs !! i = Some xi -> ys !! i = Some yi ->
          zs !! i = Some zi -> ws !! i = Some wi ->
          d !! i = Some (Some (dot_tree x0 y0 z0 w0 xi yi zi wi)))
    /\ (forall b, b <> bd -> heap t !! b = heap s !! b).
Proof.
  intros Hmod HN. destruct Hlen as (Lx & Ly & Lz & Lw & Ld).
  pose proof (Nat.div_mod_eq N 4) as Hdiv.
  destruct (lookup_lt_is_Some_2 xs 0) as [x0 X0]; [lia|].
  destruct (lookup_lt_is_Some_2 ys 0) as [y0 Y0]; [lia|].
  destruct (lookup_lt_is_Some_2 zs 0) as [z0 Z0]; [lia|].
  destruct (lookup_lt_is_Some_2 ws 0) as [w0 W0]; [lia|].
  set (Inv := fun (k : nat) (t : state) =>
    (forall o xi yi zi wi, o < 4 * k ->
       xs !! o = Some xi -> ys !! o = Some yi -> zs !! o = Some zi -> ws !! o = Some wi ->
       cell_at t (Ptr bd o) = Some (Some (dot_tree x0 y0 z0 w0 xi yi zi wi)))
    /\ (forall q, ~ (blk q = bd /\ ofs q < 4 * k) -> cell_at t q = cell_at s q)
    /\ (forall b, b <> bd -> heap t !! b = heap s !! b)
    /\ length (heap t) = length (heap s)).
  set (s' := State (heap s)
                   ((((log s ++ [Load (Ptr bx 0) 1]) ++ [Load (Ptr by_ 0) 1])
                     ++ [Load (Ptr bz 0) 1]) ++ [Load (Ptr bw 0) 1])).
  destruct (for_loop_rule Inv
              (soa_block (splat x0) (splat y0) (splat z0) (splat w0)
                         (Ptr bx 0) (Ptr by_ 0) (Ptr bz 0) (Ptr bw 0) (Ptr bd 0))
              4 N (N / 4) (S N) 0 s') as (t & Erun & (Hres & Hold & Hblk & Hl)).
  { lia. }
  { intros k Hk. lia. }
  { lia. }
  { split; [|split; [|split]]; try reflexivity. intros o ? ? ? ? Ho. lia. }
  { intros k t Hk (Hres & Hold & Hblk & Hl).
    replace (0 + k * 4) with (4 * k) by lia.
    destruct (four_at xs (4 * k)) as (a0 & a1 & a2 & a3 & A0 & A1 & A2 & A3); [lia|].
    destruct (four_at ys (4 * k)) as (b0 & b1 & b2 & b3 & B0 & B1 & B2 & B3); [lia|].
    destruct (four_at zs (4 * k)) as (c0 & c1 & c2 & c3 & C0 & C1 & C2 & C3); [lia|].
    destruct (four_at ws (4 * k)) as (g0 & g1 & g2 & g3 & G0 & G1 & G2 & G3); [lia|].
    assert (Hin : forall b (vs : list float), heap s !! b = Some (Some <$> vs) ->
              forall o, 4 * k <= o -> cell_at t (Ptr b o) = (Some <$> vs) !! o).
    { intros b vs Hb o Ho. rewrite Hold by (cbn [blk ofs]; lia).
      apply cell_at_block. exact Hb. }
    destruct (soa_block_cells (splat x0) (splat y0) (splat z0) (splat w0)
                bx by_ bz bw bd (4 * k) t
                a0 a1 a2 a3 b0 b1 b2 b3 c0 c1 c2 c3 g0 g1 g2 g3)
      as (t' & E & Hnew & Hold' & Hblk' & Hl').
    { rewrite Nat.mul_comm. apply Nat.Div0.mod_mul. }
    { apply (quad_cells xs); auto. }
    { apply (quad_cells ys); auto. }
    { apply (quad_cells zs); auto. }
    { apply (quad_cells ws); auto. }
    { rewrite Hold by (cbn [blk ofs]; lia). rewrite (cell_at_block s bd _ d0 Hd).
      apply lookup_lt_is_Some. lia. }
    exists t'. split; [exact E|]. split; [|split; [|split]].
    - intros o xi yi zi wi Ho Xi Yi Zi Wi.
      destruct (decide (o < 4 * k)) as [Hlt|Hge].
      + rewrite Hold' by (unfold in_quad; cbn [blk ofs]; lia). apply Hres; assumption.
      + rewrite Hnew by (unfold in_quad; cbn [blk ofs]; lia). cbn [ofs].
        assert (Hc : o = 4 * k \/ o = 4 * k + 1 \/ o = 4 * k + 2 \/ o = 4 * k + 3) by lia.
        unfold block_sums, dot_tree, _mm_add_ps, _mm_mul_ps, splat. cbn [e0 e1 e2 e3].
        destruct Hc as [-> | [-> | [-> | ->]]].
        * replace (4 * k - 4 * k) with 0 by lia. cbn [lane e0]. repeat f_equal; congruence.
        * replace (4 * k + 1 - 4 * k) with 1 by lia. cbn [lane e1].
          repeat f_equal; congruence.
        * replace (4 * k + 2 - 4 * k) with 2 by lia. cbn [lane e2].
          repeat f_equal; congruence.
        * replace (4 * k + 3 - 4 * k) with 3 by lia. cbn [lane e3].
          repeat f_equal; congruence.
    - intros q Hq. rewrite Hold' by (unfold in_quad; cbn [blk ofs]; lia).
      apply Hold. lia.
    - intros b Hb. rewrite Hblk' by exact Hb. apply Hblk. exact Hb.
    - lia. }
  destruct (cell_at_is_Some t (Ptr bd 0)) as (d & Hdt & _).
  { rewrite (Hres 0 x0 y0 z0 w0) by (assumption || lia). eauto. }
  cbn [blk] in Hdt.
  assert (Hd_o : forall o, d !! o = cell_at t (Ptr bd o))
    by (intros o; symmetry; apply cell_at_block; exact Hdt).
  exists t, d. split.
  { unfold soa_kernel.
    erewrite bind_ok by (apply _mm_load1_ps_ok with (vs := xs); eauto).
    erewrite bind_ok by (apply _mm_load1_ps_ok with (vs := ys); eauto).
    erewrite bind_ok by (apply _mm_load1_ps_ok with (vs := zs); eauto).
    erewrite bind_ok by (apply _mm_load1_ps_ok with (vs := ws); eauto).
    exact Erun. }
  split; [exact Hdt|]. split; [|split].
  - apply Nat.le_antisymm.
    + apply Nat.nlt_ge. intros Hlong.
      assert (Hsome : is_Some (d !! N)) by (apply lookup_lt_is_Some; lia).
      rewrite Hd_o, Hold in Hsome by (cbn [blk ofs]; lia).
      rewrite (cell_at_block s bd N d0 Hd), lookup_ge_None_2 in Hsome by lia.
      destruct Hsome as [? [=]].
    + destruct (lookup_lt_is_Some_2 xs (N - 1)) as [xi Xi]; [lia|].
      destruct (lookup_lt_is_Some_2 ys (N - 1)) as [yi Yi]; [lia|].
      destruct (lookup_lt_is_Some_2 zs (N - 1)) as [zi Zi]; [lia|].
      destruct (lookup_lt_is_Some_2 ws (N - 1)) as [wi Wi]; [lia|].
      pose proof (Hres (N - 1) xi yi zi wi ltac:(lia) Xi Yi Zi Wi) as Hlast.
      rewrite <- Hd_o in Hlast. apply lookup_lt_Some in Hlast. lia.
  - intros i x0' y0' z0' w0' xi yi zi wi X0' Y0' Z0' W0' Xi Yi Zi Wi.
    assert (Hi : i < 4 * (N / 4)) by (apply lookup_lt_Some in Xi; lia).
    rewrite Hd_o, (Hres i xi yi zi wi Hi Xi Yi Zi Wi).
    repeat f_equal; congruence.
  - exact Hblk.
Qed.

End Aliasing.

(** ** Running the kernel again *)

Section Again.

Variable N : nat.
Variables bx by_ bz bw bd : block.
Variables xs ys zs ws : list float.

(** X14.  Lines 180-217 twice in a row on separate buffers: the inputs being
    untouched by the first run, the second run completes and leaves the
    memory the first run left. *)
Theorem soa_kernel_twice s :
  soa_ready N bx by_ bz bw bd xs ys zs ws s -> N mod 4 = 0 -> 4 <= N ->
  exists t1 t2,
    soa_kernel N (Ptr bx 0) (Ptr by_ 0) (Ptr bz 0) (Ptr bw 0) (Ptr bd 0) s = Ok tt t1
    /\ soa_kernel N (Ptr bx 0) (Ptr by_ 0) (Ptr bz 0) (Ptr bw 0) (Ptr bd 0) t1 = Ok tt t2
    /\ heap t2 = heap t1.
Proof.
  intros R Hmod HN.
  destruct (soa_kernel_contract N bx by_ bz bw bd xs ys zs ws s R Hmod HN)
    as (t1 & d1 & E1 & Hh1 & Hd1 & Hres1 & _).
  pose proof R as [Rx Ry Rz Rw (d0 & Rd & Hd0) (Lx & Ly & Lz & Lw) (Sx & Sy & Sz & Sw)].
  assert (Hbd : bd < length (heap s)) by (eapply lookup_lt_Some; exact Rd).
  assert (R1 : soa_ready N bx by_ bz bw bd xs ys zs ws t1).
  { split.
    - rewrite Hh1, list_lookup_insert_ne by exact Sx. exact Rx.
    - rewrite Hh1, list_lookup_insert_ne by exact Sy. exact Ry.
    - rewrite Hh1, list_lookup_insert_ne by exact Sz. exact Rz.
    - rewrite Hh1, list_lookup_insert_ne by exact Sw. exact Rw.
    - exists d1. split; [|exact Hd1]. rewrite Hh1. apply list_lookup_insert_eq. exact Hbd.
    - auto.
    - auto. }
  destruct (soa_kernel_contract N bx by_ bz bw bd xs ys zs ws t1 R1 Hmod HN)
    as (t2 & d2 & E2 & Hh2 & Hd2 & Hres2 & _).
  exists t1, t2. split; [exact E1|]. split; [exact E2|].
  assert (d2 = d1) as ->.
  { apply list_eq. intros i. destruct (decide (i < N)) as [Hi|Hi].
    - destruct (lookup_lt_is_Some_2 xs 0) as [x0 X0]; [lia|].
      destruct (lookup_lt_is_Some_2 ys 0) as [y0 Y0]; [lia|].
      destruct (lookup_lt_is_Some_2 zs 0) as [z0 Z0]; [lia|].
      destruct (lookup_lt_is_Some_2 ws 0) as [w0 W0]; [lia|].
      destruct (lookup_lt_is_Some_2 xs i) as [xi Xi]; [lia|].
      destruct (lookup_lt_is_Some_2 ys i) as [yi Yi]; [lia|].
      destruct (lookup_lt_is_Some_2 zs i) as [zi Zi]; [lia|].
      destruct (lookup_lt_is_Some_2 ws i) as [wi Wi]; [lia|].
      rewrite (Hres1 i x0 y0 z0 w0 xi yi zi wi), (Hres2 i x0 y0 z0 w0 xi yi zi wi);
        auto.
    - rewrite !lookup_ge_None_2 by lia. reflexivity. }
  rewrite Hh2, Hh1. apply list_insert_insert_eq.
Qed.

End Again.

(** ** Instances *)

Lemma printFloats_prints_witness :
  (length [F32.lit_1_0; F32.lit_2_0] = Z.to_nat 2
   /\ (forall i v, [F32.lit_1_0; F32.lit_2_0] !! i = Some v ->
         cell_at (State [Some <$> [F32.lit_1_0; F32.lit_2_0]] []) (Ptr 0 0 +> i)
         = Some (Some v)))
  /\ printFloats (Ptr 0 0) 2 [] (State [Some <$> [F32.lit_1_0; F32.lit_2_0]] [])
     = Ok (tt, [] ++ printed [F32.lit_1_0; F32.lit_2_0])
          (State (heap (State [Some <$> [F32.lit_1_0; F32.lit_2_0]] []))
                 (log (State [Some <$> [F32.lit_1_0; F32.lit_2_0]] [])
                  ++ ((fun i => Load (Ptr 0 0 +> i) 1)
                        <$> seq 0 (length [F32.lit_1_0; F32.lit_2_0])))).
Proof.
  assert (H : forall i v, [F32.lit_1_0; F32.lit_2_0] !! i = Some v ->
              cell_at (State [Some <$> [F32.lit_1_0; F32.lit_2_0]] []) (Ptr 0 0 +> i)
              = Some (Some v)).
  { intros i v Hv. destruct i as [|[|i]]; [| |discriminate Hv];
      injection Hv as <-; reflexivity. }
  split; [split; [reflexivity | exact H]|].
  apply (printFloats_prints (Ptr 0 0) 2 [F32.lit_1_0; F32.lit_2_0] []
           (State [Some <$> [F32.lit_1_0; F32.lit_2_0]] [])).
  - reflexivity.
  - exact H.
Defined.

Lemma printFloats_overruns_witness :
  (heap (State [Some <$> [F32.lit_1_0; F32.lit_2_0]] []) !! blk (Ptr 0 0)
   = Some (Some <$> [F32.lit_1_0; F32.lit_2_0])
   /\ ofs (Ptr 0 0) <= length (Some <$> [F32.lit_1_0; F32.lit_2_0])
   /\ (forall o, ofs (Ptr 0 0) <= o < length (Some <$> [F32.lit_1_0; F32.lit_2_0]) ->
         exists v, (Some <$> [F32.lit_1_0; F32.lit_2_0]) !! o = Some (Some v))
   /\ length (Some <$> [F32.lit_1_0; F32.lit_2_0]) < ofs (Ptr 0 0) + Z.to_nat 3)
  /\ printFloats (Ptr 0 0) 3 [] (State [Some <$> [F32.lit_1_0; F32.lit_2_0]] [])
     = Fault OutOfBounds.
Proof.
  assert (H : forall o, ofs (Ptr 0 0) <= o < length (Some <$> [F32.lit_1_0; F32.lit_2_0]) ->
              exists v, (Some <$> [F32.lit_1_0; F32.lit_2_0]) !! o = Some (Some v)).
  { intros o Ho. cbn in Ho. destruct o as [|[|o]]; [eexists; reflexivity.. | lia]. }
  split; [split; [reflexivity | split; [cbn; lia | split; [exact H | cbn; lia]]]|].
  apply (printFloats_overruns (Ptr 0 0) 3 (Some <$> [F32.lit_1_0; F32.lit_2_0]) []
           (State [Some <$> [F32.lit_1_0; F32.lit_2_0]] [])).
  - reflexivity.
  - cbn. lia.
  - exact H.
  - cbn. lia.
Defined.

Lemma soa_fill_initialises_witness :
  (1 <= 3 /\ NoDup [0; 1; 2; 3]
   /\ (forall b, b ∈ [0; 1; 2; 3] ->
         exists d, heap (State (replicate 4 (replicate 3 None)) []) !! b = Some d
                   /\ length d = 3))
  /\ exists t,
      soa_fill 3 (Ptr 0 0) (Ptr 1 0) (Ptr 2 0) (Ptr 3 0)
               (State (replicate 4 (replicate 3 None)) []) = Ok tt t
      /\ (forall b, b ∈ [0; 1; 2; 3] -> heap t !! b = Some (Some <$> filled 3))
      /\ (forall b, b ∉ [0; 1; 2; 3] ->
            heap t !! b = heap (State (replicate 4 (replicate 3 None)) []) !! b)
      /\ length (heap t) = length (heap (State (replicate 4 (replicate 3 None)) [])).
Proof.
  assert (Hn : NoDup [0; 1; 2; 3]).
  { repeat (apply NoDup_cons; split; [rewrite ?not_elem_of_cons, ?elem_of_nil; lia|]).
    apply NoDup_nil_2. }
  assert (Hb : forall b, b ∈ [0; 1; 2; 3] ->
             exists d, heap (State (replicate 4 (replicate 3 None)) []) !! b = Some d
                       /\ length d = 3).
  { intros b H. rewrite !elem_of_cons, elem_of_nil in H.
    destruct H as [-> | [-> | [-> | [-> | []]]]]; eexists; split; reflexivity. }
  split; [split; [lia | split; [exact Hn | exact Hb]]|].
  apply (soa_fill_initialises 3 0 1 2 3 (State (replicate 4 (replicate 3 None)) []));
    [lia | exact Hn | exact Hb].
Defined.

Lemma soa_setup_makes_ready_witness :
  1 <= 4
  /\ exists t,
      soa_setup 4 boot
      = Ok (SoaBufs (Ptr (length (heap boot)) 0) (Ptr (length (heap boot) + 1) 0)
                    (Ptr (length (heap boot) + 2) 0) (Ptr (length (heap boot) + 3) 0)
                    (Ptr (length (heap boot) + 4) 0)) t
      /\ soa_ready 4 (length (heap boot)) (length (heap boot) + 1) (length (heap boot) + 2)
           (length (heap boot) + 3) (length (heap boot) + 4)
           (filled 4) (filled 4) (filled 4) (filled 4) t
      /\ (forall b, b < length (heap boot) -> heap t !! b = heap boot !! b)
      /\ length (heap t) = length (heap boot) + 5.
Proof.
  split; [lia|]. apply (soa_setup_makes_ready 4 boot). lia.
Defined.

Lemma soa_demo_any_length_witness :
  (16 mod 4 = 0 /\ 4 <= 16)
  /\ exists b t,
      soa_demo 16 before_kernel = Ok b t
      /\ blk (sb_dp b) = length (heap before_kernel) + 4
      /\ heap t !! blk (sb_dp b) = Some (Some lit_4_0 :: replicate (16 - 1) (Some lit_0_4))
      /\ (forall b', b' < length (heap before_kernel) ->
            heap t !! b' = heap before_kernel !! b').
Proof.
  split; [split; [reflexivity | lia]|].
  apply (soa_demo_any_length 16 before_kernel); [reflexivity | lia].
Defined.

Lemma soa_kernel_ragged_length_overruns_witness :
  (soa_ready 6 0 1 2 3 4 (filled 6) (filled 6) (filled 6) (filled 6)
     (isolated (filled 6) (filled 6) (filled 6) (filled 6))
   /\ 6 mod 4 <> 0)
  /\ exists t d x0 y0 z0 w0,
      filled 6 !! 0 = Some x0 /\ filled 6 !! 0 = Some y0
      /\ filled 6 !! 0 = Some z0 /\ filled 6 !! 0 = Some w0
      /\ soa_kernel 6 (Ptr 0 0) (Ptr 1 0) (Ptr 2 0) (Ptr 3 0) (Ptr 4 0)
           (isolated (filled 6) (filled 6) (filled 6) (filled 6))
         = (soa_kernel (4 * (6 / 4)) (Ptr 0 0) (Ptr 1 0) (Ptr 2 0) (Ptr 3 0) (Ptr 4 0) ;;;
            soa_block (splat x0) (splat y0) (splat z0) (splat w0)
                      (Ptr 0 0) (Ptr 1 0) (Ptr 2 0) (Ptr 3 0) (Ptr 4 0) (4 * (6 / 4)))
             (isolated (filled 6) (filled 6) (filled 6) (filled 6))
      /\ soa_kernel (4 * (6 / 4)) (Ptr 0 0) (Ptr 1 0) (Ptr 2 0) (Ptr 3 0) (Ptr 4 0)
           (isolated (filled 6) (filled 6) (filled 6) (filled 6)) = Ok tt t
      /\ heap t !! 4 = Some d
      /\ (forall i xi yi zi wi,
            i < 4 * (6 / 4) ->
            filled 6 !! i = Some xi -> filled 6 !! i = Some yi ->
            filled 6 !! i = Some zi -> filled 6 !! i = Some wi ->
            d !! i = Some (Some (dot_tree x0 y0 z0 w0 xi yi zi wi)))
      /\ log t = log (isolated (filled 6) (filled 6) (filled 6) (filled 6))
                 ++ kernel_accesses (4 * (6 / 4)) (Ptr 0 0) (Ptr 1 0) (Ptr 2 0)
                                    (Ptr 3 0) (Ptr 4 0)
      /\ _mm_load_ps (Ptr 0 0 +> 4 * (6 / 4)) t = Fault OutOfBounds
      /\ soa_kernel 6 (Ptr 0 0) (Ptr 1 0) (Ptr 2 0) (Ptr 3 0) (Ptr 4 0)
           (isolated (filled 6) (filled 6) (filled 6) (filled 6))
         = Fault OutOfBounds.
Proof.
  assert (R : soa_ready 6 0 1 2 3 4 (filled 6) (filled 6) (filled 6) (filled 6)
                (isolated (filled 6) (filled 6) (filled 6) (filled 6)))
    by (apply (isolated_ready (filled 6) (filled 6) (filled 6) (filled 6)); reflexivity).
  assert (H : 6 mod 4 <> 0) by (cbn; lia).
  split; [split; [exact R | exact H]|].
  exact (soa_kernel_ragged_length_overruns 6 0 1 2 3 4
           (filled 6) (filled 6) (filled 6) (filled 6)
           (isolated (filled 6) (filled 6) (filled 6) (filled 6)) R H).
Defined.

Lemma empty_buffers_fault_witness :
  heap (State [[]] []) !! 0 = Some []
  /\ (forall n y z w dp, soa_kernel n (Ptr 0 0) y z w dp (State [[]] []) = Fault OutOfBounds)
  /\ (forall y z w, soa_fill 0 (Ptr 0 0) y z w (State [[]] []) = Fault OutOfBounds).
Proof.
  split; [reflexivity|]. apply (empty_buffers_fault 0 (State [[]] [])). reflexivity.
Defined.

Lemma soa_kernel_twice_witness :
  (soa_ready 64 4 5 6 7 8 (filled 64) (filled 64) (filled 64) (filled 64) before_kernel
   /\ 64 mod 4 = 0 /\ 4 <= 64)
  /\ exists t1 t2,
      soa_kernel 64 (Ptr 4 0) (Ptr 5 0) (Ptr 6 0) (Ptr 7 0) (Ptr 8 0) before_kernel
      = Ok tt t1
      /\ soa_kernel 64 (Ptr 4 0) (Ptr 5 0) (Ptr 6 0) (Ptr 7 0) (Ptr 8 0) t1 = Ok tt t2
      /\ heap t2 = heap t1.
Proof.
  split; [split; [exact before_kernel_ready | split; [reflexivity | lia]]|].
  apply (soa_kernel_twice 64 4 5 6 7 8 (filled 64) (filled 64) (filled 64) (filled 64)
           before_kernel);
    [exact before_kernel_ready | reflexivity | lia].
Defined.

Lemma aos_dot_anywhere_witness :
  (aligned16 (Ptr 2 4) /\ is_Some (cell_at before_kernel (Ptr 2 4 +> 3)))
  /\ exists t,
      aos_dot (Ptr 2 4) before_kernel = Ok lit_8_0 t
      /\ (forall q, in_quad (Ptr 2 4) q -> cell_at t q = Some (Some F32.lit_2_0))
      /\ (forall q, ~ in_quad (Ptr 2 4) q -> blk q <> length (heap before_kernel) ->
            cell_at t q = cell_at before_kernel q)
      /\ heap t !! length (heap before_kernel)
         = Some (Some <$> [F32.lit_1_0; F32.lit_1_0; F32.lit_1_0; F32.lit_1_0;
                           F32.lit_2_0; F32.lit_2_0; F32.lit_2_0; F32.lit_2_0])
      /\ length (heap t) = S (length (heap before_kernel)).
Proof.
  assert (H : is_Some (cell_at before_kernel (Ptr 2 4 +> 3))) by (vm_compute; eauto).
  split; [split; [reflexivity | exact H]|].
  apply (aos_dot_anywhere (Ptr 2 4) before_kernel); [reflexivity | exact H].
Defined.

Lemma warmup_add_sums_witness :
  (heap (State [Some <$> replicate 8 F32.lit_1_0; Some <$> replicate 8 F32.lit_2_0] []) !! 0
   = Some (Some <$> replicate 8 F32.lit_1_0)
   /\ heap (State [Some <$> replicate 8 F32.lit_1_0; Some <$> replicate 8 F32.lit_2_0] []) !! 1
      = Some (Some <$> replicate 8 F32.lit_2_0)
   /\ heap (State [Some <$> replicate 8 F32.lit_1_0; Some <$> replicate 8 F32.lit_2_0] []) !! 0
      = Some (Some <$> replicate 8 F32.lit_1_0)
   /\ length (replicate 8 F32.lit_1_0) = 8
   /\ length (replicate 8 F32.lit_2_0) = 8
   /\ length (Some <$> replicate 8 F32.lit_1_0) = 8)
  /\ exists t,
      warmup_add (Ptr 0 0) (Ptr 1 0) (Ptr 0 0)
        (State [Some <$> replicate 8 F32.lit_1_0; Some <$> replicate 8 F32.lit_2_0] [])
      = Ok tt t
      /\ heap t !! 0
         = Some (Some <$> zip_with F32.add (replicate 8 F32.lit_1_0) (replicate 8 F32.lit_2_0))
      /\ (forall b, b <> 0 ->
            heap t !! b
            = heap (State [Some <$> replicate 8 F32.lit_1_0;
                           Some <$> replicate 8 F32.lit_2_0] []) !! b)
      /\ length (heap t)
         = length (heap (State [Some <$> replicate 8 F32.lit_1_0;
                                Some <$> replicate 8 F32.lit_2_0] [])).
Proof.
  split; [repeat split; reflexivity|].
  apply (warmup_add_sums 0 1 0 (replicate 8 F32.lit_1_0) (replicate 8 F32.lit_2_0)
           (Some <$> replicate 8 F32.lit_1_0)
           (State [Some <$> replicate 8 F32.lit_1_0; Some <$> replicate 8 F32.lit_2_0] []));
    reflexivity.
Defined.

Lemma soa_kernel_shorter_bound_witness :
  (soa_ready 64 4 5 6 7 8 (filled 64) (filled 64) (filled 64) (filled 64) before_kernel
   /\ 8 mod 4 = 0 /\ 8 <= 64 /\ 1 <= 64)
  /\ exists t d0 d,
      soa_kernel 8 (Ptr 4 0) (Ptr 5 0) (Ptr 6 0) (Ptr 7 0) (Ptr 8 0) before_kernel = Ok tt t
      /\ heap before_kernel !! 8 = Some d0
      /\ heap t = <[8 := d]> (heap before_kernel)
      /\ length d = 64
      /\ (forall i x0 y0 z0 w0 xi yi zi wi,
            i < 8 ->
            filled 64 !! 0 = Some x0 -> filled 64 !! 0 = Some y0 ->
            filled 64 !! 0 = Some z0 -> filled 64 !! 0 = Some w0 ->
            filled 64 !! i = Some xi -> filled 64 !! i = Some yi ->
            filled 64 !! i = Some zi -> filled 64 !! i = Some wi ->
            d !! i = Some (Some (dot_tree x0 y0 z0 w0 xi yi zi wi)))
      /\ (forall i, 8 <= i -> d !! i = d0 !! i)
      /\ log t = log before_kernel
                 ++ kernel_accesses 8 (Ptr 4 0) (Ptr 5 0) (Ptr 6 0) (Ptr 7 0) (Ptr 8 0).
Proof.
  split; [split; [exact before_kernel_ready | split; [reflexivity | lia]]|].
  apply (soa_kernel_shorter_bound 64 4 5 6 7 8
           (filled 64) (filled 64) (filled 64) (filled 64) before_kernel 8);
    [exact before_kernel_ready | reflexivity | lia | lia].
Defined.

Lemma soa_kernel_allows_aliasing_witness :
  (heap (isolated (filled 8) (filled 8) (filled 8) (filled 8)) !! 0
   = Some (Some <$> filled 8)
   /\ heap (isolated (filled 8) (filled 8) (filled 8) (filled 8)) !! 1
      = Some (Some <$> filled 8)
   /\ heap (isolated (filled 8) (filled 8) (filled 8) (filled 8)) !! 2
      = Some (Some <$> filled 8)
   /\ heap (isolated (filled 8) (filled 8) (filled 8) (filled 8)) !! 3
      = Some (Some <$> filled 8)
   /\ heap (isolated (filled 8) (filled 8) (filled 8) (filled 8)) !! 0
      = Some (Some <$> filled 8)
   /\ (length (filled 8) = 8 /\ length (filled 8) = 8 /\ length (filled 8) = 8
       /\ length (filled 8) = 8 /\ length (Some <$> filled 8) = 8)
   /\ 8 mod 4 = 0 /\ 4 <= 8)
  /\ exists t d,
      soa_kernel 8 (Ptr 0 0) (Ptr 1 0) (Ptr 2 0) (Ptr 3 0) (Ptr 0 0)
        (isolated (filled 8) (filled 8) (filled 8) (filled 8)) = Ok tt t
      /\ heap t !! 0 = Some d
      /\ length d = 8
      /\ (forall i x0 y0 z0 w0 xi yi zi wi,
            filled 8 !! 0 = Some x0 -> filled 8 !! 0 = Some y0 ->
            filled 8 !! 0 = Some z0 -> filled 8 !! 0 = Some w0 ->
            filled 8 !! i = Some xi -> filled 8 !! i = Some yi ->
            filled 8 !! i = Some zi -> filled 8 !! i = Some wi ->
            d !! i = Some (Some (dot_tree x0 y0 z0 w0 xi yi zi wi)))
      /\ (forall b, b <> 0 ->
            heap t !! b = heap (isolated (filled 8) (filled 8) (filled 8) (filled 8)) !! b).
Proof.
  split; [repeat split; try reflexivity; lia|].
  apply (soa_kernel_allows_aliasing 8 0 1 2 3 0
           (filled 8) (filled 8) (filled 8) (filled 8) (Some <$> filled 8)
           (isolated (filled 8) (filled 8) (filled 8) (filled 8)));
    try reflexivity; [repeat split; reflexivity | lia].
Defined.
